(** * Multi-agent pipeline: ambiguity detection, tolerant parsing, retries

    A shallow embedding of the orchestration-and-parsing core of the
    agents under [src/agents]:

    - [requirement_agent.py]: [_detect_ambiguity], the composition of the
      Requirement-stage prompt, the JSON extraction of [analyze] and
      [_parse_fallback];
    - [deployment_agent.py]: the retry loop of [generate_deployment_config]
      and [_parse_deployment_output] with its four canned defaults;
    - [documentation_agent.py] and [test_agent.py]: the single service call
      of [generate_documentation] and [generate_tests].

    Conventions.  A Python [str] is a [string] whose characters are the
    code points U+0000..U+00FF; character classes ([\w], whitespace, case
    folding) are those of Python 3 on that range.  Python integers are [Z].
    A [dict] with string keys is a [gmap string _].  A call that may raise
    returns a [result]; code that talks to the completion service or sleeps
    threads the trace of calls and sleeps through.  Logging has no effect on
    results and is left out, except where building the log line can raise.
    The JSON decoder [json.loads] is a library function: [analyze] takes it
    as a parameter, and a decoder for a fragment of JSON instantiates it. *)

From Stdlib Require Import ZArith Lia List Bool Ascii String Floats DecimalString.
From stdpp Require Import base option list gmap strings.

#[local] Set Warnings "-register-all".
#[local] Open Scope Z_scope.

(** ** Python strings *)

Module Str.

Definition code (c : ascii) : N := N_of_ascii c.

Definition between (lo hi : N) (c : ascii) : bool :=
  ((lo <=? code c) && (code c <=? hi))%N.

(** [str.isspace] on U+0000..U+00FF, the characters [str.strip()] removes. *)
Definition is_space (c : ascii) : bool :=
  between 9 13 c || between 28 32 c || (code c =? 133)%N || (code c =? 160)%N.

(** The class [\w] of [re] on U+0000..U+00FF. *)
Definition is_word (c : ascii) : bool :=
  between 48 57 c || between 65 90 c || (code c =? 95)%N || between 97 122 c
  || (code c =? 170)%N || between 178 179 c || (code c =? 181)%N
  || between 185 186 c || between 188 190 c
  || between 192 214 c || between 216 246 c || between 248 255 c.

(** [str.lower] on one character of U+0000..U+00FF. *)
Definition lower (c : ascii) : ascii :=
  if between 65 90 c || (between 192 222 c && negb (code c =? 215)%N)
  then ascii_of_N (code c + 32) else c.

Definition len (s : string) : Z := Z.of_nat (String.length s).

(** [s.find(sub, start)] for [0 <= start]: lowest index or [-1]. *)
Definition find (s sub : string) (start : Z) : Z :=
  match String.index (Z.to_nat start) sub s with
  | Some i => Z.of_nat i
  | None => -1
  end.

(** [sub in s]. *)
Definition contains (sub s : string) : bool :=
  match String.index 0 sub s with Some _ => true | None => false end.

Fixpoint rindex (sub s : string) : option nat :=
  match s with
  | EmptyString => if String.prefix sub s then Some 0%nat else None
  | String _ s' =>
      match rindex sub s' with
      | Some i => Some (S i)
      | None => if String.prefix sub s then Some 0%nat else None
      end
  end.

(** [s.rfind(sub)]: highest index or [-1]. *)
Definition rfind (s sub : string) : Z :=
  match rindex sub s with Some i => Z.of_nat i | None => -1 end.

(** A slice bound as Python normalises it: negative bounds count from the
    end, and every bound is clipped to [0, len s]. *)
Definition clip (s : string) (i : Z) : Z :=
  if i <? 0 then Z.max (i + len s) 0 else Z.min i (len s).

(** [s[lo:hi]]. *)
Definition slice (s : string) (lo hi : Z) : string :=
  let lo' := clip s lo in
  let hi' := clip s hi in
  String.substring (Z.to_nat lo') (Z.to_nat (hi' - lo')) s.

(** [s[lo:]]. *)
Definition slice_from (s : string) (lo : Z) : string :=
  slice s lo (len s).

(** [s[:hi]]. *)
Definition slice_to (s : string) (hi : Z) : string :=
  slice s 0 hi.

Fixpoint lstrip (s : string) : string :=
  match s with
  | EmptyString => EmptyString
  | String c s' => if is_space c then lstrip s' else s
  end.

Fixpoint rstrip (s : string) : string :=
  match s with
  | EmptyString => EmptyString
  | String c s' =>
      match rstrip s' with
      | EmptyString => if is_space c then EmptyString else String c EmptyString
      | r => String c r
      end
  end.

(** [s.strip()]. *)
Definition strip (s : string) : string := rstrip (lstrip s).

(** Truth value of a [str]: non-empty. *)
Definition truthy (s : string) : bool :=
  match s with EmptyString => false | _ => true end.

(** [sep.join(l)]. *)
Definition join (sep : string) (l : list string) : string :=
  String.concat sep l.

(** The double quote and the line feed, for literals that contain them. *)
Definition dq : string := String (ascii_of_nat 34) EmptyString.
Definition nl : string := String (ascii_of_nat 10) EmptyString.

(** The lines of a multi-line literal, joined by line feeds. *)
Definition lines (l : list string) : string := join nl l.

(** [str(n)] for a natural number. *)
Definition of_nat (n : nat) : string :=
  NilZero.string_of_uint (Nat.to_uint n).

End Str.

(** ** Regular expressions of the detector

    Every pattern of [_detect_ambiguity] has the shape [\b(a1|...|an)\b]
    with literal alternatives, and is searched with [re.IGNORECASE]. *)

Module Re.

Record pattern := WordAlt { alts : list string }.

(** [\b] between two neighbours, [None] standing for an end of the text. *)
Definition boundary (prev next : option ascii) : bool :=
  xorb (from_option Str.is_word false prev) (from_option Str.is_word false next).

Definition head (s : string) : option ascii :=
  match s with EmptyString => None | String c _ => Some c end.

(** Consume the literal [lit] at the front of [s], ignoring case: the last
    character read (or [prev] if none) and the rest of the text. *)
Fixpoint literal (lit s : string) (prev : option ascii)
  : option (option ascii * string) :=
  match lit with
  | EmptyString => Some (prev, s)
  | String a lit' =>
      match s with
      | EmptyString => None
      | String c s' =>
          if Ascii.eqb (Str.lower c) (Str.lower a)
          then literal lit' s' (Some c) else None
      end
  end.

(** One alternative followed by the closing [\b], at the front of [s]. *)
Definition alt_here (prev : option ascii) (s : string) (a : string) : bool :=
  match literal a s prev with
  | Some (last, rest) => boundary last (head rest)
  | None => false
  end.

(** The whole pattern at the front of [s], [prev] being the character
    before it. *)
Definition match_here (p : pattern) (prev : option ascii) (s : string) : bool :=
  boundary prev (head s) && existsb (alt_here prev s) (alts p).

Fixpoint search_from (p : pattern) (prev : option ascii) (s : string) : bool :=
  match_here p prev s
  || match s with
     | EmptyString => false
     | String c s' => search_from p (Some c) s'
     end.

(** [re.search(p, s, re.IGNORECASE)] as a truth value. *)
Definition search (p : pattern) (s : string) : bool :=
  search_from p None s.

End Re.

(** ** Python values, exceptions, results *)

(** The values [json.loads] produces. *)
Inductive pyval :=
| PyNone
| PyBool (b : bool)
| PyInt (z : Z)
| PyFloat (f : float)
| PyStr (s : string)
| PyList (l : list pyval)
| PyDict (m : gmap string pyval).

(** [bool(v)]. *)
Definition truthy (v : pyval) : bool :=
  match v with
  | PyNone => false
  | PyBool b => b
  | PyInt z => negb (z =? 0)
  | PyFloat f => negb (PrimFloat.eqb f 0%float)
  | PyStr s => Str.truthy s
  | PyList l => match l with [] => false | _ => true end
  | PyDict m => negb (bool_decide (m = ∅))
  end.

Inductive exn :=
| ValueError (msg : string)
| TypeError (msg : string)
| AttributeError (msg : string)
| JSONDecodeError (msg : string)
| ServiceError (msg : string).

(** [str(e)]. *)
Definition exn_str (e : exn) : string :=
  match e with
  | ValueError m | TypeError m | AttributeError m
  | JSONDecodeError m | ServiceError m => m
  end.

(** [isinstance(e, ValueError)]; [json.JSONDecodeError] is a subclass. *)
Definition is_ValueError (e : exn) : bool :=
  match e with ValueError _ | JSONDecodeError _ => true | _ => false end.

Inductive result (A : Type) :=
| Ok (a : A)
| Raise (e : exn).
Arguments Ok {A} a.
Arguments Raise {A} e.

#[export] Instance result_bind : MBind result :=
  fun A B (k : A -> result B) (r : result A) =>
    match r with Ok a => k a | Raise e => Raise e end.

(** [len(v)] of a decoded value. *)
Definition py_len (v : pyval) : result Z :=
  match v with
  | PyStr s => Ok (Str.len s)
  | PyList l => Ok (Z.of_nat (length l))
  | PyDict m => Ok (Z.of_nat (size m))
  | PyNone => Raise (TypeError "object of type 'NoneType' has no len()")
  | PyBool _ => Raise (TypeError "object of type 'bool' has no len()")
  | PyInt _ => Raise (TypeError "object of type 'int' has no len()")
  | PyFloat _ => Raise (TypeError "object of type 'float' has no len()")
  end.

(** [d.get(key, default)]; on a value that is not a [dict] the attribute
    lookup fails. *)
Definition dict_get (d : pyval) (key : string) (dflt : pyval) : result pyval :=
  match d with
  | PyDict m => Ok (default dflt (m !! key))
  | _ => Raise (AttributeError "object has no attribute 'get'")
  end.

(** ** The completion service

    [generate_reply] either raises or returns: nothing ([None]) or a reply
    whose text is [s] (a [dict] with the entry ["content"], read as the empty
    string when the entry is absent, or any other object, read through
    [str]).  A service is scripted by the number of calls made before and
    by the prompt; the calls and the sleeps of a run are recorded in order. *)

Inductive response :=
| NoResponse
| Content (s : string).

Inductive outcome :=
| Raised (e : exn)
| Returned (r : response).

Definition service := nat -> string -> outcome.

Inductive event :=
| Called (prompt : string)
| Slept (secs : Z).

Definition is_call (ev : event) : bool :=
  match ev with Called _ => true | Slept _ => false end.

Definition calls (tr : list event) : nat := length (filter is_call tr).

Definition sleeps (tr : list event) : list Z :=
  omap (fun ev => match ev with Slept n => Some n | Called _ => None end) tr.

(** [self.agent.generate_reply(messages=[{"role": "user", "content": prompt}])]. *)
Definition generate_reply (svc : service) (prompt : string) (tr : list event)
  : outcome * list event :=
  (svc (calls tr) prompt, tr ++ [Called prompt]).

(** [time.sleep(secs)]. *)
Definition sleep (secs : Z) (tr : list event) : list event :=
  tr ++ [Slept secs].

(** ** Requirement stage: [RequirementAnalysisAgent] *)

Module RequirementAnalysisAgent.

Definition vague_terms : list Re.pattern :=
  [ Re.WordAlt ["user-friendly"; "user friendly"]
  ; Re.WordAlt ["fast"; "quick"; "quickly"]
  ; Re.WordAlt ["good"; "better"; "best"]
  ; Re.WordAlt ["easy"; "simple"; "easily"]
  ; Re.WordAlt ["nice"; "nice-looking"; "pretty"]
  ; Re.WordAlt ["some"; "various"; "multiple"; "several"]
  ; Re.WordAlt ["should"; "could"; "might"; "may"] ].

Definition missing_patterns : list Re.pattern :=
  [ Re.WordAlt ["input"; "output"]
  ; Re.WordAlt ["error"; "exception"; "handle"]
  ; Re.WordAlt ["platform"; "os"; "operating system"]
  ; Re.WordAlt ["performance"; "speed"; "time"] ].

(** [sum(1 for x in l if cond(x))]. *)
Definition sum_ones {A} (cond : A -> bool) (l : list A) : Z :=
  fold_right Z.add 0 (map (fun x => if cond x then 1 else 0) l).

Record verdict := Verdict
  { is_ambiguous : bool
  ; vague_terms_found : Z
  ; missing_specifications : Z
  ; input_length : Z }.

Definition _detect_ambiguity (user_input : string) : verdict :=
  let vague_count :=
    sum_ones (fun pattern => Re.search pattern user_input) vague_terms in
  let missing_count :=
    sum_ones (fun pattern => negb (Re.search pattern user_input))
             missing_patterns in
  let is_ambiguous :=
    (vague_count >? 2) || (missing_count >? 2)
    || (Str.len (Str.strip user_input) <? 50) in
  {| is_ambiguous := is_ambiguous
   ; vague_terms_found := vague_count
   ; missing_specifications := missing_count
   ; input_length := Str.len user_input |}.

(** *** The prompt of [analyze] *)

(** The follow-up context of a run: [previous_results] holds the previous
    run's requirements (an absent entry reads as the empty [dict]) and code
    (an absent entry reads as the empty string); [None] stands for an absent
    or empty record. *)
Record previous_results_t := PreviousResults
  { requirements : gmap string pyval
  ; code : string }.

Record context_t := Context
  { is_active : bool
  ; previous_prompts : list string
  ; previous_results : option previous_results_t }.

Fixpoint all_str (l : list pyval) : option (list string) :=
  match l with
  | [] => Some []
  | PyStr s :: l' => cons s <$> all_str l'
  | _ :: _ => None
  end.

Definition chars (s : string) : list string :=
  map (fun c => String c EmptyString) (list_ascii_of_string s).

(** [', '.join(v[:3])]: a list must hold strings only, a string is joined
    character by character, and nothing else can be sliced (a [dict] raises
    [TypeError] up to CPython 3.11). *)
Definition join_first3 (v : pyval) : result string :=
  match v with
  | PyList l =>
      match all_str (take 3 l) with
      | Some ss => Ok (Str.join ", " ss)
      | None => Raise (TypeError "sequence item: expected str instance")
      end
  | PyStr s => Ok (Str.join ", " (chars (Str.slice_to s 3)))
  | _ => Raise (TypeError "object is not subscriptable")
  end.

Definition follow_up_note : string :=
  Str.nl +:+ "This is a follow-up request. Please update/modify the requirements based on the new input while maintaining consistency with the previous context." +:+ Str.nl.

(** Lines 91-108. *)
Definition context_section (context : option context_t) : result string :=
  match context with
  | Some ctx =>
      if is_active ctx then
        if bool_decide (previous_prompts ctx <> []) || bool_decide (is_Some (previous_results ctx))
        then
          let section0 := Str.nl +:+ Str.nl +:+ "PREVIOUS CONTEXT:" +:+ Str.nl in
          let section1 :=
            match last (previous_prompts ctx) with
            | Some p => section0 +:+ "Previous prompt(s): " +:+ p +:+ Str.nl
            | None => section0
            end in
          section2 ←
            match previous_results ctx with
            | Some prev =>
                let prev_reqs := requirements prev in
                with_reqs ←
                  (if truthy (PyDict prev_reqs) then
                     fr ← dict_get (PyDict prev_reqs) "functional_requirements" (PyList []);
                     joined ← join_first3 fr;
                     Ok (section1 +:+ "Previous functional requirements: " +:+ joined +:+ Str.nl)
                   else Ok section1);
                let prev_code := code prev in
                if Str.truthy prev_code then
                  let code_summary :=
                    if Str.len prev_code >? 200
                    then Str.slice_to prev_code 200 +:+ "..."
                    else prev_code in
                  Ok (with_reqs +:+ "Previous code summary: " +:+ code_summary +:+ Str.nl)
                else Ok with_reqs
            | None => Ok section1
            end;
          Ok (section2 +:+ follow_up_note)
        else Ok EmptyString
      else Ok EmptyString
  | None => Ok EmptyString
  end.

Definition prompt_head : string :=
  Str.lines
    [ "Analyze the following user requirement and convert vague natural language into structured, actionable software requirements."
    ; EmptyString ].

Definition prompt_middle : string :=
  Str.lines
    [ EmptyString
    ; "USER REQUIREMENT:"
    ; EmptyString ].

Definition prompt_tail : string :=
  Str.lines
    [ EmptyString
    ; EmptyString
    ; "TASK:"
    ; "1. **Detect Ambiguity**: Identify vague terms, missing details, unclear specifications"
    ; "2. **Generate Clarifying Questions**: Create specific questions to resolve any ambiguity (even if simulated/answered automatically)"
    ; "3. **Convert to Structured Requirements**: Transform the requirement into clear, testable requirements"
    ; EmptyString
    ; "OUTPUT FORMAT:"
    ; "Provide your analysis as a JSON object with this exact structure:"
    ; "{"
    ; "    " +:+ Str.dq +:+ "functional_requirements" +:+ Str.dq +:+ ": [" +:+ Str.dq +:+ "specific, testable functional requirements" +:+ Str.dq +:+ "],"
    ; "    " +:+ Str.dq +:+ "non_functional_requirements" +:+ Str.dq +:+ ": [" +:+ Str.dq +:+ "non-functional requirements (performance, security, usability, scalability, etc.)" +:+ Str.dq +:+ "],"
    ; "    " +:+ Str.dq +:+ "assumptions" +:+ Str.dq +:+ ": [" +:+ Str.dq +:+ "assumptions made when requirements are vague or incomplete" +:+ Str.dq +:+ "],"
    ; "    " +:+ Str.dq +:+ "constraints" +:+ Str.dq +:+ ": [" +:+ Str.dq +:+ "constraints identified (technical, business, time, platform, etc.)" +:+ Str.dq +:+ "],"
    ; "    " +:+ Str.dq +:+ "clarifying_questions" +:+ Str.dq +:+ ": [" +:+ Str.dq +:+ "specific questions to resolve ambiguity - generate even if simulated" +:+ Str.dq +:+ "],"
    ; "    " +:+ Str.dq +:+ "ambiguity_detected" +:+ Str.dq +:+ ": true/false,"
    ; "    " +:+ Str.dq +:+ "ambiguity_notes" +:+ Str.dq +:+ ": " +:+ Str.dq +:+ "description of detected ambiguities and how assumptions were made to resolve them" +:+ Str.dq
    ; "}"
    ; EmptyString
    ; "IMPORTANT:"
    ; "- If ambiguity is detected, generate clarifying questions AND make reasonable assumptions"
    ; "- Document all assumptions clearly"
    ; "- Ensure functional requirements are specific and testable"
    ; "- Include non-functional requirements even if not explicitly mentioned (make reasonable assumptions)"
    ; "- Be thorough and comprehensive" ].

(** Lines 110-137. *)
Definition compose_prompt (user_input : string) (context : option context_t)
  : result string :=
  section ← context_section context;
  Ok (prompt_head +:+ section +:+ prompt_middle +:+ user_input +:+ prompt_tail).

(** *** Parsing the reply *)

Definition _parse_fallback (content : string) : gmap string pyval :=
  <["functional_requirements" := PyList [PyStr content]]>
  (<["non_functional_requirements" := PyList []]>
  (<["assumptions" :=
       PyList [PyStr "Could not parse structured requirements - using raw input"]]>
  (<["constraints" := PyList []]>
  (<["clarifying_questions" := PyList []]>
  (<["ambiguity_detected" := PyBool true]>
  (<["ambiguity_notes" :=
       PyStr "JSON parsing failed - requirements may be incomplete"]> ∅)))))).

Section Analyze.

(** [json.loads]: the decoded value, or the exception it raises. *)
Variable json_loads : string -> result pyval.

(** Lines 152-162: the span from the first opening brace to the last closing
    brace goes to the decoder; [JSONDecodeError] alone is caught. *)
Definition extract_requirements (content : string) : result pyval :=
  let json_start := Str.find content "{" 0 in
  let json_end := Str.rfind content "}" + 1 in
  if (json_start >=? 0) && (json_end >? json_start) then
    let json_str := Str.slice content json_start json_end in
    match json_loads json_str with
    | Ok requirements => Ok requirements
    | Raise (JSONDecodeError _) => Ok (PyDict (_parse_fallback content))
    | Raise e => Raise e
    end
  else Ok (PyDict (_parse_fallback content)).

(** Lines 164-173. *)
Definition ensure_fields (requirements : pyval) : result (gmap string pyval) :=
  fr ← dict_get requirements "functional_requirements" (PyList []);
  nfr ← dict_get requirements "non_functional_requirements" (PyList []);
  asm ← dict_get requirements "assumptions" (PyList []);
  cst ← dict_get requirements "constraints" (PyList []);
  cq ← dict_get requirements "clarifying_questions" (PyList []);
  amb ← dict_get requirements "ambiguity_detected" (PyBool false);
  notes ← dict_get requirements "ambiguity_notes" (PyStr EmptyString);
  Ok (<["functional_requirements" := fr]>
     (<["non_functional_requirements" := nfr]>
     (<["assumptions" := asm]>
     (<["constraints" := cst]>
     (<["clarifying_questions" := cq]>
     (<["ambiguity_detected" := amb]>
     (<["ambiguity_notes" := notes]> ∅))))))).

(** Lines 175-176: the log line is formatted, hence [len] is evaluated,
    whenever the flag is true. *)
Definition log_ambiguity (res : gmap string pyval) : result unit :=
  if truthy (default PyNone (res !! "ambiguity_detected")) then
    _ ← py_len (default PyNone (res !! "clarifying_questions"));
    Ok tt
  else Ok tt.

(** Lines 152-178: from the reply's text to the returned record. *)
Definition parse_reply (content : string) : result (gmap string pyval) :=
  requirements ← extract_requirements content;
  res ← ensure_fields requirements;
  _ ← log_ambiguity res;
  Ok res.

(** [analyze(user_input, context)]. *)
Definition analyze (svc : service) (user_input : string)
    (context : option context_t) (tr : list event)
  : result (gmap string pyval) * list event :=
  let ambiguity_info := _detect_ambiguity user_input in
  match compose_prompt user_input context with
  | Raise e => (Raise e, tr)
  | Ok prompt =>
      match generate_reply svc prompt tr with
      | (Raised e, tr') => (Raise e, tr')
      | (Returned NoResponse, tr') =>
          (Raise (ValueError
             "Agent returned None response. Check API key and model configuration."),
           tr')
      | (Returned (Content content), tr') => (parse_reply content, tr')
      end
  end.

End Analyze.

End RequirementAnalysisAgent.

(** ** Iterating over values and formatting them

    [for req in v] and [f"{req}"] belong to the interpreter.  The text of a
    value that is not a [str], and the order of the keys of a [dict], which
    the map does not record, are parameters of the functions below. *)

(** [for x in v]: the items to visit, or the [TypeError] of a value that
    cannot be iterated. *)
Definition py_iter (dict_order : gmap string pyval -> list string) (v : pyval)
  : result (list pyval) :=
  match v with
  | PyList l => Ok l
  | PyStr s => Ok (PyStr <$> RequirementAnalysisAgent.chars s)
  | PyDict m => Ok (PyStr <$> dict_order m)
  | PyNone => Raise (TypeError "'NoneType' object is not iterable")
  | PyBool _ => Raise (TypeError "'bool' object is not iterable")
  | PyInt _ => Raise (TypeError "'int' object is not iterable")
  | PyFloat _ => Raise (TypeError "'float' object is not iterable")
  end.

(** The text a replacement field of an f-string inserts for [v]. *)
Definition py_format (py_str : pyval -> string) (v : pyval) : string :=
  match v with
  | PyStr s => s
  | _ => py_str v
  end.

(** The loop [for req in items: text += f"- {req}\n"]. *)
Definition add_bullets (py_str : pyval -> string) (text : string)
    (items : list pyval) : string :=
  fold_left (fun text req => text +:+ "- " +:+ py_format py_str req +:+ Str.nl)
            items text.

(** ** Deployment stage: [DeploymentAgent] *)

Module DeploymentAgent.

Definition _generate_default_requirements : string :=
  Str.lines
    [ "python-dotenv>=1.0.0"
    ; "pyautogen>=0.2.0"
    ; "openai>=1.0.0"
    ; "streamlit>=1.28.0"
    ; "pytest>=7.4.0" ].

Definition _generate_default_setup : string :=
  Str.lines
    [ "1. Install Python 3.10 or higher"
    ; "2. Create a virtual environment: python -m venv venv"
    ; "3. Activate the virtual environment:"
    ; "   - Windows: venv\Scripts\activate"
    ; "   - Linux/Mac: source venv/bin/activate"
    ; "4. Install dependencies: pip install -r requirements.txt"
    ; "5. Create a .env file with your OPENAI_API_KEY"
    ; "6. Run the application: streamlit run app.py" ].

Definition _generate_default_github_push : string :=
  Str.lines
    [ "1. Initialize git repository:"
    ; "   git init"
    ; EmptyString
    ; "2. Create .gitignore file with:"
    ; "   __pycache__/"
    ; "   *.pyc"
    ; "   venv/"
    ; "   .env"
    ; "   *.log"
    ; "   .DS_Store"
    ; EmptyString
    ; "3. Add files to git:"
    ; "   git add ."
    ; EmptyString
    ; "4. Commit files:"
    ; "   git commit -m " +:+ Str.dq +:+ "Initial commit" +:+ Str.dq
    ; EmptyString
    ; "5. Create a new repository on GitHub (via web interface)"
    ; EmptyString
    ; "6. Add remote repository:"
    ; "   git remote add origin https://github.com/yourusername/your-repo-name.git"
    ; EmptyString
    ; "7. Push to GitHub:"
    ; "   git branch -M main"
    ; "   git push -u origin main" ].

Definition _generate_default_hosting_platforms : string :=
  Str.lines
    [ "Recommended Hosting Platforms:"
    ; EmptyString
    ; "1. **Heroku**:"
    ; "   - Suitable for: Web applications, APIs"
    ; "   - Why: Easy deployment, free tier available, supports Python"
    ; "   - Deployment: Use Heroku CLI or connect GitHub repository"
    ; EmptyString
    ; "2. **Railway**:"
    ; "   - Suitable for: Web apps, APIs, databases"
    ; "   - Why: Simple deployment, automatic builds from GitHub, good for Python projects"
    ; "   - Deployment: Connect GitHub repo, auto-deploys on push"
    ; EmptyString
    ; "3. **Render**:"
    ; "   - Suitable for: Web services, static sites, APIs"
    ; "   - Why: Free tier, easy setup, supports Python"
    ; "   - Deployment: Connect GitHub, automatic deployments" ].

(** *** [_parse_deployment_output] *)

Definition REQUIREMENTS : string := "[REQUIREMENTS]".
Definition SETUP_INSTRUCTIONS : string := "[SETUP_INSTRUCTIONS]".
Definition GITHUB_PUSH : string := "[GITHUB_PUSH]".
Definition HOSTING_PLATFORMS : string := "[HOSTING_PLATFORMS]".

(** Lines 221-227. *)
Definition extract_requirements (content : string) : string :=
  if Str.contains REQUIREMENTS content then
    let req_start := Str.find content REQUIREMENTS 0 + Str.len REQUIREMENTS in
    let req_end := Str.find content SETUP_INSTRUCTIONS req_start in
    let req_end :=
      if req_end =? -1 then Str.find content GITHUB_PUSH req_start else req_end in
    if req_end >? req_start
    then Str.strip (Str.slice content req_start req_end)
    else EmptyString
  else EmptyString.

(** Lines 229-233. *)
Definition extract_setup_instructions (content : string) : string :=
  if Str.contains SETUP_INSTRUCTIONS content then
    let setup_start :=
      Str.find content SETUP_INSTRUCTIONS 0 + Str.len SETUP_INSTRUCTIONS in
    let setup_end := Str.find content GITHUB_PUSH setup_start in
    if setup_end >? setup_start
    then Str.strip (Str.slice content setup_start setup_end)
    else EmptyString
  else EmptyString.

(** Lines 235-239. *)
Definition extract_github_push (content : string) : string :=
  if Str.contains GITHUB_PUSH content then
    let github_start := Str.find content GITHUB_PUSH 0 + Str.len GITHUB_PUSH in
    let github_end := Str.find content HOSTING_PLATFORMS github_start in
    if github_end >? github_start
    then Str.strip (Str.slice content github_start github_end)
    else EmptyString
  else EmptyString.

(** Lines 241-243. *)
Definition extract_hosting_platforms (content : string) : string :=
  if Str.contains HOSTING_PLATFORMS content then
    let hosting_start :=
      Str.find content HOSTING_PLATFORMS 0 + Str.len HOSTING_PLATFORMS in
    Str.strip (Str.slice_from content hosting_start)
  else EmptyString.

(** [x if x else d]: the backfill of lines 245-255. *)
Definition or_default (x d : string) : string :=
  if negb (Str.truthy x) then d else x.

Definition _parse_deployment_output (content : string) : gmap string string :=
  let requirements := extract_requirements content in
  let setup_instructions := extract_setup_instructions content in
  let github_push := extract_github_push content in
  let hosting_platforms := extract_hosting_platforms content in
  let requirements := or_default requirements _generate_default_requirements in
  let setup_instructions := or_default setup_instructions _generate_default_setup in
  let github_push := or_default github_push _generate_default_github_push in
  let hosting_platforms :=
    or_default hosting_platforms _generate_default_hosting_platforms in
  <["requirements" := requirements]>
  (<["setup_instructions" := setup_instructions]>
  (<["github_push" := github_push]>
  (<["hosting_platforms" := hosting_platforms]> ∅))).

(** *** The retried call of [generate_deployment_config] *)

Definition max_retries : nat := 3.

(** [not content or not content.strip()]. *)
Definition blank (content : string) : bool :=
  negb (Str.truthy content) || negb (Str.truthy (Str.strip content)).

(** The loop variables that survive an iteration. *)
Record loop_vars := LoopVars
  { content : option string
  ; last_error : option exn }.

(** How one iteration of the [for] loop ends. *)
Inductive iteration :=
| Continue (vars : loop_vars)
| Break (vars : loop_vars)
| Fails (e : exn).

Definition failed_after (max_retries : nat) (e : exn) : exn :=
  ValueError ("Deployment configuration API call failed after "
              +:+ Str.of_nat max_retries +:+ " attempts: " +:+ exn_str e
              +:+ ". Check API key, model configuration, and network connection.").

(** Lines 189-196, the handler of [except Exception as e]. *)
Definition handler (max_retries attempt : nat) (vars : loop_vars) (e : exn)
    (tr : list event) : iteration * list event :=
  let vars := {| content := content vars; last_error := Some e |} in
  if (attempt <? max_retries - 1)%nat
  then (Continue vars, sleep (2 ^ Z.of_nat attempt) tr)
  else (Fails (failed_after max_retries e), tr).

(** Lines 164-196, one iteration. *)
Definition attempt_once (svc : service) (prompt : string)
    (max_retries attempt : nat) (vars : loop_vars) (tr : list event)
  : iteration * list event :=
  match generate_reply svc prompt tr with
  | (Raised e, tr) => handler max_retries attempt vars e tr
  | (Returned NoResponse, tr) =>
      if (attempt <? max_retries - 1)%nat
      then (Continue vars, sleep (2 ^ Z.of_nat attempt) tr)
      else handler max_retries attempt vars
             (ValueError "Agent returned None response after retries. This may be due to API rate limiting or model unavailability.")
             tr
  | (Returned (Content c), tr) =>
      let vars := {| content := Some c; last_error := last_error vars |} in
      if blank c then
        if (attempt <? max_retries - 1)%nat
        then (Continue vars, sleep (2 ^ Z.of_nat attempt) tr)
        else handler max_retries attempt vars
               (ValueError "Agent returned empty content after retries.") tr
      else (Break vars, tr)
  end.

(** [for attempt in range(max_retries)], over the attempts still to make. *)
Fixpoint retry_loop (svc : service) (prompt : string) (max_retries : nat)
    (attempts : list nat) (vars : loop_vars) (tr : list event)
  : result loop_vars * list event :=
  match attempts with
  | [] => (Ok vars, tr)
  | attempt :: rest =>
      match attempt_once svc prompt max_retries attempt vars tr with
      | (Continue vars, tr) => retry_loop svc prompt max_retries rest vars tr
      | (Break vars, tr) => (Ok vars, tr)
      | (Fails e, tr) => (Raise e, tr)
      end
  end.

Definition failed_to_generate (max_retries : nat) (last_error : option exn) : exn :=
  let error_msg :=
    "Failed to generate deployment configuration after "
    +:+ Str.of_nat max_retries +:+ " attempts" in
  ValueError
    match last_error with
    | Some e => error_msg +:+ ": " +:+ exn_str e
    | None => error_msg
    end.

(** Lines 198-202: [if not content: raise ValueError(error_msg)]. *)
Definition check_content (max_retries : nat) (vars : loop_vars) : result string :=
  match content vars with
  | Some c =>
      if Str.truthy c then Ok c
      else Raise (failed_to_generate max_retries (last_error vars))
  | None => Raise (failed_to_generate max_retries (last_error vars))
  end.

(** Lines 158-202: the text the parser receives, or the failure. *)
Definition invoke (svc : service) (prompt : string) (max_retries : nat)
    (tr : list event) : result string * list event :=
  match retry_loop svc prompt max_retries (seq 0 max_retries)
          {| content := None; last_error := None |} tr with
  | (Ok vars, tr) => (check_content max_retries vars, tr)
  | (Raise e, tr) => (Raise e, tr)
  end.

(** [generate_deployment_config], from the composed prompt on (lines
    156-204). *)
Definition generate_deployment_config (svc : service) (prompt : string)
    (tr : list event) : result (gmap string string) * list event :=
  match invoke svc prompt max_retries tr with
  | (Ok c, tr) => (Ok (_parse_deployment_output c), tr)
  | (Raise e, tr) => (Raise e, tr)
  end.

(** *** The prompt and the whole of [generate_deployment_config] *)

(** Lines 206-212. *)
Definition _format_requirements (py_str : pyval -> string)
    (dict_order : gmap string pyval -> list string)
    (requirements : gmap string pyval) : result string :=
  let text := "FUNCTIONAL REQUIREMENTS:" +:+ Str.nl in
  items ← py_iter dict_order
            (default (PyList []) (requirements !! "functional_requirements"));
  Ok (add_bullets py_str text items).

Definition prompt_head : string :=
  Str.lines
    [ "Generate deployment configuration for the following Python project. Focus on simplicity and reproducibility."
    ; EmptyString
    ; "ORIGINAL REQUIREMENTS:"
    ; EmptyString ].

Definition prompt_middle : string :=
  Str.lines
    [ EmptyString
    ; EmptyString
    ; "GENERATED CODE:"
    ; "```python"
    ; EmptyString ].

Definition prompt_tail : string :=
  Str.lines
    [ EmptyString
    ; "```"
    ; EmptyString
    ; "MANDATORY OUTPUTS:"
    ; EmptyString
    ; "1. **requirements.txt**:"
    ; "   - Analyze the code to identify all Python dependencies"
    ; "   - List all packages needed with appropriate versions"
    ; "   - Include standard library imports (no need to list)"
    ; "   - Format: package>=version or package==version"
    ; "   - Be complete and accurate"
    ; EmptyString
    ; "2. **Project Setup Instructions**:"
    ; "   - Step-by-step instructions for setting up the project locally"
    ; "   - Include: Python version requirements, virtual environment setup, dependency installation"
    ; "   - Make it simple, clear, and easy to follow"
    ; "   - Ensure reproducibility (anyone can follow and get same result)"
    ; "   - Include any environment variables or configuration needed"
    ; EmptyString
    ; "3. **GitHub Push Instructions**:"
    ; "   - How to initialize a git repository: `git init`"
    ; "   - How to create a .gitignore file (include common Python ignores: __pycache__, venv, .env, etc.)"
    ; "   - How to add files: `git add .`"
    ; "   - How to commit: `git commit -m " +:+ Str.dq +:+ "message" +:+ Str.dq +:+ "`"
    ; "   - How to create a GitHub repository (via web interface)"
    ; "   - How to add remote: `git remote add origin <repo-url>`"
    ; "   - How to push: `git push -u origin main` or `git push -u origin master`"
    ; "   - Provide complete step-by-step commands"
    ; EmptyString
    ; "4. **Hosting Platform Recommendations**:"
    ; "   - Analyze the project type (web app, API, CLI tool, data processing, etc.)"
    ; "   - Suggest 2-3 compatible hosting platforms"
    ; "   - For each platform, explain:"
    ; "     * Why it's suitable for this project"
    ; "     * Key features that match the project needs"
    ; "     * Brief deployment steps"
    ; "   - Consider platforms like: Heroku, Railway, Render, Vercel, AWS, Google Cloud, Azure, DigitalOcean, etc."
    ; "   - Base recommendations on project characteristics (needs database, static files, API endpoints, etc.)"
    ; EmptyString
    ; "FOCUS ON:"
    ; "- **Simplicity**: Instructions should be clear and easy to follow"
    ; "- **Reproducibility**: Anyone following instructions should get the same working setup"
    ; "- **Completeness**: Include all necessary steps"
    ; EmptyString
    ; "Format your response clearly with sections marked as:"
    ; "[REQUIREMENTS]"
    ; "[SETUP_INSTRUCTIONS]"
    ; "[GITHUB_PUSH]"
    ; "[HOSTING_PLATFORMS]" ].

(** Lines 99-154. *)
Definition compose_prompt (req_text code : string) : string :=
  prompt_head +:+ req_text +:+ prompt_middle +:+ code +:+ prompt_tail.

(** [generate_deployment_config(code, requirements)], lines 95-204. *)
Definition generate_deployment_config_for (py_str : pyval -> string)
    (dict_order : gmap string pyval -> list string) (svc : service)
    (code : string) (requirements : gmap string pyval) (tr : list event)
  : result (gmap string string) * list event :=
  match _format_requirements py_str dict_order requirements with
  | Raise e => (Raise e, tr)
  | Ok req_text => generate_deployment_config svc (compose_prompt req_text code) tr
  end.

End DeploymentAgent.

(** ** Documentation stage: [DocumentationAgent] *)

Module DocumentationAgent.

(** [generate_documentation], from the composed prompt on (lines 192-203). *)
Definition generate_documentation (svc : service) (prompt : string)
    (tr : list event) : result string * list event :=
  match generate_reply svc prompt tr with
  | (Raised e, tr) => (Raise e, tr)
  | (Returned NoResponse, tr) =>
      (Raise (ValueError
         "Agent returned None response. Check API key and model configuration."),
       tr)
  | (Returned (Content documentation), tr) => (Ok documentation, tr)
  end.

(** *** The prompt and the whole of [generate_documentation] *)

(** Lines 205-215. *)
Definition _format_requirements (py_str : pyval -> string)
    (dict_order : gmap string pyval -> list string)
    (requirements : gmap string pyval) : result string :=
  let text := "FUNCTIONAL REQUIREMENTS:" +:+ Str.nl in
  items ← py_iter dict_order
            (default (PyList []) (requirements !! "functional_requirements"));
  let text := add_bullets py_str text items in
  let text := text +:+ Str.nl +:+ "NON-FUNCTIONAL REQUIREMENTS:" +:+ Str.nl in
  items ← py_iter dict_order
            (default (PyList []) (requirements !! "non_functional_requirements"));
  Ok (add_bullets py_str text items).

Definition prompt_head : string :=
  Str.lines
    [ "Generate clear, structured Markdown documentation for the following Python code."
    ; EmptyString
    ; "ORIGINAL REQUIREMENTS:"
    ; EmptyString ].

Definition prompt_middle : string :=
  Str.lines
    [ EmptyString
    ; EmptyString
    ; "GENERATED CODE:"
    ; "```python"
    ; EmptyString ].

Definition prompt_tail : string :=
  Str.lines
    [ EmptyString
    ; "```"
    ; EmptyString
    ; "MANDATORY SECTIONS (MUST BE INCLUDED):"
    ; EmptyString
    ; "1. **CODE OVERVIEW** (REQUIRED):"
    ; "   - High-level description of what the code does"
    ; "   - Purpose and main features"
    ; "   - Key functionality summary"
    ; "   - What problems it solves"
    ; EmptyString
    ; "2. **MODULE EXPLANATION** (REQUIRED):"
    ; "   - Detailed explanation of each module/class"
    ; "   - What each module does"
    ; "   - How modules relate to each other"
    ; "   - Module responsibilities and structure"
    ; "   - If multiple files exist, explain each file's purpose"
    ; EmptyString
    ; "3. **FUNCTION DEFINITIONS** (REQUIRED):"
    ; "   - Complete documentation for ALL functions and classes"
    ; "   - Function/class names and descriptions"
    ; "   - What each function does"
    ; "   - How functions interact"
    ; EmptyString
    ; "4. **PARAMETERS AND RETURN TYPES** (REQUIRED):"
    ; "   - For EACH function: list all parameters with their types"
    ; "   - For EACH function: specify return type"
    ; "   - Parameter descriptions and what they're used for"
    ; "   - Default values if applicable"
    ; "   - Exceptions that may be raised"
    ; "   - Format example: `function_name(param1: type, param2: type) -> return_type`"
    ; "   - Include type information for all parameters and return values"
    ; EmptyString
    ; "5. **USAGE EXAMPLES** (REQUIRED):"
    ; "   - Practical, runnable code examples"
    ; "   - Show how to use the code"
    ; "   - Include example inputs and expected outputs"
    ; "   - Multiple examples covering different use cases"
    ; "   - Copy-paste ready code snippets"
    ; "   - Examples should demonstrate actual usage"
    ; EmptyString
    ; "ADDITIONAL SECTIONS (include if applicable):"
    ; EmptyString
    ; "6. **Setup and Installation**:"
    ; "   - Prerequisites"
    ; "   - Step-by-step LOCAL installation instructions"
    ; "   - CRITICAL: DO NOT mention cloning repositories, git commands, or downloading from repositories"
    ; "   - Provide steps to set up the code that was just generated locally"
    ; "   - Include: creating necessary files, installing dependencies, environment setup"
    ; "   - Assume the code files are already available locally and need to be set up"
    ; EmptyString
    ; "7. **How to Run the System**:"
    ; "   - Command-line instructions"
    ; "   - Required parameters"
    ; "   - Example usage"
    ; "   - Expected output"
    ; EmptyString
    ; "8. **Configuration** (if applicable):"
    ; "   - Configuration options"
    ; "   - Environment variables"
    ; "   - Settings and their descriptions"
    ; EmptyString
    ; "CRITICAL REQUIREMENTS:"
    ; "- ALL FIVE mandatory sections (Code Overview, Module Explanation, Function Definitions, Parameters and Return Types, Usage Examples) MUST be included"
    ; "- Function documentation must include complete parameter and return type information"
    ; "- Usage examples must be runnable and accurate"
    ; "- Use proper Markdown formatting (headers ##, ###, code blocks, lists)"
    ; "- Write in clear, professional language"
    ; "- Make documentation comprehensive and production-ready" ].

(** Lines 115-190. *)
Definition compose_prompt (req_text code : string) : string :=
  prompt_head +:+ req_text +:+ prompt_middle +:+ code +:+ prompt_tail.

(** [generate_documentation(code, requirements)], lines 111-203. *)
Definition generate_documentation_for (py_str : pyval -> string)
    (dict_order : gmap string pyval -> list string) (svc : service)
    (code : string) (requirements : gmap string pyval) (tr : list event)
  : result string * list event :=
  match _format_requirements py_str dict_order requirements with
  | Raise e => (Raise e, tr)
  | Ok req_text => generate_documentation svc (compose_prompt req_text code) tr
  end.

End DocumentationAgent.

(** ** Test stage: [TestGenerationAgent] *)

Module TestGenerationAgent.

Definition fence : string := "```".
Definition python_fence : string := "```python".

Definition _extract_code_blocks (content : string) : string :=
  if Str.contains python_fence content then
    let start := Str.find content python_fence 0 + 9 in
    let end_ := Str.find content fence start in
    Str.strip (Str.slice content start end_)
  else if Str.contains fence content then
    let start := Str.find content fence 0 + 3 in
    let end_ := Str.find content fence start in
    Str.strip (Str.slice content start end_)
  else Str.strip content.

(** [generate_tests], from the composed prompt on (lines 200-212). *)
Definition generate_tests (svc : service) (prompt : string)
    (tr : list event) : result string * list event :=
  match generate_reply svc prompt tr with
  | (Raised e, tr) => (Raise e, tr)
  | (Returned NoResponse, tr) =>
      (Raise (ValueError
         "Agent returned None response. Check API key and model configuration."),
       tr)
  | (Returned (Content test_code), tr) => (Ok (_extract_code_blocks test_code), tr)
  end.

(** Lines 214-224. *)
Definition _format_requirements (py_str : pyval -> string)
    (dict_order : gmap string pyval -> list string)
    (requirements : gmap string pyval) : result string :=
  let text := "FUNCTIONAL REQUIREMENTS:" +:+ Str.nl in
  items ← py_iter dict_order
            (default (PyList []) (requirements !! "functional_requirements"));
  let text := add_bullets py_str text items in
  let text := text +:+ Str.nl +:+ "NON-FUNCTIONAL REQUIREMENTS:" +:+ Str.nl in
  items ← py_iter dict_order
            (default (PyList []) (requirements !! "non_functional_requirements"));
  Ok (add_bullets py_str text items).

End TestGenerationAgent.

(** ** A decoder for a fragment of JSON

    [json.loads] restricted to documents without escapes in strings and
    without fractions or exponents in numbers; other documents are rejected.
    As in CPython, an integer literal of more than 4300 digits is refused by
    the conversion to [int] with a plain [ValueError], raised as soon as the
    literal is scanned. It instantiates the decoder parameter of [analyze]
    in examples. *)

Module Json.

Definition is_ws (c : ascii) : bool :=
  (Str.code c =? 32)%N || (Str.code c =? 9)%N || (Str.code c =? 10)%N
  || (Str.code c =? 13)%N.

Definition is_digit (c : ascii) : bool := Str.between 48 57 c.

Definition is_quote (c : ascii) : bool := (Str.code c =? 34)%N.

Fixpoint skip_ws (s : string) : string :=
  match s with
  | String c s' => if is_ws c then skip_ws s' else s
  | EmptyString => s
  end.

(** A document the decoder rejects. *)
Definition reject {A} : result A := Raise (JSONDecodeError "Expecting value").

Definition expect {A} (o : option A) : result A :=
  match o with
  | Some a => Ok a
  | None => reject
  end.

(** The characters of a string up to its closing quote, and what follows. *)
Fixpoint string_body (s : string) : option (string * string) :=
  match s with
  | EmptyString => None
  | String c s' =>
      if is_quote c then Some (EmptyString, s')
      else if (Str.code c =? 92)%N || (Str.code c <? 32)%N then None
      else '(body, rest) ← string_body s'; Some (String c body, rest)
  end.

Fixpoint digits (acc : Z) (s : string) : Z * string :=
  match s with
  | String c s' =>
      if is_digit c
      then digits (10 * acc + Z.of_N (Str.code c) - 48) s'
      else (acc, s)
  | EmptyString => (acc, s)
  end.

(** [sys.int_max_str_digits], which the program never changes. *)
Definition int_max_str_digits : nat := 4300.

(** [int(literal)] on a literal of [n] digits that is too long. *)
Definition int_limit_error (n : nat) : exn :=
  ValueError
    ("Exceeds the limit (4300 digits) for integer string conversion: value has "
     +:+ Str.of_nat n
     +:+ " digits; use sys.set_int_max_str_digits() to increase the limit").

(** An integer without sign: no leading zero, no fraction, no exponent. *)
Definition natural (s : string) : result (Z * string) :=
  match s with
  | String c s' =>
      if is_digit c then
        let '(n, rest) := digits 0 s in
        let count := (String.length s - String.length rest)%nat in
        let leading_zero := (Str.code c =? 48)%N && negb (count =? 1)%nat in
        let continued :=
          match rest with
          | String d _ => (Str.code d =? 46)%N || (Str.code d =? 101)%N || (Str.code d =? 69)%N
          | EmptyString => false
          end in
        if leading_zero || continued then reject
        else if (int_max_str_digits <? count)%nat then Raise (int_limit_error count)
        else Ok (n, rest)
      else reject
  | EmptyString => reject
  end.

Definition literal (word : string) (v : pyval) (s : string)
  : result (pyval * string) :=
  if String.prefix word s
  then Ok (v, String.substring (String.length word) (String.length s) s)
  else reject.

Fixpoint value (fuel : nat) (s : string) : result (pyval * string) :=
  match fuel with
  | O => reject
  | S fuel =>
      match skip_ws s with
      | EmptyString => reject
      | String c r =>
          if is_quote c then
            '(str, rest) ← expect (string_body r); Ok (PyStr str, rest)
          else if Ascii.eqb c "{" then
            match skip_ws r with
            | String "}" rest => Ok (PyDict ∅, rest)
            | _ => members fuel ∅ r
            end
          else if Ascii.eqb c "[" then
            match skip_ws r with
            | String "]" rest => Ok (PyList [], rest)
            | _ => elements fuel [] r
            end
          else if Ascii.eqb c "-" then
            '(n, rest) ← natural r; Ok (PyInt (- n), rest)
          else if is_digit c then
            '(n, rest) ← natural (String c r); Ok (PyInt n, rest)
          else if Ascii.eqb c "t" then literal "true" (PyBool true) (String c r)
          else if Ascii.eqb c "f" then literal "false" (PyBool false) (String c r)
          else if Ascii.eqb c "n" then literal "null" PyNone (String c r)
          else reject
      end
  end
with members (fuel : nat) (m : gmap string pyval) (s : string)
  : result (pyval * string) :=
  match fuel with
  | O => reject
  | S fuel =>
      match skip_ws s with
      | String c r =>
          if is_quote c then
            '(key, r) ← expect (string_body r);
            match skip_ws r with
            | String ":" r =>
                '(v, r) ← value fuel r;
                match skip_ws r with
                | String "," r => members fuel (<[key := v]> m) r
                | String "}" r => Ok (PyDict (<[key := v]> m), r)
                | _ => reject
                end
            | _ => reject
            end
          else reject
      | EmptyString => reject
      end
  end
with elements (fuel : nat) (acc : list pyval) (s : string)
  : result (pyval * string) :=
  match fuel with
  | O => reject
  | S fuel =>
      '(v, r) ← value fuel s;
      match skip_ws r with
      | String "," r => elements fuel (acc ++ [v]) r
      | String "]" r => Ok (PyList (acc ++ [v]), r)
      | _ => reject
      end
  end.

Definition loads (s : string) : result pyval :=
  '(v, rest) ← value (S (String.length s)) s;
  match skip_ws rest with
  | EmptyString => Ok v
  | _ => Raise (JSONDecodeError "Extra data")
  end.

End Json.

(** ** Notions used in the statements *)

#[export] Instance pattern_eq_dec : EqDecision Re.pattern.
Proof. solve_decision. Defined.

(** The last character of [s], or [prev] when [s] is empty. *)
Fixpoint last_char (prev : option ascii) (s : string) : option ascii :=
  match s with
  | EmptyString => prev
  | String c s' => last_char (Some c) s'
  end.

(** Equality of two texts up to case. *)
Fixpoint ieq (a b : string) : bool :=
  match a, b with
  | EmptyString, EmptyString => true
  | String x a', String y b' =>
      Ascii.eqb (Str.lower x) (Str.lower y) && ieq a' b'
  | _, _ => false
  end.

(** The pattern matches at least once in [text]: some stretch [mid] of the
    text equals one of the alternatives up to case and has a word boundary
    on either side. *)
Definition occurs (p : Re.pattern) (text : string) : Prop :=
  exists pre mid post a,
    text = pre +:+ mid +:+ post /\ a ∈ Re.alts p /\ ieq mid a = true
    /\ Re.boundary (last_char None pre) (Re.head (mid +:+ post)) = true
    /\ Re.boundary (last_char None (pre +:+ mid)) (Re.head post) = true.

(** [sub] is a part of [s]. *)
Definition part_of (sub s : string) : Prop :=
  exists a b, s = a +:+ sub +:+ b.

(** *** Replies used as examples *)

(** A reply that is valid JSON, sets the ambiguity flag and gives [null]
    where the list of clarifying questions is expected. *)
Definition ill_typed_reply : string :=
  "{" +:+ Str.dq +:+ "ambiguity_detected" +:+ Str.dq +:+ ": true, "
  +:+ Str.dq +:+ "clarifying_questions" +:+ Str.dq +:+ ": null}".

(** A Deployment reply with three sections and no [HOSTING_PLATFORMS]
    marker. *)
Definition reply_without_hosting : string :=
  Str.lines
    [ "[REQUIREMENTS]"
    ; "flask>=2.0"
    ; "[SETUP_INSTRUCTIONS]"
    ; "pip install -r requirements.txt"
    ; "[GITHUB_PUSH]"
    ; "git push origin main" ].

(** A Deployment reply with the four markers, the first section blank. *)
Definition reply_with_blank_section : string :=
  Str.lines
    [ "[REQUIREMENTS]"
    ; "[SETUP_INSTRUCTIONS]"
    ; "pip install -r requirements.txt"
    ; "[GITHUB_PUSH]"
    ; "git push origin main"
    ; "[HOSTING_PLATFORMS]"
    ; "Render" ].

(** A complete Deployment reply. *)
Definition complete_reply : string :=
  Str.lines
    [ "Here is the configuration."
    ; "[REQUIREMENTS]"
    ; "flask>=2.0"
    ; "[SETUP_INSTRUCTIONS]"
    ; "pip install -r requirements.txt"
    ; "[GITHUB_PUSH]"
    ; "git push origin main"
    ; "[HOSTING_PLATFORMS]"
    ; "Render" ].

(** *** Occurrences of a marker *)

Definition occurs_at (sub s : string) (i : nat) : Prop :=
  String.substring i (String.length sub) s = sub.

(** [i] is the first position at or after [from] where [sub] occurs. *)
Definition first_from (sub s : string) (from i : nat) : Prop :=
  (from <= i)%nat /\ occurs_at sub s i
  /\ forall j, (from <= j < i)%nat -> ~ occurs_at sub s j.

Definition absent_from (sub s : string) (from : nat) : Prop :=
  forall j, (from <= j)%nat -> ~ occurs_at sub s j.

(** The text from position [i] up to position [j]. *)
Definition text_between (s : string) (i j : nat) : string :=
  String.substring i (j - i) s.

(** The text from position [i] to the end. *)
Definition text_after (s : string) (i : nat) : string :=
  String.substring i (String.length s - i) s.

(** *** The labeled-section extraction as the specification words it

    The content of a section is the text between its marker and the next
    recognized marker, or the end of the text; a section is backfilled with
    its default only when its marker is not found. *)

Definition markers : list string :=
  [ DeploymentAgent.REQUIREMENTS; DeploymentAgent.SETUP_INSTRUCTIONS
  ; DeploymentAgent.GITHUB_PUSH; DeploymentAgent.HOSTING_PLATFORMS ].

(** The position of the next recognized marker at or after [from], or the
    end of the text. *)
Definition spec_next_marker (content : string) (from : Z) : Z :=
  fold_right
    (fun marker best =>
       let i := Str.find content marker from in
       if (0 <=? i) && (i <? best) then i else best)
    (Str.len content) markers.

Definition spec_section (marker content : string) : string :=
  let start := Str.find content marker 0 + Str.len marker in
  Str.slice content start (spec_next_marker content start).

Definition section_fields : list (string * string) :=
  [ (DeploymentAgent.REQUIREMENTS, "requirements")
  ; (DeploymentAgent.SETUP_INSTRUCTIONS, "setup_instructions")
  ; (DeploymentAgent.GITHUB_PUSH, "github_push")
  ; (DeploymentAgent.HOSTING_PLATFORMS, "hosting_platforms") ].

(** Every section whose marker is found holds the text after the marker up
    to the next marker, here read up to surrounding whitespace: the exact
    reading implies this one. *)
Definition labeled_sections_claim (content : string) : Prop :=
  forall marker key, (marker, key) ∈ section_fields ->
    Str.contains marker content = true ->
    exists v, DeploymentAgent._parse_deployment_output content !! key = Some v
              /\ Str.strip v = Str.strip (spec_section marker content).

(** *** Retrying stages *)

(** An attempt that the retry policy counts as failed: the service raised,
    returned nothing, or returned blank text. *)
Definition is_failure (o : outcome) : bool :=
  match o with
  | Raised _ => true
  | Returned NoResponse => true
  | Returned (Content c) => DeploymentAgent.blank c
  end.

(** What [k] failed attempts starting with attempt [a] leave in the trace:
    after each call, a sleep of two to the power of the attempt. *)
Definition backoff_events (prompt : string) (a k : nat) : list event :=
  flat_map (fun j => [Called prompt; Slept (2 ^ Z.of_nat j)]) (seq a k).

Definition stage (A : Type) : Type :=
  service -> string -> list event -> result A * list event.

Definition requirement_stage : stage (gmap string pyval) :=
  fun svc user_input tr =>
    RequirementAnalysisAgent.analyze Json.loads svc user_input None tr.

Definition is_Ok {A} (r : result A) : bool :=
  match r with Ok _ => true | Raise _ => false end.

(** The stage sleeps one time unit and calls again after a first failed
    attempt, and returns when the second attempt succeeds. *)
Definition retries_after_failure {A} (run : stage A) : Prop :=
  forall svc input,
    (forall p, is_failure (svc 0%nat p) = true) ->
    (forall p, exists c, svc 1%nat p = Returned (Content c)
                         /\ DeploymentAgent.blank c = false) ->
    sleeps (snd (run svc input [])) = [1]
    /\ calls (snd (run svc input [])) = 2%nat
    /\ is_Ok (fst (run svc input [])) = true.

(** The stage turns every failed attempt into a [ValueError]. *)
Definition fails_on_unusable_reply {A} (run : stage A) : Prop :=
  forall svc prompt,
    is_failure (svc 0%nat prompt) = true ->
    exists msg, fst (run svc prompt []) = Raise (ValueError msg).

(** A service that fails twice, in two different ways, and then answers. *)
Definition fails_twice (answer : string) : service :=
  fun k _ =>
    match k with
    | O => Raised (ServiceError "rate limit exceeded")
    | S O => Returned NoResponse
    | _ => Returned (Content answer)
    end.

(** A service that returns nothing once and then answers. *)
Definition fails_once (answer : string) : service :=
  fun k _ =>
    match k with
    | O => Returned NoResponse
    | _ => Returned (Content answer)
    end.

(** A service that never answers: it raises, returns nothing, returns
    blank text, and so on. *)
Definition always_fails : service :=
  fun k _ =>
    match k with
    | O => Raised (ServiceError "connection reset")
    | S O => Returned (Content "   ")
    | _ => Returned NoResponse
    end.

(** A service whose reply is the empty text. *)
Definition answers_empty : service :=
  fun _ _ => Returned (Content EmptyString).

(** *** A follow-up run *)

(** The record a first run returned, and the context the second run gets. *)
Definition first_run_requirements : gmap string pyval :=
  <["functional_requirements" :=
      PyList [PyStr "Add two integers"; PyStr "Subtract two integers";
              PyStr "Multiply two integers"; PyStr "Divide two integers"]]>
  (<["non_functional_requirements" := PyList [PyStr "Answer within a second"]]>
  (<["assumptions" := PyList []]>
  (<["constraints" := PyList []]>
  (<["clarifying_questions" := PyList []]>
  (<["ambiguity_detected" := PyBool false]>
  (<["ambiguity_notes" := PyStr EmptyString]> ∅)))))).

Definition follow_up_context : RequirementAnalysisAgent.context_t :=
  {| RequirementAnalysisAgent.is_active := true;
     RequirementAnalysisAgent.previous_prompts := ["Build a calculator"];
     RequirementAnalysisAgent.previous_results :=
       Some {| RequirementAnalysisAgent.requirements := first_run_requirements;
               RequirementAnalysisAgent.code := "def add(a, b): return a + b" |} |}.

(** *** Texts made of one kind of character *)

(** Every character of [s] satisfies [f]. *)
Fixpoint all_chars (f : ascii -> bool) (s : string) : bool :=
  match s with
  | EmptyString => true
  | String c s' => f c && all_chars f s'
  end.

(** The character [c0] does not occur in [s]. *)
Definition lacks (c0 : ascii) (s : string) : bool :=
  all_chars (fun c => negb (Ascii.eqb c c0)) s.

(** The record of the four canned defaults. *)
Definition default_config : gmap string string :=
  <["requirements" := DeploymentAgent._generate_default_requirements]>
  (<["setup_instructions" := DeploymentAgent._generate_default_setup]>
  (<["github_push" := DeploymentAgent._generate_default_github_push]>
  (<["hosting_platforms" := DeploymentAgent._generate_default_hosting_platforms]>
   ∅))).

(** What a failed attempt of the Deployment stage leaves as the error to
    report: the error the service raised, or the stage's own complaint
    about a missing or blank reply. *)
Definition failure_cause (o : outcome) : exn :=
  match o with
  | Raised e => e
  | Returned NoResponse =>
      ValueError "Agent returned None response after retries. This may be due to API rate limiting or model unavailability."
  | Returned (Content _) =>
      ValueError "Agent returned empty content after retries."
  end.

(** *** Kinds of decoded values *)

(** The values [len] accepts. *)
Definition has_len (v : pyval) : bool :=
  match v with
  | PyStr _ | PyList _ | PyDict _ => true
  | _ => false
  end.

(** The values that are neither sequences nor mappings: [None], booleans
    and numbers. *)
Definition is_scalar (v : pyval) : bool :=
  match v with
  | PyNone | PyBool _ | PyInt _ | PyFloat _ => true
  | _ => false
  end.

(** The record [analyze] builds from a decoded [dict]: the seven schema
    entries, each with its default. *)
Definition schema_record (m : gmap string pyval) : gmap string pyval :=
  <["functional_requirements" :=
      default (PyList []) (m !! "functional_requirements")]>
  (<["non_functional_requirements" :=
       default (PyList []) (m !! "non_functional_requirements")]>
  (<["assumptions" := default (PyList []) (m !! "assumptions")]>
  (<["constraints" := default (PyList []) (m !! "constraints")]>
  (<["clarifying_questions" :=
       default (PyList []) (m !! "clarifying_questions")]>
  (<["ambiguity_detected" :=
       default (PyBool false) (m !! "ambiguity_detected")]>
  (<["ambiguity_notes" :=
       default (PyStr EmptyString) (m !! "ambiguity_notes")]> ∅)))))).

(** The carried functional requirements cannot be summarised: they are
    [None], a boolean or a number, or a list with something else than a
    string among its first three items. *)
Definition summary_unusable (v : pyval) : bool :=
  match v with
  | PyList l =>
      match RequirementAnalysisAgent.all_str (take 3 l) with
      | Some _ => false
      | None => true
      end
  | _ => is_scalar v
  end.

(** A JSON object with one requirement, the flag unset and an entry outside
    the schema. *)
Definition object_body : string :=
  Str.dq +:+ "functional_requirements" +:+ Str.dq +:+ ": ["
  +:+ Str.dq +:+ "Add two integers" +:+ Str.dq +:+ "], "
  +:+ Str.dq +:+ "ambiguity_detected" +:+ Str.dq +:+ ": false, "
  +:+ Str.dq +:+ "priority" +:+ Str.dq +:+ ": 1".

Definition object_decoded : gmap string pyval :=
  <["functional_requirements" := PyList [PyStr "Add two integers"]]>
  (<["ambiguity_detected" := PyBool false]>
  (<["priority" := PyInt 1]> ∅)).

(** A JSON object whose functional requirements are [null], and the context
    of a follow-up run that carries the record [analyze] made of it. *)
Definition null_requirements_body : string :=
  Str.dq +:+ "functional_requirements" +:+ Str.dq +:+ ": null".

Definition null_requirements_context : RequirementAnalysisAgent.context_t :=
  {| RequirementAnalysisAgent.is_active := true;
     RequirementAnalysisAgent.previous_prompts := ["Build a calculator"];
     RequirementAnalysisAgent.previous_results :=
       Some {| RequirementAnalysisAgent.requirements :=
                 schema_record (<["functional_requirements" := PyNone]> ∅);
               RequirementAnalysisAgent.code := EmptyString |} |}.

(** *** Requirements as bullet lines *)

(** One line ["- r"] per requirement. *)
Fixpoint bullets (rs : list string) : string :=
  match rs with
  | [] => EmptyString
  | r :: rs' => "- " +:+ r +:+ Str.nl +:+ bullets rs'
  end.

(** A record whose functional requirements are fine and whose
    non-functional requirements are [null]. *)
Definition null_nfr_record : gmap string pyval :=
  <["functional_requirements" := PyList [PyStr "Add two integers"]]>
  (<["non_functional_requirements" := PyNone]> ∅).

(** Stand-ins for the interpreter's [str] and for the key order of a
    [dict], for examples whose values are strings and lists of strings. *)
Definition no_str : pyval -> string := fun _ => EmptyString.
Definition no_order : gmap string pyval -> list string := fun _ => [].

(** *** Valid JSON texts *)

(** The grammar of JSON (RFC 8259) as a recogniser: each function returns
    what follows the piece it recognises. It decodes nothing, and knows no
    limit on the size of a number or on the depth of nesting. *)
Module JsonGrammar.

Definition is_hex (c : ascii) : bool :=
  Str.between 48 57 c || Str.between 65 70 c || Str.between 97 102 c.

(** The character after a backslash, [u] apart. *)
Definition is_escape (c : ascii) : bool :=
  (Str.code c =? 34)%N || (Str.code c =? 92)%N || (Str.code c =? 47)%N
  || (Str.code c =? 98)%N || (Str.code c =? 102)%N || (Str.code c =? 110)%N
  || (Str.code c =? 114)%N || (Str.code c =? 116)%N.

(** After the opening quote of a string: up to its closing quote. *)
Fixpoint after_string (s : string) : option string :=
  match s with
  | EmptyString => None
  | String c s' =>
      if Json.is_quote c then Some s'
      else if (Str.code c =? 92)%N then
        match s' with
        | String e s'' =>
            if is_escape e then after_string s''
            else if (Str.code e =? 117)%N then
              match s'' with
              | String h1 (String h2 (String h3 (String h4 s5))) =>
                  if is_hex h1 && is_hex h2 && is_hex h3 && is_hex h4
                  then after_string s5
                  else None
              | _ => None
              end
            else None
        | EmptyString => None
        end
      else if (Str.code c <? 32)%N then None
      else after_string s'
  end.

Fixpoint after_digits (s : string) : string :=
  match s with
  | String c s' => if Json.is_digit c then after_digits s' else s
  | EmptyString => s
  end.

(** One digit at least. *)
Definition after_digits1 (s : string) : option string :=
  match s with
  | String c s' => if Json.is_digit c then Some (after_digits s') else None
  | EmptyString => None
  end.

Definition after_int (s : string) : option string :=
  match s with
  | String c s' =>
      if (Str.code c =? 48)%N then Some s'
      else if Str.between 49 57 c then Some (after_digits s')
      else None
  | EmptyString => None
  end.

Definition after_frac (s : string) : option string :=
  match s with
  | String c s' => if (Str.code c =? 46)%N then after_digits1 s' else Some s
  | EmptyString => Some s
  end.

Definition after_sign (s : string) : string :=
  match s with
  | String c s' =>
      if (Str.code c =? 43)%N || (Str.code c =? 45)%N then s' else s
  | EmptyString => s
  end.

Definition after_exp (s : string) : option string :=
  match s with
  | String c s' =>
      if (Str.code c =? 101)%N || (Str.code c =? 69)%N
      then after_digits1 (after_sign s')
      else Some s
  | EmptyString => Some s
  end.

Definition after_minus (s : string) : string :=
  match s with
  | String c s' => if (Str.code c =? 45)%N then s' else s
  | EmptyString => s
  end.

Definition after_number (s : string) : option string :=
  r ← after_int (after_minus s); r ← after_frac r; after_exp r.

Definition after_word (word s : string) : option string :=
  if String.prefix word s
  then Some (String.substring (String.length word) (String.length s) s)
  else None.

Fixpoint after_value (fuel : nat) (s : string) : option string :=
  match fuel with
  | O => None
  | S fuel =>
      match Json.skip_ws s with
      | EmptyString => None
      | String c r =>
          if Json.is_quote c then after_string r
          else if Ascii.eqb c "{" then
            match Json.skip_ws r with
            | String "}" rest => Some rest
            | _ => after_members fuel r
            end
          else if Ascii.eqb c "[" then
            match Json.skip_ws r with
            | String "]" rest => Some rest
            | _ => after_elements fuel r
            end
          else if Ascii.eqb c "t" then after_word "true" (String c r)
          else if Ascii.eqb c "f" then after_word "false" (String c r)
          else if Ascii.eqb c "n" then after_word "null" (String c r)
          else after_number (String c r)
      end
  end
with after_members (fuel : nat) (s : string) : option string :=
  match fuel with
  | O => None
  | S fuel =>
      match Json.skip_ws s with
      | String c r =>
          if Json.is_quote c then
            r ← after_string r;
            match Json.skip_ws r with
            | String ":" r =>
                r ← after_value fuel r;
                match Json.skip_ws r with
                | String "," r => after_members fuel r
                | String "}" r => Some r
                | _ => None
                end
            | _ => None
            end
          else None
      | EmptyString => None
      end
  end
with after_elements (fuel : nat) (s : string) : option string :=
  match fuel with
  | O => None
  | S fuel =>
      r ← after_value fuel s;
      match Json.skip_ws r with
      | String "," r => after_elements fuel r
      | String "]" r => Some r
      | _ => None
      end
  end.

(** [s] is a JSON text: one value, with whitespace around it at most. Every
    level of nesting uses up two characters and two units of fuel at
    most. *)
Definition valid (s : string) : bool :=
  match after_value (S (String.length s + String.length s)) s with
  | Some rest =>
      match Json.skip_ws rest with
      | EmptyString => true
      | _ => false
      end
  | None => false
  end.

End JsonGrammar.

(** *** Replies that cannot be parsed *)

(** The span of the reply from its first opening brace to its last closing
    brace. *)
Definition first_to_last_brace (content : string) : string :=
  Str.slice content (Str.find content "{" 0) (Str.rfind content "}" + 1).

(** The fallback as the specification words it: whenever the reply holds no
    span from an opening to a closing brace, or that span is not valid JSON,
    [analyze] returns and the record keeps the raw reply. *)
Definition falls_back_on_invalid_json
    (json_loads : string -> result pyval) : Prop :=
  forall (svc : service) (user_input prompt content : string)
         (context : option RequirementAnalysisAgent.context_t)
         (tr : list event),
    RequirementAnalysisAgent.compose_prompt user_input context = Ok prompt ->
    svc (calls tr) prompt = Returned (Content content) ->
    ((forall a b c, content <> a +:+ "{" +:+ b +:+ "}" +:+ c)
     \/ JsonGrammar.valid (first_to_last_brace content) = false) ->
    exists res,
      fst (RequirementAnalysisAgent.analyze json_loads svc user_input context tr)
      = Ok res
      /\ res !! "functional_requirements" = Some (PyList [PyStr content])
      /\ res !! "ambiguity_detected" = Some (PyBool true)
      /\ (exists a l, res !! "assumptions" = Some (PyList (a :: l))).

Fixpoint repeated (n : nat) (s : string) : string :=
  match n with
  | O => EmptyString
  | S n => s +:+ repeated n s
  end.

(** A reply whose only entry is a number of 4301 digits followed by a stray
    word: not a JSON text, and the decoder stops at the number. *)
Definition oversize_reply : string :=
  "{" +:+ Str.dq +:+ "a" +:+ Str.dq +:+ ": " +:+ repeated 4301 "9" +:+ " oops}".

(** ** Strings: lengths, stripping *)

Lemma append_nil_l (s : string) : EmptyString +:+ s = s.
Proof. reflexivity. Qed.

Lemma append_cons (c : ascii) (a b : string) :
  String c a +:+ b = String c (a +:+ b).
Proof. reflexivity. Qed.

Lemma lstrip_length (s : string) :
  (String.length (Str.lstrip s) <= String.length s)%nat.
Proof.
  induction s as [|c s IH]; simpl; [lia|].
  destruct (Str.is_space c); simpl; lia.
Qed.

Lemma rstrip_length (s : string) :
  (String.length (Str.rstrip s) <= String.length s)%nat.
Proof.
  induction s as [|c s IH]; simpl; [lia|].
  destruct (Str.rstrip s) as [|d r]; simpl in *.
  - destruct (Str.is_space c); simpl; lia.
  - lia.
Qed.

Lemma strip_len (s : string) : Str.len (Str.strip s) <= Str.len s.
Proof.
  unfold Str.len, Str.strip.
  pose proof (rstrip_length (Str.lstrip s)).
  pose proof (lstrip_length s). lia.
Qed.

(** ** The ambiguity detector *)

Lemma sum_ones_filter {A} (cond : A -> bool) (l : list A) :
  RequirementAnalysisAgent.sum_ones cond l
  = Z.of_nat (length (filter (fun x => cond x = true) l)).
Proof.
  unfold RequirementAnalysisAgent.sum_ones.
  induction l as [|x l IH]; simpl; [reflexivity|].
  rewrite filter_cons, IH.
  destruct (cond x) eqn:E.
  - rewrite decide_True by done. simpl length. lia.
  - rewrite decide_False by done. lia.
Qed.

Lemma last_char_app (prev : option ascii) (a b : string) :
  last_char prev (a +:+ b) = last_char (last_char prev a) b.
Proof.
  revert prev. induction a as [|c a IH]; intros prev; simpl; [reflexivity|].
  apply IH.
Qed.

Lemma literal_spec (lit s : string) (prev l : option ascii) (rest : string) :
  Re.literal lit s prev = Some (l, rest)
  <-> exists mid, s = mid +:+ rest /\ ieq mid lit = true /\ l = last_char prev mid.
Proof.
  revert s prev. induction lit as [|a lit IH]; intros s prev; simpl.
  - split.
    + intros [= <- <-]. exists EmptyString. auto.
    + intros (mid & -> & Hi & ->). destruct mid; [reflexivity|discriminate].
  - destruct s as [|c s].
    + split; [discriminate|].
      intros (mid & Hs & Hi & _). destruct mid; discriminate.
    + destruct (Ascii.eqb (Str.lower c) (Str.lower a)) eqn:E.
      * rewrite IH. split.
        -- intros (mid & -> & Hi & ->). exists (String c mid).
           simpl. rewrite E, Hi. auto.
        -- intros (mid & Hs & Hi & ->).
           destruct mid as [|c' mid]; [discriminate|].
           simpl in Hs. injection Hs as <- ->.
           simpl in Hi. rewrite E in Hi. exists mid. auto.
      * split; [discriminate|].
        intros (mid & Hs & Hi & _).
        destruct mid as [|c' mid]; [discriminate|].
        simpl in Hs. injection Hs as <- ->.
        simpl in Hi. rewrite E in Hi. discriminate.
Qed.

Lemma match_here_spec (p : Re.pattern) (prev : option ascii) (s : string) :
  Re.match_here p prev s = true
  <-> exists mid post a,
        s = mid +:+ post /\ a ∈ Re.alts p /\ ieq mid a = true
        /\ Re.boundary prev (Re.head s) = true
        /\ Re.boundary (last_char prev mid) (Re.head post) = true.
Proof.
  unfold Re.match_here. rewrite andb_true_iff, existsb_exists. split.
  - intros (Hb & a & Hin & Ha). unfold Re.alt_here in Ha.
    destruct (Re.literal a s prev) as [[l rest]|] eqn:E; [|discriminate].
    apply literal_spec in E as (mid & -> & Hi & ->).
    exists mid, rest, a. rewrite list_elem_of_In. auto.
  - intros (mid & post & a & -> & Hin & Hi & Hb & He).
    split; [exact Hb|]. exists a. rewrite <- list_elem_of_In. split; [exact Hin|].
    unfold Re.alt_here.
    assert (Re.literal a (mid +:+ post) prev = Some (last_char prev mid, post)) as ->.
    { apply literal_spec. exists mid. auto. }
    exact He.
Qed.

Lemma search_from_spec (p : Re.pattern) (prev : option ascii) (s : string) :
  Re.search_from p prev s = true
  <-> exists pre mid post a,
        s = pre +:+ mid +:+ post /\ a ∈ Re.alts p /\ ieq mid a = true
        /\ Re.boundary (last_char prev pre) (Re.head (mid +:+ post)) = true
        /\ Re.boundary (last_char prev (pre +:+ mid)) (Re.head post) = true.
Proof.
  revert prev. induction s as [|c s IH]; intros prev.
  - cbn [Re.search_from]. rewrite orb_false_r, match_here_spec. split.
    + intros (mid & post & a & Hs & Hin & Hi & Hb & He).
      exists EmptyString, mid, post, a.
      rewrite !append_nil_l, <- Hs. auto.
    + intros (pre & mid & post & a & Hs & Hin & Hi & Hb & He).
      destruct pre; [|discriminate].
      rewrite !append_nil_l in *. cbn [last_char] in Hb.
      exists mid, post, a. split; [exact Hs|]. rewrite Hs. auto.
  - cbn [Re.search_from]. rewrite orb_true_iff, match_here_spec, IH. split.
    + intros [(mid & post & a & Hs & Hin & Hi & Hb & He)
             |(pre & mid & post & a & Hs & Hin & Hi & Hb & He)].
      * exists EmptyString, mid, post, a.
        rewrite !append_nil_l, <- Hs. auto.
      * exists (String c pre), mid, post, a.
        rewrite !append_cons, Hs. auto.
    + intros (pre & mid & post & a & Hs & Hin & Hi & Hb & He).
      destruct pre as [|c' pre].
      * left. rewrite !append_nil_l in *. cbn [last_char] in Hb.
        exists mid, post, a. split; [exact Hs|]. rewrite Hs. auto.
      * right. rewrite !append_cons in *. injection Hs as <- ->.
        cbn [last_char] in *.
        exists pre, mid, post, a. auto.
Qed.

(** [re.search] succeeds exactly when the pattern matches somewhere. *)
Lemma search_occurs (p : Re.pattern) (text : string) :
  Re.search p text = true <-> occurs p text.
Proof. apply search_from_spec. Qed.

Lemma vague_terms_NoDup : NoDup RequirementAnalysisAgent.vague_terms.
Proof. apply (bool_decide_unpack _). vm_compute. reflexivity. Qed.

Lemma missing_patterns_NoDup : NoDup RequirementAnalysisAgent.missing_patterns.
Proof. apply (bool_decide_unpack _). vm_compute. reflexivity. Qed.

(** C2. For every text, the detector answers [is_ambiguous = true] exactly
    when more than two vague-language patterns match at least once in the
    text, or more than two expected-specification patterns match nowhere in
    it, or the stripped text is shorter than 50 characters; the two counts
    it reports are the numbers of those patterns. *)
Theorem detect_ambiguity_verdict (text : string) :
  exists vague missing : list Re.pattern,
    NoDup vague
    /\ (forall p, p ∈ vague
                  <-> p ∈ RequirementAnalysisAgent.vague_terms /\ occurs p text)
    /\ NoDup missing
    /\ (forall p, p ∈ missing
                  <-> p ∈ RequirementAnalysisAgent.missing_patterns
                      /\ ~ occurs p text)
    /\ RequirementAnalysisAgent.vague_terms_found
         (RequirementAnalysisAgent._detect_ambiguity text)
       = Z.of_nat (length vague)
    /\ RequirementAnalysisAgent.missing_specifications
         (RequirementAnalysisAgent._detect_ambiguity text)
       = Z.of_nat (length missing)
    /\ (RequirementAnalysisAgent.is_ambiguous
          (RequirementAnalysisAgent._detect_ambiguity text) = true
        <-> Z.of_nat (length vague) > 2 \/ Z.of_nat (length missing) > 2
            \/ Str.len (Str.strip text) < 50).
Proof.
  exists (filter (fun p => Re.search p text = true)
                 RequirementAnalysisAgent.vague_terms),
         (filter (fun p => negb (Re.search p text) = true)
                 RequirementAnalysisAgent.missing_patterns).
  split; [apply NoDup_filter, vague_terms_NoDup|].
  split.
  { intros p. rewrite list_elem_of_filter, search_occurs. tauto. }
  split; [apply NoDup_filter, missing_patterns_NoDup|].
  split.
  { intros p. rewrite list_elem_of_filter, negb_true_iff, <- search_occurs.
    rewrite not_true_iff_false. tauto. }
  unfold RequirementAnalysisAgent._detect_ambiguity. simpl.
  rewrite !sum_ones_filter.
  split; [reflexivity|]. split; [reflexivity|].
  rewrite !orb_true_iff, !Z.gtb_lt, Z.ltb_lt. lia.
Qed.

(** C8. A text shorter than 50 characters is always found ambiguous,
    whatever the two counts are. *)
Theorem short_text_is_ambiguous (text : string) :
  Str.len text < 50 ->
  RequirementAnalysisAgent.is_ambiguous
    (RequirementAnalysisAgent._detect_ambiguity text) = true.
Proof.
  intros Hlen. unfold RequirementAnalysisAgent._detect_ambiguity. simpl.
  rewrite !orb_true_iff. right. apply Z.ltb_lt.
  pose proof (strip_len text). lia.
Qed.

Lemma short_text_is_ambiguous_witness :
  Str.len "Build a function that adds two numbers" < 50
  /\ RequirementAnalysisAgent.is_ambiguous
       (RequirementAnalysisAgent._detect_ambiguity
          "Build a function that adds two numbers") = true.
Proof.
  split; [reflexivity|].
  apply (short_text_is_ambiguous "Build a function that adds two numbers").
  reflexivity.
Defined.

(** ** The Requirement stage: parsing the reply *)

(** Whatever [dict] the decoder yields, the seven fields are all there, each
    the decoded entry or its default. *)
Lemma ensure_fields_dict (m : gmap string pyval) :
  exists res,
    RequirementAnalysisAgent.ensure_fields (PyDict m) = Ok res
    /\ res !! "functional_requirements"
       = Some (default (PyList []) (m !! "functional_requirements"))
    /\ res !! "non_functional_requirements"
       = Some (default (PyList []) (m !! "non_functional_requirements"))
    /\ res !! "assumptions" = Some (default (PyList []) (m !! "assumptions"))
    /\ res !! "constraints" = Some (default (PyList []) (m !! "constraints"))
    /\ res !! "clarifying_questions"
       = Some (default (PyList []) (m !! "clarifying_questions"))
    /\ res !! "ambiguity_detected"
       = Some (default (PyBool false) (m !! "ambiguity_detected"))
    /\ res !! "ambiguity_notes"
       = Some (default (PyStr EmptyString) (m !! "ambiguity_notes")).
Proof.
  eexists. split; [reflexivity|].
  repeat split; reflexivity.
Qed.

Lemma ensure_fields_fallback (content : string) :
  RequirementAnalysisAgent.ensure_fields
    (PyDict (RequirementAnalysisAgent._parse_fallback content))
  = Ok (RequirementAnalysisAgent._parse_fallback content).
Proof. reflexivity. Qed.

Lemma parse_reply_fallback (json_loads : string -> result pyval) (content : string) :
  RequirementAnalysisAgent.extract_requirements json_loads content
  = Ok (PyDict (RequirementAnalysisAgent._parse_fallback content)) ->
  RequirementAnalysisAgent.parse_reply json_loads content
  = Ok (RequirementAnalysisAgent._parse_fallback content).
Proof.
  intros H. unfold RequirementAnalysisAgent.parse_reply. rewrite H.
  reflexivity.
Qed.

(** *** Brace spans *)

Lemma substring_prefix (sub s : string) :
  String.substring 0 (String.length sub) s = sub -> exists c, s = sub +:+ c.
Proof.
  revert s. induction sub as [|y sub IH]; intros s H.
  - exists s. reflexivity.
  - destruct s as [|x s]; [discriminate|].
    simpl in H. injection H as -> H.
    destruct (IH s H) as [c ->]. exists c. reflexivity.
Qed.

Lemma occurs_decompose (sub s : string) (i : nat) :
  sub <> EmptyString -> occurs_at sub s i ->
  exists a c, s = a +:+ sub +:+ c /\ String.length a = i.
Proof.
  intros Hne. revert s. induction i as [|i IH]; intros s Hocc.
  - destruct (substring_prefix sub s Hocc) as [c ->].
    exists EmptyString, c. split; reflexivity.
  - destruct s as [|x s].
    + unfold occurs_at in Hocc. simpl in Hocc. congruence.
    + destruct (IH s Hocc) as (a & c & -> & Hlen).
      exists (String x a), c. split; [reflexivity|]. simpl. lia.
Qed.

Lemma occurs_at_skip (sub a t : string) (k : nat) :
  occurs_at sub (a +:+ t) (String.length a + k) <-> occurs_at sub t k.
Proof.
  unfold occurs_at. induction a as [|x a IH]; [reflexivity|].
  rewrite append_cons. exact IH.
Qed.

Lemma rindex_occurs (sub s : string) (j : nat) :
  Str.rindex sub s = Some j -> occurs_at sub s j.
Proof.
  revert j. induction s as [|x s IH]; intros j; cbn [Str.rindex].
  - destruct (String.prefix sub EmptyString) eqn:E; [|discriminate].
    intros [= <-]. apply prefix_correct in E. exact E.
  - destruct (Str.rindex sub s) as [i|].
    + intros [= <-]. apply (IH i). reflexivity.
    + destruct (String.prefix sub (String x s)) eqn:E; [|discriminate].
      intros [= <-]. apply prefix_correct in E. exact E.
Qed.

(** A text that cannot be cut at an opening brace and at a later closing
    brace gives the extraction no span to decode. *)
Lemma no_brace_span (content : string) :
  (forall a b c, content <> a +:+ "{" +:+ b +:+ "}" +:+ c) ->
  Str.find content "{" 0 < 0
  \/ Str.rfind content "}" + 1 <= Str.find content "{" 0.
Proof.
  intros Hno. unfold Str.find, Str.rfind. change (Z.to_nat 0) with 0%nat.
  destruct (String.index 0 "{" content) as [i|] eqn:Ei; [|left; lia].
  destruct (Str.rindex "}" content) as [j|] eqn:Ej; [|right; lia].
  right. apply index_correct1 in Ei. apply rindex_occurs in Ej.
  destruct (Nat.lt_trichotomy i j) as [Hlt | [Heq | Hgt]]; [| |lia].
  2:{ subst j. unfold occurs_at in Ej.
      change (String.length "}") with (String.length "{") in Ej.
      rewrite Ei in Ej. discriminate. }
  exfalso.
  destruct (occurs_decompose "{" content i) as (a & rest & -> & Hlen);
    [done|exact Ei|].
  replace j with (String.length a + (1 + (j - i - 1)))%nat in Ej by lia.
  apply occurs_at_skip in Ej.
  apply (occurs_at_skip "}" "{" rest (j - i - 1)) in Ej.
  destruct (occurs_decompose "}" rest (j - i - 1)) as (b & c & -> & _);
    [done|exact Ej|].
  apply (Hno a b c). reflexivity.
Qed.

(** On a reply whose span holds an integer literal of more than 4300 digits
    the decoder raises a plain [ValueError]; the handler of [analyze] names
    [JSONDecodeError] alone, so the error leaves [analyze]. *)
Lemma analyze_raises_on_oversize_integer :
  JsonGrammar.valid (first_to_last_brace oversize_reply) = false
  /\ Json.loads (first_to_last_brace oversize_reply)
     = Raise (Json.int_limit_error 4301)
  /\ fst (RequirementAnalysisAgent.analyze Json.loads
            (fun _ _ => Returned (Content oversize_reply))
            "Build a calculator" None [])
     = Raise (Json.int_limit_error 4301).
Proof.
  split; [vm_compute; reflexivity|].
  split; vm_compute; reflexivity.
Qed.




(** When the decoded record sets the ambiguity flag and its clarifying
    questions have no length, formatting the log line raises. *)
Lemma parse_reply_log_raises (json_loads : string -> result pyval)
    (content : string) (m : gmap string pyval) (flag questions : pyval) (e : exn) :
  RequirementAnalysisAgent.extract_requirements json_loads content
  = Ok (PyDict m) ->
  m !! "ambiguity_detected" = Some flag -> truthy flag = true ->
  m !! "clarifying_questions" = Some questions -> py_len questions = Raise e ->
  RequirementAnalysisAgent.parse_reply json_loads content = Raise e.
Proof.
  intros Hx Hflag Ht Hq Hlen.
  unfold RequirementAnalysisAgent.parse_reply. rewrite Hx.
  cbn [mbind result_bind].
  destruct (ensure_fields_dict m) as (res & -> & _ & _ & _ & _ & Hcq & Hamb & _).
  cbn [mbind result_bind].
  unfold RequirementAnalysisAgent.log_ambiguity.
  rewrite Hamb, Hcq, Hflag, Hq. cbn [default from_option id].
  rewrite Ht, Hlen. reflexivity.
Qed.

(** C1 (the defect). On a reply that is valid JSON, with the ambiguity flag
    set and [null] for the clarifying questions, [analyze] raises
    [TypeError] while formatting its log line: no record is returned. *)
Theorem analyze_raises_on_ill_typed_questions :
  Json.loads ill_typed_reply
  = Ok (PyDict (<["ambiguity_detected" := PyBool true]>
               (<["clarifying_questions" := PyNone]> ∅)))
  /\ fst (RequirementAnalysisAgent.analyze Json.loads
            (fun _ _ => Returned (Content ill_typed_reply))
            "Build a calculator" None [])
     = Raise (TypeError "object of type 'NoneType' has no len()").
Proof. split; vm_compute; reflexivity. Qed.

(** ** The Deployment stage: parsing the reply *)

Lemma or_default_truthy (x d : string) :
  Str.truthy d = true -> Str.truthy (DeploymentAgent.or_default x d) = true.
Proof.
  intros Hd. unfold DeploymentAgent.or_default.
  destruct (Str.truthy x) eqn:E; simpl; [exact E|exact Hd].
Qed.

(** The parser is total and its four fields are never empty. *)
Lemma parse_deployment_output_populated (content : string) :
  exists r s g h,
    DeploymentAgent._parse_deployment_output content !! "requirements" = Some r
    /\ DeploymentAgent._parse_deployment_output content !! "setup_instructions"
       = Some s
    /\ DeploymentAgent._parse_deployment_output content !! "github_push" = Some g
    /\ DeploymentAgent._parse_deployment_output content !! "hosting_platforms"
       = Some h
    /\ Str.truthy r = true /\ Str.truthy s = true
    /\ Str.truthy g = true /\ Str.truthy h = true.
Proof.
  unfold DeploymentAgent._parse_deployment_output.
  do 4 eexists.
  split; [reflexivity|]. split; [reflexivity|].
  split; [reflexivity|]. split; [reflexivity|].
  repeat split; apply or_default_truthy; reflexivity.
Qed.

(** ** Strings: occurrences and slices *)

Lemma substring_length (s : string) (i n : nat) :
  String.length (String.substring i n s) = Nat.min n (String.length s - i).
Proof.
  revert i n. induction s as [|c s IH]; intros [|i] [|n]; simpl;
    rewrite ?IH; try reflexivity; try lia.
Qed.

Lemma substring_zero (s : string) (i : nat) :
  String.substring i 0 s = EmptyString.
Proof.
  revert i. induction s as [|c s IH]; intros [|i]; simpl; auto.
Qed.

Lemma occurs_at_bound (sub s : string) (i : nat) :
  sub <> EmptyString -> occurs_at sub s i ->
  (i + String.length sub <= String.length s)%nat.
Proof.
  intros Hne Hocc. unfold occurs_at in Hocc.
  pose proof (substring_length s i (String.length sub)) as Hlen.
  rewrite Hocc in Hlen.
  assert (0 < String.length sub)%nat
    by (destruct sub; simpl; [congruence|lia]).
  lia.
Qed.

Lemma index_ge (sub s : string) (n m : nat) :
  String.index n sub s = Some m -> (n <= m)%nat.
Proof.
  revert n m. induction s as [|c s IH]; intros n m.
  - destruct n; simpl.
    + destruct sub; intros [= <-] || discriminate. lia.
    + discriminate.
  - destruct n; simpl; [lia|].
    destruct (String.index n sub s) as [k|] eqn:E; [|discriminate].
    intros [= <-]. apply IH in E. lia.
Qed.

Lemma index_first (sub s : string) (from i : nat) :
  String.index from sub s = Some i -> first_from sub s from i.
Proof.
  intros H. split; [eapply index_ge; eauto|].
  split; [eapply index_correct1; eauto|].
  intros j [Hj1 Hj2]. eapply index_correct2; eauto.
Qed.

Lemma first_index (sub s : string) (from i : nat) :
  sub <> EmptyString -> first_from sub s from i ->
  String.index from sub s = Some i.
Proof.
  intros Hne (Hle & Hocc & Hmin).
  destruct (String.index from sub s) as [k|] eqn:E.
  - pose proof (index_first _ _ _ _ E) as (Hle' & Hocc' & Hmin').
    destruct (Nat.lt_trichotomy k i) as [Hlt | [-> | Hgt]].
    + exfalso. apply (Hmin k); [lia|exact Hocc'].
    + reflexivity.
    + exfalso. apply (Hmin' i); [lia|exact Hocc].
  - exfalso. eapply index_correct3; eauto.
Qed.

Lemma absent_index (sub s : string) (from : nat) :
  sub <> EmptyString -> absent_from sub s from ->
  String.index from sub s = None.
Proof.
  intros Hne Habs.
  destruct (String.index from sub s) as [k|] eqn:E; [|reflexivity].
  pose proof (index_first _ _ _ _ E) as (Hle & Hocc & _).
  exfalso. apply (Habs k); assumption.
Qed.

Lemma index_absent (sub s : string) (from : nat) :
  sub <> EmptyString -> String.index from sub s = None ->
  absent_from sub s from.
Proof.
  intros Hne H j Hj. eapply index_correct3; eauto.
Qed.

Lemma find_first (sub s : string) (from i : nat) :
  sub <> EmptyString -> first_from sub s from i ->
  Str.find s sub (Z.of_nat from) = Z.of_nat i.
Proof.
  intros Hne H. unfold Str.find.
  rewrite Nat2Z.id, (first_index _ _ _ _ Hne H). reflexivity.
Qed.

Lemma find_absent (sub s : string) (from : nat) :
  sub <> EmptyString -> absent_from sub s from ->
  Str.find s sub (Z.of_nat from) = -1.
Proof.
  intros Hne H. unfold Str.find.
  rewrite Nat2Z.id, (absent_index _ _ _ Hne H). reflexivity.
Qed.

Lemma contains_first (sub s : string) (i : nat) :
  sub <> EmptyString -> first_from sub s 0 i -> Str.contains sub s = true.
Proof.
  intros Hne H. unfold Str.contains.
  rewrite (first_index _ _ _ _ Hne H). reflexivity.
Qed.

Lemma contains_false_absent (sub s : string) (from : nat) :
  sub <> EmptyString -> Str.contains sub s = false -> absent_from sub s from.
Proof.
  intros Hne H. unfold Str.contains in H.
  destruct (String.index 0 sub s) eqn:E; [discriminate|].
  intros j _. eapply index_correct3; eauto. lia.
Qed.

Lemma slice_nat (s : string) (a b : nat) :
  (a <= b)%nat -> (b <= String.length s)%nat ->
  Str.slice s (Z.of_nat a) (Z.of_nat b) = text_between s a b.
Proof.
  intros Hab Hb. unfold Str.slice, Str.clip, Str.len, text_between.
  destruct (Z.ltb_spec (Z.of_nat a) 0); [lia|].
  destruct (Z.ltb_spec (Z.of_nat b) 0); [lia|].
  rewrite !Z.min_l by lia.
  rewrite Nat2Z.id. f_equal. lia.
Qed.

Lemma slice_from_nat (s : string) (a : nat) :
  (a <= String.length s)%nat ->
  Str.slice_from s (Z.of_nat a) = text_after s a.
Proof.
  intros Ha. unfold Str.slice_from, Str.len.
  rewrite slice_nat by lia. reflexivity.
Qed.

Lemma find_lower_bound (s sub : string) (start : Z) : -1 <= Str.find s sub start.
Proof. unfold Str.find. destruct (String.index _ _ _); lia. Qed.

Lemma contains_false_find (sub s : string) (start : Z) :
  sub <> EmptyString -> Str.contains sub s = false -> Str.find s sub start = -1.
Proof.
  intros Hne H. unfold Str.find.
  rewrite (absent_index sub s (Z.to_nat start) Hne); [reflexivity|].
  apply contains_false_absent; assumption.
Qed.

Lemma strip_empty : Str.strip EmptyString = EmptyString.
Proof. reflexivity. Qed.

(** The text a section yields when its closing marker is at [j]: the guard
    [end > start] only singles out the empty stretch. *)
Lemma section_between (content : string) (a j : nat) :
  (a <= j)%nat -> (j <= String.length content)%nat ->
  (if Z.of_nat j >? Z.of_nat a
   then Str.strip (Str.slice content (Z.of_nat a) (Z.of_nat j))
   else EmptyString)
  = Str.strip (text_between content a j).
Proof.
  intros Haj Hj. destruct (Z.gtb_spec (Z.of_nat j) (Z.of_nat a)).
  - rewrite slice_nat by lia. reflexivity.
  - assert (j = a) as -> by lia.
    unfold text_between. rewrite Nat.sub_diag, substring_zero. reflexivity.
Qed.

Lemma marker_bound (marker content : string) (from j : nat) :
  marker <> EmptyString -> first_from marker content from j ->
  (from <= j)%nat /\ (j <= String.length content)%nat.
Proof.
  intros Hne (Hle & Hocc & _).
  pose proof (occurs_at_bound _ _ _ Hne Hocc). lia.
Qed.

Lemma extract_requirements_found (content : string) (i j : nat) :
  first_from DeploymentAgent.REQUIREMENTS content 0 i ->
  (first_from DeploymentAgent.SETUP_INSTRUCTIONS content
     (i + String.length DeploymentAgent.REQUIREMENTS) j
   \/ (absent_from DeploymentAgent.SETUP_INSTRUCTIONS content
         (i + String.length DeploymentAgent.REQUIREMENTS)
       /\ first_from DeploymentAgent.GITHUB_PUSH content
            (i + String.length DeploymentAgent.REQUIREMENTS) j)) ->
  DeploymentAgent.extract_requirements content
  = Str.strip (text_between content
                 (i + String.length DeploymentAgent.REQUIREMENTS) j).
Proof.
  intros Hi Hj. unfold DeploymentAgent.extract_requirements.
  rewrite (contains_first _ _ i) by (done || exact Hi).
  rewrite (find_first _ _ 0 i) by (done || exact Hi).
  set (a := (i + String.length DeploymentAgent.REQUIREMENTS)%nat).
  replace (Z.of_nat i + Str.len DeploymentAgent.REQUIREMENTS)
    with (Z.of_nat a) by (unfold a, Str.len; lia).
  destruct Hj as [Hj | [Habs Hj]].
  - rewrite (find_first _ _ a j) by (done || exact Hj).
    destruct (Z.eqb_spec (Z.of_nat j) (-1)); [lia|].
    apply marker_bound in Hj as [? ?]; [|done].
    apply section_between; assumption.
  - rewrite (find_absent _ _ a) by (done || exact Habs).
    cbn [Z.eqb]. rewrite (find_first _ _ a j) by (done || exact Hj).
    apply marker_bound in Hj as [? ?]; [|done].
    apply section_between; assumption.
Qed.

Lemma extract_setup_found (content : string) (i j : nat) :
  first_from DeploymentAgent.SETUP_INSTRUCTIONS content 0 i ->
  first_from DeploymentAgent.GITHUB_PUSH content
    (i + String.length DeploymentAgent.SETUP_INSTRUCTIONS) j ->
  DeploymentAgent.extract_setup_instructions content
  = Str.strip (text_between content
                 (i + String.length DeploymentAgent.SETUP_INSTRUCTIONS) j).
Proof.
  intros Hi Hj. unfold DeploymentAgent.extract_setup_instructions.
  rewrite (contains_first _ _ i) by (done || exact Hi).
  rewrite (find_first _ _ 0 i) by (done || exact Hi).
  set (a := (i + String.length DeploymentAgent.SETUP_INSTRUCTIONS)%nat).
  replace (Z.of_nat i + Str.len DeploymentAgent.SETUP_INSTRUCTIONS)
    with (Z.of_nat a) by (unfold a, Str.len; lia).
  rewrite (find_first _ _ a j) by (done || exact Hj).
  apply marker_bound in Hj as [? ?]; [|done].
  apply section_between; assumption.
Qed.

Lemma extract_github_found (content : string) (i j : nat) :
  first_from DeploymentAgent.GITHUB_PUSH content 0 i ->
  first_from DeploymentAgent.HOSTING_PLATFORMS content
    (i + String.length DeploymentAgent.GITHUB_PUSH) j ->
  DeploymentAgent.extract_github_push content
  = Str.strip (text_between content
                 (i + String.length DeploymentAgent.GITHUB_PUSH) j).
Proof.
  intros Hi Hj. unfold DeploymentAgent.extract_github_push.
  rewrite (contains_first _ _ i) by (done || exact Hi).
  rewrite (find_first _ _ 0 i) by (done || exact Hi).
  set (a := (i + String.length DeploymentAgent.GITHUB_PUSH)%nat).
  replace (Z.of_nat i + Str.len DeploymentAgent.GITHUB_PUSH)
    with (Z.of_nat a) by (unfold a, Str.len; lia).
  rewrite (find_first _ _ a j) by (done || exact Hj).
  apply marker_bound in Hj as [? ?]; [|done].
  apply section_between; assumption.
Qed.

Lemma extract_hosting_found (content : string) (i : nat) :
  first_from DeploymentAgent.HOSTING_PLATFORMS content 0 i ->
  DeploymentAgent.extract_hosting_platforms content
  = Str.strip (text_after content
                 (i + String.length DeploymentAgent.HOSTING_PLATFORMS)).
Proof.
  intros Hi. unfold DeploymentAgent.extract_hosting_platforms.
  rewrite (contains_first _ _ i) by (done || exact Hi).
  rewrite (find_first _ _ 0 i) by (done || exact Hi).
  set (a := (i + String.length DeploymentAgent.HOSTING_PLATFORMS)%nat).
  replace (Z.of_nat i + Str.len DeploymentAgent.HOSTING_PLATFORMS)
    with (Z.of_nat a) by (unfold a, Str.len; lia).
  destruct Hi as (_ & Hocc & _).
  apply occurs_at_bound in Hocc; [|done].
  rewrite slice_from_nat by (unfold a; lia). reflexivity.
Qed.

(** C4 (the defect). In a reply without the [HOSTING_PLATFORMS] marker the
    hosting field is the canned default, and so is the GitHub-push field:
    its section ends at that marker only, so its text is dropped instead of
    being taken from the reply. *)
Theorem github_push_lost_without_hosting_marker (content : string) :
  Str.contains DeploymentAgent.HOSTING_PLATFORMS content = false ->
  DeploymentAgent._parse_deployment_output content !! "hosting_platforms"
  = Some DeploymentAgent._generate_default_hosting_platforms
  /\ DeploymentAgent._parse_deployment_output content !! "github_push"
     = Some DeploymentAgent._generate_default_github_push.
Proof.
  intros Habs.
  assert (DeploymentAgent.extract_hosting_platforms content = EmptyString) as Hh.
  { unfold DeploymentAgent.extract_hosting_platforms. rewrite Habs. reflexivity. }
  assert (DeploymentAgent.extract_github_push content = EmptyString) as Hg.
  { unfold DeploymentAgent.extract_github_push.
    destruct (Str.contains DeploymentAgent.GITHUB_PUSH content); [|reflexivity].
    rewrite (contains_false_find DeploymentAgent.HOSTING_PLATFORMS) by done.
    pose proof (find_lower_bound content DeploymentAgent.GITHUB_PUSH 0).
    destruct (Z.gtb_spec (-1)
                (Str.find content DeploymentAgent.GITHUB_PUSH 0
                 + Str.len DeploymentAgent.GITHUB_PUSH)) as [Hlt|]; [|reflexivity].
    unfold Str.len in Hlt. simpl in Hlt. lia. }
  unfold DeploymentAgent._parse_deployment_output.
  rewrite Hh, Hg. split; reflexivity.
Qed.

Lemma github_push_lost_without_hosting_marker_witness :
  Str.contains DeploymentAgent.HOSTING_PLATFORMS reply_without_hosting = false
  /\ DeploymentAgent._parse_deployment_output reply_without_hosting
       !! "hosting_platforms"
     = Some DeploymentAgent._generate_default_hosting_platforms
  /\ DeploymentAgent._parse_deployment_output reply_without_hosting
       !! "github_push"
     = Some DeploymentAgent._generate_default_github_push.
Proof.
  split; [reflexivity|].
  apply (github_push_lost_without_hosting_marker reply_without_hosting).
  reflexivity.
Defined.

(** The four fields of that reply: two taken from it, two defaults, although
    the reply has text under [GITHUB_PUSH]. *)
Lemma reply_without_hosting_fields :
  DeploymentAgent._parse_deployment_output reply_without_hosting
  = <["requirements" := "flask>=2.0"]>
    (<["setup_instructions" := "pip install -r requirements.txt"]>
    (<["github_push" := DeploymentAgent._generate_default_github_push]>
    (<["hosting_platforms" := DeploymentAgent._generate_default_hosting_platforms]>
     ∅)))
  /\ Str.strip (spec_section DeploymentAgent.GITHUB_PUSH reply_without_hosting)
     = "git push origin main".
Proof. split; vm_compute; reflexivity. Qed.

(** C5 (as stated, refuted). A reply holds the four markers with nothing but
    a line break under [REQUIREMENTS]: the marker is found, yet the field is
    the canned default and not the text of the section. *)
Lemma labeled_sections_counterexample :
  ~ labeled_sections_claim reply_with_blank_section.
Proof.
  intros H.
  destruct (H DeploymentAgent.REQUIREMENTS "requirements") as (v & Hv & Hstrip).
  - unfold section_fields. apply list_elem_of_here.
  - reflexivity.
  - vm_compute in Hv. injection Hv as <-.
    vm_compute in Hstrip. discriminate.
Qed.

(** C5 (amended). For each of the first three markers found in the reply
    whose closing marker occurs later in the text, the extracted field is
    the stripped text between the first occurrence of the marker and the
    first later occurrence of its closing marker; for [HOSTING_PLATFORMS]
    it is the stripped text after the marker; a field whose stripped text is
    empty, or whose marker is not found, holds its canned default. *)
Theorem labeled_sections_with_closing_marker (content : string) :
  (forall i j,
     first_from DeploymentAgent.REQUIREMENTS content 0 i ->
     (first_from DeploymentAgent.SETUP_INSTRUCTIONS content
        (i + String.length DeploymentAgent.REQUIREMENTS) j
      \/ (absent_from DeploymentAgent.SETUP_INSTRUCTIONS content
            (i + String.length DeploymentAgent.REQUIREMENTS)
          /\ first_from DeploymentAgent.GITHUB_PUSH content
               (i + String.length DeploymentAgent.REQUIREMENTS) j)) ->
     DeploymentAgent._parse_deployment_output content !! "requirements"
     = Some (DeploymentAgent.or_default
               (Str.strip (text_between content
                  (i + String.length DeploymentAgent.REQUIREMENTS) j))
               DeploymentAgent._generate_default_requirements))
  /\ (forall i j,
        first_from DeploymentAgent.SETUP_INSTRUCTIONS content 0 i ->
        first_from DeploymentAgent.GITHUB_PUSH content
          (i + String.length DeploymentAgent.SETUP_INSTRUCTIONS) j ->
        DeploymentAgent._parse_deployment_output content !! "setup_instructions"
        = Some (DeploymentAgent.or_default
                  (Str.strip (text_between content
                     (i + String.length DeploymentAgent.SETUP_INSTRUCTIONS) j))
                  DeploymentAgent._generate_default_setup))
  /\ (forall i j,
        first_from DeploymentAgent.GITHUB_PUSH content 0 i ->
        first_from DeploymentAgent.HOSTING_PLATFORMS content
          (i + String.length DeploymentAgent.GITHUB_PUSH) j ->
        DeploymentAgent._parse_deployment_output content !! "github_push"
        = Some (DeploymentAgent.or_default
                  (Str.strip (text_between content
                     (i + String.length DeploymentAgent.GITHUB_PUSH) j))
                  DeploymentAgent._generate_default_github_push))
  /\ (forall i,
        first_from DeploymentAgent.HOSTING_PLATFORMS content 0 i ->
        DeploymentAgent._parse_deployment_output content !! "hosting_platforms"
        = Some (DeploymentAgent.or_default
                  (Str.strip (text_after content
                     (i + String.length DeploymentAgent.HOSTING_PLATFORMS)))
                  DeploymentAgent._generate_default_hosting_platforms))
  /\ (absent_from DeploymentAgent.REQUIREMENTS content 0 ->
      DeploymentAgent._parse_deployment_output content !! "requirements"
      = Some DeploymentAgent._generate_default_requirements)
  /\ (absent_from DeploymentAgent.SETUP_INSTRUCTIONS content 0 ->
      DeploymentAgent._parse_deployment_output content !! "setup_instructions"
      = Some DeploymentAgent._generate_default_setup)
  /\ (absent_from DeploymentAgent.GITHUB_PUSH content 0 ->
      DeploymentAgent._parse_deployment_output content !! "github_push"
      = Some DeploymentAgent._generate_default_github_push)
  /\ (absent_from DeploymentAgent.HOSTING_PLATFORMS content 0 ->
      DeploymentAgent._parse_deployment_output content !! "hosting_platforms"
      = Some DeploymentAgent._generate_default_hosting_platforms).
Proof.
  unfold DeploymentAgent._parse_deployment_output.
  repeat split.
  - intros i j Hi Hj. rewrite (extract_requirements_found content i j Hi Hj).
    reflexivity.
  - intros i j Hi Hj. rewrite (extract_setup_found content i j Hi Hj).
    reflexivity.
  - intros i j Hi Hj. rewrite (extract_github_found content i j Hi Hj).
    reflexivity.
  - intros i Hi. rewrite (extract_hosting_found content i Hi). reflexivity.
  - intros Habs. unfold DeploymentAgent.extract_requirements, Str.contains.
    rewrite (absent_index _ _ 0%nat) by (done || exact Habs). reflexivity.
  - intros Habs. unfold DeploymentAgent.extract_setup_instructions, Str.contains.
    rewrite (absent_index _ _ 0%nat) by (done || exact Habs). reflexivity.
  - intros Habs. unfold DeploymentAgent.extract_github_push, Str.contains.
    rewrite (absent_index _ _ 0%nat) by (done || exact Habs). reflexivity.
  - intros Habs. unfold DeploymentAgent.extract_hosting_platforms, Str.contains.
    rewrite (absent_index _ _ 0%nat) by (done || exact Habs). reflexivity.
Qed.

Lemma labeled_sections_with_closing_marker_witness :
  first_from DeploymentAgent.REQUIREMENTS complete_reply 0 27
  /\ first_from DeploymentAgent.SETUP_INSTRUCTIONS complete_reply 0 53
  /\ first_from DeploymentAgent.GITHUB_PUSH complete_reply 0 106
  /\ first_from DeploymentAgent.HOSTING_PLATFORMS complete_reply 0 141
  /\ DeploymentAgent._parse_deployment_output complete_reply !! "requirements"
     = Some "flask>=2.0"
  /\ DeploymentAgent._parse_deployment_output complete_reply
       !! "setup_instructions"
     = Some "pip install -r requirements.txt"
  /\ DeploymentAgent._parse_deployment_output complete_reply !! "github_push"
     = Some "git push origin main"
  /\ DeploymentAgent._parse_deployment_output complete_reply
       !! "hosting_platforms"
     = Some "Render".
Proof.
  destruct (labeled_sections_with_closing_marker complete_reply)
    as (Hr & Hs & Hg & Hh & _).
  assert (first_from DeploymentAgent.REQUIREMENTS complete_reply 0 27) as H1
    by (apply index_first; vm_compute; reflexivity).
  assert (first_from DeploymentAgent.SETUP_INSTRUCTIONS complete_reply 0 53) as H2
    by (apply index_first; vm_compute; reflexivity).
  assert (first_from DeploymentAgent.GITHUB_PUSH complete_reply 0 106) as H3
    by (apply index_first; vm_compute; reflexivity).
  assert (first_from DeploymentAgent.HOSTING_PLATFORMS complete_reply 0 141) as H4
    by (apply index_first; vm_compute; reflexivity).
  split; [exact H1|]. split; [exact H2|]. split; [exact H3|]. split; [exact H4|].
  split; [|split; [|split]].
  - rewrite (Hr 27%nat 53%nat H1).
    + vm_compute. reflexivity.
    + left. apply index_first. vm_compute. reflexivity.
  - rewrite (Hs 53%nat 106%nat H2).
    + vm_compute. reflexivity.
    + apply index_first. vm_compute. reflexivity.
  - rewrite (Hg 106%nat 141%nat H3).
    + vm_compute. reflexivity.
    + apply index_first. vm_compute. reflexivity.
  - rewrite (Hh 141%nat H4). vm_compute. reflexivity.
Defined.

(** ** The retry loop of the Deployment stage *)

Lemma calls_called (tr : list event) (prompt : string) :
  calls (tr ++ [Called prompt]) = S (calls tr).
Proof.
  unfold calls. rewrite filter_app, length_app. simpl. lia.
Qed.

Lemma calls_slept (tr : list event) (secs : Z) :
  calls (tr ++ [Slept secs]) = calls tr.
Proof.
  unfold calls. rewrite filter_app, length_app. simpl. lia.
Qed.

Lemma sleeps_app (tr1 tr2 : list event) :
  sleeps (tr1 ++ tr2) = sleeps tr1 ++ sleeps tr2.
Proof. apply omap_app. Qed.

Lemma attempt_once_success (svc : service) (prompt c : string)
    (n attempt : nat) (vars : DeploymentAgent.loop_vars) (tr : list event) :
  svc (calls tr) prompt = Returned (Content c) ->
  DeploymentAgent.blank c = false ->
  DeploymentAgent.attempt_once svc prompt n attempt vars tr
  = (DeploymentAgent.Break
       {| DeploymentAgent.content := Some c;
          DeploymentAgent.last_error := DeploymentAgent.last_error vars |},
     tr ++ [Called prompt]).
Proof.
  intros Hsvc Hc. unfold DeploymentAgent.attempt_once, generate_reply.
  rewrite Hsvc, Hc. reflexivity.
Qed.

Lemma attempt_once_retry (svc : service) (prompt : string)
    (n attempt : nat) (vars : DeploymentAgent.loop_vars) (tr : list event) :
  is_failure (svc (calls tr) prompt) = true ->
  (attempt < n - 1)%nat ->
  exists vars',
    DeploymentAgent.attempt_once svc prompt n attempt vars tr
    = (DeploymentAgent.Continue vars',
       tr ++ [Called prompt; Slept (2 ^ Z.of_nat attempt)]).
Proof.
  intros Hfail Hlt.
  unfold DeploymentAgent.attempt_once, DeploymentAgent.handler, generate_reply, sleep.
  apply Nat.ltb_lt in Hlt.
  destruct (svc (calls tr) prompt) as [e|[|c]]; simpl in Hfail;
    rewrite ?Hfail, Hlt, <- app_assoc; eexists; reflexivity.
Qed.

Lemma attempt_once_last (svc : service) (prompt : string)
    (n attempt : nat) (vars : DeploymentAgent.loop_vars) (tr : list event) :
  is_failure (svc (calls tr) prompt) = true ->
  ~ (attempt < n - 1)%nat ->
  exists msg,
    DeploymentAgent.attempt_once svc prompt n attempt vars tr
    = (DeploymentAgent.Fails (ValueError msg), tr ++ [Called prompt]).
Proof.
  intros Hfail Hlt.
  unfold DeploymentAgent.attempt_once, DeploymentAgent.handler,
    DeploymentAgent.failed_after, generate_reply.
  apply Nat.ltb_nlt in Hlt.
  destruct (svc (calls tr) prompt) as [e|[|c]]; simpl in Hfail;
    rewrite ?Hfail, Hlt; eexists; reflexivity.
Qed.

Lemma backoff_events_cons (prompt : string) (a k : nat) :
  backoff_events prompt a (S k)
  = [Called prompt; Slept (2 ^ Z.of_nat a)] ++ backoff_events prompt (S a) k.
Proof. reflexivity. Qed.

Lemma seq_remaining (n a : nat) :
  (a < n)%nat -> seq a (n - a) = a :: seq (S a) (n - S a).
Proof.
  intros Hlt. replace (n - a)%nat with (S (n - S a)) by lia. reflexivity.
Qed.

(** After [d] failed attempts, a usable reply ends the loop: one call per
    attempt, a sleep after each failed one. *)
Lemma retry_loop_success (svc : service) (prompt c : string) (n : nat) :
  forall (d a : nat) (vars : DeploymentAgent.loop_vars) (tr : list event),
    (a + d < n)%nat ->
    (forall j, (j < d)%nat -> is_failure (svc (calls tr + j)%nat prompt) = true) ->
    svc (calls tr + d)%nat prompt = Returned (Content c) ->
    DeploymentAgent.blank c = false ->
    exists vars',
      DeploymentAgent.retry_loop svc prompt n (seq a (n - a)) vars tr
      = (Ok vars', tr ++ backoff_events prompt a d ++ [Called prompt])
      /\ DeploymentAgent.content vars' = Some c.
Proof.
  induction d as [|d IH]; intros a vars tr Hlt Hfail Hok Hc.
  - rewrite seq_remaining by lia. cbn [DeploymentAgent.retry_loop].
    rewrite Nat.add_0_r in Hok.
    rewrite (attempt_once_success _ _ c) by assumption.
    eexists. split; reflexivity.
  - rewrite seq_remaining by lia. cbn [DeploymentAgent.retry_loop].
    destruct (attempt_once_retry svc prompt n a vars tr) as [vars1 ->].
    { specialize (Hfail 0%nat). rewrite Nat.add_0_r in Hfail. apply Hfail. lia. }
    { lia. }
    assert (calls (tr ++ [Called prompt; Slept (2 ^ Z.of_nat a)]) = S (calls tr))
      as Hcalls.
    { change [Called prompt; Slept (2 ^ Z.of_nat a)]
        with ([Called prompt] ++ [Slept (2 ^ Z.of_nat a)]).
      rewrite app_assoc, calls_slept, calls_called. reflexivity. }
    destruct (IH (S a) vars1 (tr ++ [Called prompt; Slept (2 ^ Z.of_nat a)]))
      as (vars' & Hloop & Hcontent).
    + lia.
    + intros j Hj. rewrite Hcalls.
      replace (S (calls tr) + j)%nat with (calls tr + S j)%nat by lia.
      apply Hfail. lia.
    + rewrite Hcalls.
      replace (S (calls tr) + d)%nat with (calls tr + S d)%nat by lia.
      exact Hok.
    + exact Hc.
    + exists vars'. split; [|exact Hcontent].
      rewrite Hloop, backoff_events_cons, <- !app_assoc. reflexivity.
Qed.

(** When every attempt fails, the loop raises [ValueError] at the last one,
    without a sleep after it. *)
Lemma retry_loop_exhausted (svc : service) (prompt : string) (n : nat) :
  forall (d a : nat) (vars : DeploymentAgent.loop_vars) (tr : list event),
    (a + S d = n)%nat ->
    (forall j, (j <= d)%nat -> is_failure (svc (calls tr + j)%nat prompt) = true) ->
    exists msg,
      DeploymentAgent.retry_loop svc prompt n (seq a (n - a)) vars tr
      = (Raise (ValueError msg), tr ++ backoff_events prompt a d ++ [Called prompt]).
Proof.
  induction d as [|d IH]; intros a vars tr Hn Hfail.
  - rewrite seq_remaining by lia. cbn [DeploymentAgent.retry_loop].
    destruct (attempt_once_last svc prompt n a vars tr) as [msg ->].
    { specialize (Hfail 0%nat). rewrite Nat.add_0_r in Hfail. apply Hfail. lia. }
    { lia. }
    exists msg. reflexivity.
  - rewrite seq_remaining by lia. cbn [DeploymentAgent.retry_loop].
    destruct (attempt_once_retry svc prompt n a vars tr) as [vars1 ->].
    { specialize (Hfail 0%nat). rewrite Nat.add_0_r in Hfail. apply Hfail. lia. }
    { lia. }
    assert (calls (tr ++ [Called prompt; Slept (2 ^ Z.of_nat a)]) = S (calls tr))
      as Hcalls.
    { change [Called prompt; Slept (2 ^ Z.of_nat a)]
        with ([Called prompt] ++ [Slept (2 ^ Z.of_nat a)]).
      rewrite app_assoc, calls_slept, calls_called. reflexivity. }
    destruct (IH (S a) vars1 (tr ++ [Called prompt; Slept (2 ^ Z.of_nat a)]))
      as (msg & Hloop).
    + lia.
    + intros j Hj. rewrite Hcalls.
      replace (S (calls tr) + j)%nat with (calls tr + S j)%nat by lia.
      apply Hfail. lia.
    + exists msg.
      rewrite Hloop, backoff_events_cons, <- !app_assoc. reflexivity.
Qed.

Lemma blank_false_truthy (c : string) :
  DeploymentAgent.blank c = false -> Str.truthy c = true.
Proof.
  unfold DeploymentAgent.blank. intros H.
  apply orb_false_elim in H as [H _]. apply negb_false_iff in H. exact H.
Qed.

Lemma invoke_success (svc : service) (prompt c : string) (n k : nat) :
  (k < n)%nat ->
  (forall j, (j < k)%nat -> is_failure (svc j prompt) = true) ->
  svc k prompt = Returned (Content c) ->
  DeploymentAgent.blank c = false ->
  DeploymentAgent.invoke svc prompt n []
  = (Ok c, backoff_events prompt 0 k ++ [Called prompt]).
Proof.
  intros Hk Hfail Hok Hc. unfold DeploymentAgent.invoke.
  destruct (retry_loop_success svc prompt c n k 0%nat
              {| DeploymentAgent.content := None;
                 DeploymentAgent.last_error := None |} [])
    as (vars' & Hloop & Hcontent); try assumption.
  rewrite Nat.sub_0_r in Hloop. rewrite Hloop.
  unfold DeploymentAgent.check_content.
  rewrite Hcontent, (blank_false_truthy c Hc). reflexivity.
Qed.

Lemma invoke_exhausted (svc : service) (prompt : string) (n : nat) :
  (0 < n)%nat ->
  (forall j, (j < n)%nat -> is_failure (svc j prompt) = true) ->
  exists msg,
    DeploymentAgent.invoke svc prompt n []
    = (Raise (ValueError msg),
       backoff_events prompt 0 (n - 1) ++ [Called prompt]).
Proof.
  intros Hn Hfail. unfold DeploymentAgent.invoke.
  assert (0 + S (n - 1) = n)%nat as Hlast by lia.
  assert (forall j, (j <= n - 1)%nat ->
                    is_failure (svc (calls [] + j)%nat prompt) = true) as Hall.
  { intros j Hj. change (calls [] + j)%nat with j. apply Hfail. lia. }
  destruct (retry_loop_exhausted svc prompt n (n - 1) 0%nat
              {| DeploymentAgent.content := None;
                 DeploymentAgent.last_error := None |} [] Hlast Hall)
    as (msg & Hloop).
  rewrite Nat.sub_0_r in Hloop. rewrite Hloop.
  exists msg. reflexivity.
Qed.

Lemma generate_deployment_config_success (svc : service) (prompt c : string)
    (k : nat) :
  (k < DeploymentAgent.max_retries)%nat ->
  (forall j, (j < k)%nat -> is_failure (svc j prompt) = true) ->
  svc k prompt = Returned (Content c) ->
  DeploymentAgent.blank c = false ->
  DeploymentAgent.generate_deployment_config svc prompt []
  = (Ok (DeploymentAgent._parse_deployment_output c),
     backoff_events prompt 0 k ++ [Called prompt]).
Proof.
  intros Hk Hfail Hok Hc. unfold DeploymentAgent.generate_deployment_config.
  rewrite (invoke_success svc prompt c _ k) by assumption. reflexivity.
Qed.

Lemma generate_deployment_config_exhausted (svc : service) (prompt : string) :
  (forall j, (j < DeploymentAgent.max_retries)%nat ->
             is_failure (svc j prompt) = true) ->
  exists msg,
    DeploymentAgent.generate_deployment_config svc prompt []
    = (Raise (ValueError msg),
       backoff_events prompt 0 (DeploymentAgent.max_retries - 1)
       ++ [Called prompt]).
Proof.
  intros Hfail. unfold DeploymentAgent.generate_deployment_config.
  destruct (invoke_exhausted svc prompt DeploymentAgent.max_retries) as [msg ->].
  - unfold DeploymentAgent.max_retries. lia.
  - exact Hfail.
  - exists msg. reflexivity.
Qed.

(** C3. With three attempts allowed: when the service fails on the first two
    calls and gives usable text on the third, the retried call yields that
    text (which the stage then parses) after exactly two sleeps, of 1 and
    then 2 time units; when the service fails on all three calls, the stage
    raises [ValueError] after exactly three calls and the same two sleeps. *)
Theorem deployment_retry_three_attempts (svc : service) (prompt : string) :
  (forall c,
     is_failure (svc 0%nat prompt) = true ->
     is_failure (svc 1%nat prompt) = true ->
     svc 2%nat prompt = Returned (Content c) ->
     DeploymentAgent.blank c = false ->
     DeploymentAgent.invoke svc prompt DeploymentAgent.max_retries []
     = (Ok c, [Called prompt; Slept 1; Called prompt; Slept 2; Called prompt])
     /\ DeploymentAgent.generate_deployment_config svc prompt []
        = (Ok (DeploymentAgent._parse_deployment_output c),
           [Called prompt; Slept 1; Called prompt; Slept 2; Called prompt]))
  /\ (is_failure (svc 0%nat prompt) = true ->
      is_failure (svc 1%nat prompt) = true ->
      is_failure (svc 2%nat prompt) = true ->
      exists msg,
        DeploymentAgent.generate_deployment_config svc prompt []
        = (Raise (ValueError msg),
           [Called prompt; Slept 1; Called prompt; Slept 2; Called prompt])).
Proof.
  split.
  - intros c H0 H1 H2 Hc.
    assert (forall j, (j < 2)%nat -> is_failure (svc j prompt) = true) as Hfail.
    { intros [|[|j]] Hj; [exact H0|exact H1|lia]. }
    split.
    + rewrite (invoke_success svc prompt c _ 2%nat);
        [reflexivity|unfold DeploymentAgent.max_retries; lia|assumption..].
    + rewrite (generate_deployment_config_success svc prompt c 2%nat);
        [reflexivity|unfold DeploymentAgent.max_retries; lia|assumption..].
  - intros H0 H1 H2.
    destruct (generate_deployment_config_exhausted svc prompt) as [msg Hmsg].
    { intros [|[|[|j]]] Hj; [exact H0|exact H1|exact H2|].
      unfold DeploymentAgent.max_retries in Hj. lia. }
    exists msg. exact Hmsg.
Qed.

Lemma deployment_retry_three_attempts_witness :
  (DeploymentAgent.invoke (fails_twice complete_reply) "prompt"
     DeploymentAgent.max_retries []
   = (Ok complete_reply,
      [Called "prompt"; Slept 1; Called "prompt"; Slept 2; Called "prompt"])
   /\ DeploymentAgent.generate_deployment_config (fails_twice complete_reply)
        "prompt" []
      = (Ok (DeploymentAgent._parse_deployment_output complete_reply),
         [Called "prompt"; Slept 1; Called "prompt"; Slept 2; Called "prompt"]))
  /\ exists msg,
       DeploymentAgent.generate_deployment_config always_fails "prompt" []
       = (Raise (ValueError msg),
          [Called "prompt"; Slept 1; Called "prompt"; Slept 2; Called "prompt"]).
Proof.
  split.
  - apply (deployment_retry_three_attempts (fails_twice complete_reply) "prompt");
      reflexivity.
  - apply (deployment_retry_three_attempts always_fails "prompt"); reflexivity.
Defined.

(** ** One call per run in the other stages *)

Lemma deployment_retries_after_failure :
  retries_after_failure DeploymentAgent.generate_deployment_config.
Proof.
  intros svc input Hfail Hok.
  destruct (Hok input) as (c & Hc & Hblank).
  rewrite (generate_deployment_config_success svc input c 1%nat).
  - repeat split.
  - unfold DeploymentAgent.max_retries. lia.
  - intros [|j] Hj; [apply Hfail|lia].
  - exact Hc.
  - exact Hblank.
Qed.

(** C6 (as stated, refuted). The four stages do not apply one retry policy:
    when the service returns nothing once and would answer next, the
    Documentation stage raises after its single call, without sleeping. *)
Lemma uniform_retry_counterexample :
  ~ (retries_after_failure requirement_stage
     /\ retries_after_failure DocumentationAgent.generate_documentation
     /\ retries_after_failure TestGenerationAgent.generate_tests
     /\ retries_after_failure DeploymentAgent.generate_deployment_config).
Proof.
  intros (_ & Hdoc & _).
  destruct (Hdoc (fails_once "# Documentation") "prompt") as (Hsleeps & _).
  - intros p. reflexivity.
  - intros p. exists "# Documentation". split; reflexivity.
  - vm_compute in Hsleeps. discriminate.
Qed.

(** C6 (amended). The Deployment stage alone retries: it makes up to three
    attempts, sleeps two to the power of the attempt number after each
    failed attempt but the last, returns at the first usable reply and
    raises [ValueError] when all attempts fail.  The Requirement,
    Documentation and Test stages call the service exactly once and never
    sleep: no reply raises [ValueError] at once, an error raised by the
    service propagates unchanged, and any text, even blank, is processed
    without a retry. *)
Theorem retry_policy_by_stage :
  (forall svc prompt k c,
     (k < DeploymentAgent.max_retries)%nat ->
     (forall j, (j < k)%nat -> is_failure (svc j prompt) = true) ->
     svc k prompt = Returned (Content c) ->
     DeploymentAgent.blank c = false ->
     DeploymentAgent.generate_deployment_config svc prompt []
     = (Ok (DeploymentAgent._parse_deployment_output c),
        backoff_events prompt 0 k ++ [Called prompt]))
  /\ (forall svc prompt,
        (forall j, (j < DeploymentAgent.max_retries)%nat ->
                   is_failure (svc j prompt) = true) ->
        exists msg,
          DeploymentAgent.generate_deployment_config svc prompt []
          = (Raise (ValueError msg),
             backoff_events prompt 0 (DeploymentAgent.max_retries - 1)
             ++ [Called prompt]))
  /\ (forall json_loads svc user_input context prompt tr,
        RequirementAnalysisAgent.compose_prompt user_input context = Ok prompt ->
        RequirementAnalysisAgent.analyze json_loads svc user_input context tr
        = (match svc (calls tr) prompt with
           | Raised e => Raise e
           | Returned NoResponse =>
               Raise (ValueError
                 "Agent returned None response. Check API key and model configuration.")
           | Returned (Content c) =>
               RequirementAnalysisAgent.parse_reply json_loads c
           end,
           tr ++ [Called prompt]))
  /\ (forall svc prompt tr,
        DocumentationAgent.generate_documentation svc prompt tr
        = (match svc (calls tr) prompt with
           | Raised e => Raise e
           | Returned NoResponse =>
               Raise (ValueError
                 "Agent returned None response. Check API key and model configuration.")
           | Returned (Content c) => Ok c
           end,
           tr ++ [Called prompt]))
  /\ (forall svc prompt tr,
        TestGenerationAgent.generate_tests svc prompt tr
        = (match svc (calls tr) prompt with
           | Raised e => Raise e
           | Returned NoResponse =>
               Raise (ValueError
                 "Agent returned None response. Check API key and model configuration.")
           | Returned (Content c) =>
               Ok (TestGenerationAgent._extract_code_blocks c)
           end,
           tr ++ [Called prompt])).
Proof.
  split.
  { intros svc prompt k c. apply generate_deployment_config_success. }
  split; [exact generate_deployment_config_exhausted|].
  split; [|split].
  - intros json_loads svc user_input context prompt tr Hprompt.
    unfold RequirementAnalysisAgent.analyze, generate_reply. rewrite Hprompt.
    destruct (svc (calls tr) prompt) as [e|[|c]]; reflexivity.
  - intros svc prompt tr.
    unfold DocumentationAgent.generate_documentation, generate_reply.
    destruct (svc (calls tr) prompt) as [e|[|c]]; reflexivity.
  - intros svc prompt tr.
    unfold TestGenerationAgent.generate_tests, generate_reply.
    destruct (svc (calls tr) prompt) as [e|[|c]]; reflexivity.
Qed.

Lemma retry_policy_by_stage_witness :
  DeploymentAgent.generate_deployment_config (fails_once complete_reply)
    "prompt" []
  = (Ok (DeploymentAgent._parse_deployment_output complete_reply),
     [Called "prompt"; Slept 1; Called "prompt"])
  /\ (exists msg,
        DeploymentAgent.generate_deployment_config always_fails "prompt" []
        = (Raise (ValueError msg),
           [Called "prompt"; Slept 1; Called "prompt"; Slept 2; Called "prompt"]))
  /\ DocumentationAgent.generate_documentation (fails_once "# Documentation")
       "prompt" []
     = (Raise (ValueError
          "Agent returned None response. Check API key and model configuration."),
        [Called "prompt"])
  /\ TestGenerationAgent.generate_tests answers_empty "prompt" []
     = (Ok EmptyString, [Called "prompt"]).
Proof.
  destruct retry_policy_by_stage as (Hok & Hfail & _ & Hdoc & Htest).
  split; [|split; [|split]].
  - apply (Hok (fails_once complete_reply) "prompt" 1%nat complete_reply).
    + unfold DeploymentAgent.max_retries. lia.
    + intros [|j] Hj; [reflexivity|lia].
    + reflexivity.
    + reflexivity.
  - apply (Hfail always_fails "prompt").
    intros [|[|[|j]]] Hj; reflexivity.
  - apply (Hdoc (fails_once "# Documentation") "prompt" []).
  - apply (Htest answers_empty "prompt" []).
Defined.

(** C7 (as stated, refuted). The Documentation stage does not fail on empty
    text: it returns the empty documentation. *)
Lemma documentation_empty_counterexample :
  ~ fails_on_unusable_reply DocumentationAgent.generate_documentation.
Proof.
  intros H. destruct (H answers_empty "prompt") as [msg Hmsg].
  - reflexivity.
  - vm_compute in Hmsg. discriminate.
Qed.

(** C7 (amended). The Documentation stage raises [ValueError] when the
    service returns no reply, lets an error raised by the service through
    unchanged, and otherwise returns the text of the reply as it is, the
    empty text included. *)
Theorem documentation_failure_modes (svc : service) (prompt : string)
    (tr : list event) :
  (svc (calls tr) prompt = Returned NoResponse ->
   exists msg,
     fst (DocumentationAgent.generate_documentation svc prompt tr)
     = Raise (ValueError msg))
  /\ (forall e,
        svc (calls tr) prompt = Raised e ->
        fst (DocumentationAgent.generate_documentation svc prompt tr) = Raise e)
  /\ (forall c,
        svc (calls tr) prompt = Returned (Content c) ->
        fst (DocumentationAgent.generate_documentation svc prompt tr) = Ok c).
Proof.
  unfold DocumentationAgent.generate_documentation, generate_reply.
  split; [|split].
  - intros ->. eexists. reflexivity.
  - intros e ->. reflexivity.
  - intros c ->. reflexivity.
Qed.

Lemma documentation_failure_modes_witness :
  (exists msg,
     fst (DocumentationAgent.generate_documentation
            (fails_once "# Documentation") "prompt" [])
     = Raise (ValueError msg))
  /\ fst (DocumentationAgent.generate_documentation always_fails "prompt" [])
     = Raise (ServiceError "connection reset")
  /\ fst (DocumentationAgent.generate_documentation answers_empty "prompt" [])
     = Ok EmptyString.
Proof.
  split; [|split].
  - apply (documentation_failure_modes (fails_once "# Documentation") "prompt" []).
    reflexivity.
  - apply (documentation_failure_modes always_fails "prompt" []). reflexivity.
  - apply (documentation_failure_modes answers_empty "prompt" []). reflexivity.
Defined.

(** ** The follow-up prompt of the Requirement stage *)

Lemma append_assoc (a b c : string) : (a +:+ b) +:+ c = a +:+ (b +:+ c).
Proof.
  induction a as [|x a IH]; [reflexivity|].
  rewrite !append_cons, IH. reflexivity.
Qed.

Lemma append_nil_r (a : string) : a +:+ EmptyString = a.
Proof.
  induction a as [|x a IH]; [reflexivity|].
  rewrite append_cons, IH. reflexivity.
Qed.

Lemma part_of_refl (x : string) : part_of x x.
Proof. exists EmptyString, EmptyString. rewrite append_nil_r. reflexivity. Qed.

Lemma part_of_left (x a s : string) : part_of x s -> part_of x (a +:+ s).
Proof.
  intros (u & v & ->). exists (a +:+ u), v. rewrite append_assoc. reflexivity.
Qed.

Lemma part_of_right (x s b : string) : part_of x s -> part_of x (s +:+ b).
Proof.
  intros (u & v & ->). exists u, (v +:+ b). rewrite !append_assoc. reflexivity.
Qed.

Lemma part_of_trans (x y s : string) : part_of x y -> part_of y s -> part_of x s.
Proof.
  intros Hxy (u & v & ->). apply part_of_left, part_of_right, Hxy.
Qed.

(** Looks for the part among the pieces of a concatenation. *)
Ltac find_part :=
  lazymatch goal with
  | |- part_of ?x ?x => apply part_of_refl
  | |- part_of ?x (?a +:+ ?b) =>
      first [ apply part_of_right; find_part | apply part_of_left; find_part ]
  end.

Lemma all_str_fmap (l : list string) :
  RequirementAnalysisAgent.all_str (PyStr <$> l) = Some l.
Proof.
  induction l as [|s l IH]; [reflexivity|].
  cbn. rewrite IH. reflexivity.
Qed.

Lemma join_first3_strings (fs : list string) :
  RequirementAnalysisAgent.join_first3 (PyList (PyStr <$> fs))
  = Ok (Str.join ", " (take 3 fs)).
Proof.
  unfold RequirementAnalysisAgent.join_first3.
  rewrite <- fmap_take, all_str_fmap. reflexivity.
Qed.

(** The context section of a follow-up run names the last prompt and the
    first three functional requirements of the previous run. *)
Lemma context_section_follow_up (ctx : RequirementAnalysisAgent.context_t)
    (p : string) (pr : RequirementAnalysisAgent.previous_results_t)
    (fs : list string) :
  RequirementAnalysisAgent.is_active ctx = true ->
  last (RequirementAnalysisAgent.previous_prompts ctx) = Some p ->
  RequirementAnalysisAgent.previous_results ctx = Some pr ->
  RequirementAnalysisAgent.requirements pr !! "functional_requirements"
  = Some (PyList (PyStr <$> fs)) ->
  exists section,
    RequirementAnalysisAgent.context_section (Some ctx) = Ok section
    /\ part_of ("Previous prompt(s): " +:+ p +:+ Str.nl) section
    /\ part_of ("Previous functional requirements: "
                +:+ Str.join ", " (take 3 fs) +:+ Str.nl) section.
Proof.
  intros Hact Hlast Hres Hreq.
  unfold RequirementAnalysisAgent.context_section.
  rewrite Hact, Hlast, Hres.
  assert (bool_decide (RequirementAnalysisAgent.previous_prompts ctx <> []) = true)
    as ->.
  { apply bool_decide_eq_true. intros Hnil. rewrite Hnil in Hlast. discriminate. }
  cbn [orb].
  assert (truthy (PyDict (RequirementAnalysisAgent.requirements pr)) = true) as ->.
  { cbn [truthy]. apply negb_true_iff, bool_decide_eq_false.
    intros Hempty. rewrite Hempty in Hreq. rewrite lookup_empty in Hreq.
    discriminate. }
  unfold dict_get. rewrite Hreq. cbn [default from_option id mbind result_bind].
  rewrite join_first3_strings. cbn [mbind result_bind].
  set (prompt_line := "Previous prompt(s): " +:+ p +:+ Str.nl).
  set (reqs_line := "Previous functional requirements: "
                    +:+ Str.join ", " (take 3 fs) +:+ Str.nl).
  destruct (Str.truthy (RequirementAnalysisAgent.code pr));
    cbn [mbind result_bind]; eexists; (split; [reflexivity|]); split;
    find_part.
Qed.

(** C9. In a follow-up run, with an active context that carries the previous
    prompt and the previous requirements, the prompt that the Requirement
    stage composes and sends holds the text of the previous prompt and the
    summary of the previous functional requirements, which is the first
    three of them separated by commas. *)
Theorem follow_up_prompt_carries_context
    (json_loads : string -> result pyval) (svc : service) (user_input : string)
    (ctx : RequirementAnalysisAgent.context_t) (p : string)
    (pr : RequirementAnalysisAgent.previous_results_t) (fs : list string)
    (tr : list event) :
  RequirementAnalysisAgent.is_active ctx = true ->
  last (RequirementAnalysisAgent.previous_prompts ctx) = Some p ->
  RequirementAnalysisAgent.previous_results ctx = Some pr ->
  RequirementAnalysisAgent.requirements pr !! "functional_requirements"
  = Some (PyList (PyStr <$> fs)) ->
  exists prompt,
    RequirementAnalysisAgent.compose_prompt user_input (Some ctx) = Ok prompt
    /\ part_of ("Previous prompt(s): " +:+ p +:+ Str.nl) prompt
    /\ part_of ("Previous functional requirements: "
                +:+ Str.join ", " (take 3 fs) +:+ Str.nl) prompt
    /\ part_of p prompt
    /\ part_of (Str.join ", " (take 3 fs)) prompt
    /\ snd (RequirementAnalysisAgent.analyze json_loads svc user_input
              (Some ctx) tr)
       = tr ++ [Called prompt].
Proof.
  intros Hact Hlast Hres Hreq.
  destruct (context_section_follow_up ctx p pr fs Hact Hlast Hres Hreq)
    as (section & Hsec & Hp & Hf).
  exists (RequirementAnalysisAgent.prompt_head +:+ section
          +:+ RequirementAnalysisAgent.prompt_middle +:+ user_input
          +:+ RequirementAnalysisAgent.prompt_tail).
  assert (RequirementAnalysisAgent.compose_prompt user_input (Some ctx)
          = Ok (RequirementAnalysisAgent.prompt_head +:+ section
                +:+ RequirementAnalysisAgent.prompt_middle +:+ user_input
                +:+ RequirementAnalysisAgent.prompt_tail)) as Hprompt.
  { unfold RequirementAnalysisAgent.compose_prompt. rewrite Hsec. reflexivity. }
  assert (forall x, part_of x section ->
            part_of x (RequirementAnalysisAgent.prompt_head +:+ section
                       +:+ RequirementAnalysisAgent.prompt_middle +:+ user_input
                       +:+ RequirementAnalysisAgent.prompt_tail)) as Hin.
  { intros x Hx. apply part_of_left, part_of_right, Hx. }
  split; [exact Hprompt|].
  split; [apply Hin, Hp|].
  split; [apply Hin, Hf|].
  split.
  { apply Hin. eapply part_of_trans; [|exact Hp]. find_part. }
  split.
  { apply Hin. eapply part_of_trans; [|exact Hf]. find_part. }
  unfold RequirementAnalysisAgent.analyze, generate_reply. rewrite Hprompt.
  destruct (svc (calls tr) _) as [e|[|c]]; reflexivity.
Qed.

Lemma follow_up_prompt_carries_context_witness :
  exists prompt,
    RequirementAnalysisAgent.compose_prompt "Also support division by zero checks"
      (Some follow_up_context) = Ok prompt
    /\ part_of ("Previous prompt(s): " +:+ "Build a calculator" +:+ Str.nl) prompt
    /\ part_of ("Previous functional requirements: "
                +:+ "Add two integers, Subtract two integers, Multiply two integers"
                +:+ Str.nl) prompt
    /\ part_of "Build a calculator" prompt
    /\ part_of "Add two integers, Subtract two integers, Multiply two integers"
         prompt
    /\ snd (RequirementAnalysisAgent.analyze Json.loads answers_empty
              "Also support division by zero checks" (Some follow_up_context) [])
       = [] ++ [Called prompt].
Proof.
  apply (follow_up_prompt_carries_context Json.loads answers_empty
           "Also support division by zero checks" follow_up_context
           "Build a calculator"
           {| RequirementAnalysisAgent.requirements := first_run_requirements;
              RequirementAnalysisAgent.code := "def add(a, b): return a + b" |}
           ["Add two integers"; "Subtract two integers";
            "Multiply two integers"; "Divide two integers"] []);
    reflexivity.
Defined.

(** * Further properties of the code *)

(** ** The detector: bounds, whole words, letter case *)

Lemma sum_ones_bounds {A} (cond : A -> bool) (l : list A) :
  0 <= RequirementAnalysisAgent.sum_ones cond l <= Z.of_nat (length l).
Proof.
  rewrite sum_ones_filter.
  pose proof (length_filter (fun x => cond x = true) l). lia.
Qed.

(** X1. The verdict's counts stay within the numbers of patterns: at most
    seven vague terms, at most four missing specifications, and the input
    length is the length of the text as given, not of the stripped text. *)
Theorem detect_ambiguity_bounds (text : string) :
  0 <= RequirementAnalysisAgent.vague_terms_found
         (RequirementAnalysisAgent._detect_ambiguity text) <= 7
  /\ 0 <= RequirementAnalysisAgent.missing_specifications
            (RequirementAnalysisAgent._detect_ambiguity text) <= 4
  /\ RequirementAnalysisAgent.input_length
       (RequirementAnalysisAgent._detect_ambiguity text)
     = Z.of_nat (String.length text)
  /\ Str.len (Str.strip text)
     <= RequirementAnalysisAgent.input_length
          (RequirementAnalysisAgent._detect_ambiguity text).
Proof.
  unfold RequirementAnalysisAgent._detect_ambiguity. simpl.
  split; [apply (sum_ones_bounds _ RequirementAnalysisAgent.vague_terms)|].
  split; [apply (sum_ones_bounds _ RequirementAnalysisAgent.missing_patterns)|].
  split; [reflexivity|apply strip_len].
Qed.

Lemma all_chars_app (f : ascii -> bool) (a b : string) :
  all_chars f (a +:+ b) = all_chars f a && all_chars f b.
Proof.
  induction a as [|c a IH]; [reflexivity|].
  rewrite append_cons. simpl. rewrite IH, andb_assoc. reflexivity.
Qed.

Lemma all_chars_head (f : ascii -> bool) (s : string) :
  all_chars f s = true -> s <> EmptyString ->
  exists c, Re.head s = Some c /\ f c = true.
Proof.
  destruct s as [|c s]; [congruence|].
  simpl. intros H _. apply andb_true_iff in H as [H _]. eauto.
Qed.

Lemma all_chars_last (f : ascii -> bool) (s : string) (prev : option ascii) :
  all_chars f s = true -> s <> EmptyString ->
  exists c, last_char prev s = Some c /\ f c = true.
Proof.
  revert prev. induction s as [|c s IH]; intros prev H Hne; [congruence|].
  simpl in H. apply andb_true_iff in H as [Hc Hs].
  destruct s as [|d s].
  - exists c. auto.
  - apply (IH (Some c)); [exact Hs|discriminate].
Qed.

Lemma ieq_empty_l (b : string) : ieq EmptyString b = true -> b = EmptyString.
Proof. destruct b; [reflexivity|discriminate]. Qed.

Lemma append_empty (a b : string) :
  a +:+ b = EmptyString -> a = EmptyString /\ b = EmptyString.
Proof. destruct a; [auto|discriminate]. Qed.

(** X2. Patterns match whole words only: in a text that is a single run of
    word characters, a pattern is found exactly when the whole text is one
    of its alternatives, up to letter case. *)
Theorem search_single_word (p : Re.pattern) (text : string) :
  all_chars Str.is_word text = true -> text <> EmptyString ->
  (forall a, a ∈ Re.alts p -> a <> EmptyString) ->
  (Re.search p text = true <-> exists a, a ∈ Re.alts p /\ ieq text a = true).
Proof.
  intros Hword Hne Halts. rewrite search_occurs. split.
  - intros (pre & mid & post & a & Htext & Hin & Hi & Hb & He).
    exists a. split; [exact Hin|].
    assert (mid <> EmptyString) as Hmid.
    { intros ->. apply ieq_empty_l in Hi. exact (Halts a Hin Hi). }
    rewrite Htext, !all_chars_app in Hword.
    apply andb_true_iff in Hword as [Hpre Hrest].
    apply andb_true_iff in Hrest as [Hmidw Hpost].
    assert (pre = EmptyString) as ->.
    { destruct pre as [|c pre]; [reflexivity|]. exfalso.
      destruct (all_chars_last Str.is_word (String c pre) None Hpre)
        as (x & Hx & Hxw); [discriminate|].
      destruct (all_chars_head Str.is_word (mid +:+ post)) as (y & Hy & Hyw).
      { rewrite all_chars_app, Hmidw, Hpost. reflexivity. }
      { intros H. apply append_empty in H as [H _]. exact (Hmid H). }
      unfold Re.boundary in Hb. rewrite Hx, Hy in Hb. simpl in Hb.
      rewrite Hxw, Hyw in Hb. discriminate. }
    assert (post = EmptyString) as ->.
    { destruct post as [|c post]; [reflexivity|]. exfalso.
      rewrite append_nil_l in He.
      destruct (all_chars_last Str.is_word mid None Hmidw Hmid) as (x & Hx & Hxw).
      simpl in Hpost. apply andb_true_iff in Hpost as [Hc _].
      unfold Re.boundary in He. rewrite Hx in He. simpl in He.
      rewrite Hxw, Hc in He. discriminate. }
    rewrite Htext, append_nil_l, append_nil_r. exact Hi.
  - intros (a & Hin & Hi).
    exists EmptyString, text, EmptyString, a.
    rewrite !append_nil_l, !append_nil_r.
    destruct (all_chars_head Str.is_word text Hword Hne) as (y & Hy & Hyw).
    destruct (all_chars_last Str.is_word text None Hword Hne) as (x & Hx & Hxw).
    repeat split; try assumption.
    + unfold Re.boundary. cbn [last_char]. rewrite Hy. simpl. rewrite Hyw.
      reflexivity.
    + unfold Re.boundary. rewrite Hx. simpl. rewrite Hxw. reflexivity.
Qed.

Lemma search_single_word_witness :
  all_chars Str.is_word "breakfast" = true
  /\ (Re.search (Re.WordAlt ["fast"; "quick"; "quickly"]) "breakfast" = true
      <-> exists a, a ∈ ["fast"; "quick"; "quickly"] /\ ieq "breakfast" a = true).
Proof.
  split; [reflexivity|].
  apply (search_single_word (Re.WordAlt ["fast"; "quick"; "quickly"]) "breakfast").
  - reflexivity.
  - discriminate.
  - intros a Ha. simpl in Ha.
    repeat (apply elem_of_cons in Ha as [-> | Ha]; [discriminate|]).
    apply elem_of_nil in Ha. destruct Ha.
Defined.

Lemma lower_is_word (c : ascii) : Str.is_word (Str.lower c) = Str.is_word c.
Proof. destruct c as [[] [] [] [] [] [] [] []]; reflexivity. Qed.

Lemma lower_is_space (c : ascii) : Str.is_space (Str.lower c) = Str.is_space c.
Proof. destruct c as [[] [] [] [] [] [] [] []]; reflexivity. Qed.

Lemma same_letter_classes (c d : ascii) :
  Ascii.eqb (Str.lower c) (Str.lower d) = true ->
  Str.is_word c = Str.is_word d /\ Str.is_space c = Str.is_space d.
Proof.
  intros H. apply Ascii.eqb_eq in H.
  rewrite <- (lower_is_word c), <- (lower_is_word d).
  rewrite <- (lower_is_space c), <- (lower_is_space d).
  rewrite H. auto.
Qed.

Lemma ieq_length (a b : string) :
  ieq a b = true -> String.length a = String.length b.
Proof.
  revert b. induction a as [|c a IH]; intros [|d b]; simpl; try discriminate.
  - reflexivity.
  - intros H. apply andb_true_iff in H as [_ H]. rewrite (IH b H). reflexivity.
Qed.

Lemma ieq_lstrip (a b : string) :
  ieq a b = true -> ieq (Str.lstrip a) (Str.lstrip b) = true.
Proof.
  revert b. induction a as [|c a IH]; intros [|d b]; simpl; try discriminate.
  - reflexivity.
  - intros H. apply andb_true_iff in H as [Hc H].
    destruct (same_letter_classes c d Hc) as [_ ->].
    destruct (Str.is_space d); [apply IH, H|].
    simpl. rewrite Hc, H. reflexivity.
Qed.

Lemma ieq_rstrip (a b : string) :
  ieq a b = true -> ieq (Str.rstrip a) (Str.rstrip b) = true.
Proof.
  revert b. induction a as [|c a IH]; intros [|d b]; simpl; try discriminate.
  - reflexivity.
  - intros H. apply andb_true_iff in H as [Hc H].
    destruct (same_letter_classes c d Hc) as [_ Hsp].
    specialize (IH b H).
    destruct (Str.rstrip a) as [|x ra]; destruct (Str.rstrip b) as [|y rb];
      try discriminate.
    + rewrite Hsp. destruct (Str.is_space d); [reflexivity|].
      simpl. rewrite Hc. reflexivity.
    + cbn [ieq]. rewrite Hc. exact IH.
Qed.

Lemma ieq_strip_len (a b : string) :
  ieq a b = true -> Str.len (Str.strip a) = Str.len (Str.strip b).
Proof.
  intros H. unfold Str.len, Str.strip.
  rewrite (ieq_length _ _ (ieq_rstrip _ _ (ieq_lstrip _ _ H))). reflexivity.
Qed.

Lemma literal_ieq (lit : string) :
  forall (s s' : string) (prev prev' : option ascii),
    ieq s s' = true ->
    from_option Str.is_word false prev = from_option Str.is_word false prev' ->
    match Re.literal lit s prev, Re.literal lit s' prev' with
    | Some (l, r), Some (l', r') =>
        from_option Str.is_word false l = from_option Str.is_word false l'
        /\ ieq r r' = true
    | None, None => True
    | _, _ => False
    end.
Proof.
  induction lit as [|a lit IH]; intros s s' prev prev' Hs Hprev.
  - simpl. auto.
  - destruct s as [|c s]; destruct s' as [|c' s']; simpl in Hs; try discriminate.
    + simpl. exact I.
    + apply andb_true_iff in Hs as [Hc Hs]. cbn [Re.literal].
      pose proof Hc as Heq. apply Ascii.eqb_eq in Heq. rewrite Heq.
      destruct (Ascii.eqb (Str.lower c') (Str.lower a)); [|exact I].
      apply IH; [exact Hs|].
      simpl. apply same_letter_classes, Hc.
Qed.

Lemma head_ieq (s s' : string) :
  ieq s s' = true ->
  from_option Str.is_word false (Re.head s)
  = from_option Str.is_word false (Re.head s').
Proof.
  destruct s as [|c s]; destruct s' as [|c' s']; simpl; try discriminate.
  - reflexivity.
  - intros H. apply andb_true_iff in H as [Hc _].
    apply same_letter_classes, Hc.
Qed.

Lemma match_here_ieq (p : Re.pattern) (s s' : string) (prev prev' : option ascii) :
  ieq s s' = true ->
  from_option Str.is_word false prev = from_option Str.is_word false prev' ->
  Re.match_here p prev s = Re.match_here p prev' s'.
Proof.
  intros Hs Hprev. unfold Re.match_here, Re.boundary.
  rewrite Hprev, (head_ieq s s' Hs). f_equal.
  induction (Re.alts p) as [|a l IH]; [reflexivity|].
  cbn [existsb]. rewrite IH. f_equal.
  unfold Re.alt_here, Re.boundary.
  pose proof (literal_ieq a s s' prev prev' Hs Hprev) as H.
  destruct (Re.literal a s prev) as [[l0 r]|];
    destruct (Re.literal a s' prev') as [[l' r']|]; try contradiction.
  - destruct H as [Hl Hr]. rewrite Hl, (head_ieq r r' Hr). reflexivity.
  - reflexivity.
Qed.

Lemma search_from_ieq (p : Re.pattern) :
  forall (s s' : string) (prev prev' : option ascii),
    ieq s s' = true ->
    from_option Str.is_word false prev = from_option Str.is_word false prev' ->
    Re.search_from p prev s = Re.search_from p prev' s'.
Proof.
  induction s as [|c s IH]; intros [|c' s'] prev prev' Hs Hprev;
    try discriminate.
  - cbn [Re.search_from]. rewrite (match_here_ieq p _ _ prev prev' Hs Hprev).
    reflexivity.
  - cbn [Re.search_from]. rewrite (match_here_ieq p _ _ prev prev' Hs Hprev).
    f_equal. simpl in Hs. apply andb_true_iff in Hs as [Hc Hs].
    apply IH; [exact Hs|]. simpl. apply same_letter_classes, Hc.
Qed.

Lemma sum_ones_ext {A} (f g : A -> bool) (l : list A) :
  (forall x, f x = g x) ->
  RequirementAnalysisAgent.sum_ones f l = RequirementAnalysisAgent.sum_ones g l.
Proof.
  intros H. unfold RequirementAnalysisAgent.sum_ones.
  induction l as [|x l IH]; [reflexivity|]. simpl. rewrite H, IH. reflexivity.
Qed.

(** X3. The verdict does not depend on letter case: two texts that are
    equal up to case get the same verdict, counts and length included. *)
Theorem detect_ambiguity_ignores_case (a b : string) :
  ieq a b = true ->
  RequirementAnalysisAgent._detect_ambiguity a
  = RequirementAnalysisAgent._detect_ambiguity b.
Proof.
  intros H. unfold RequirementAnalysisAgent._detect_ambiguity.
  assert (forall p, Re.search p a = Re.search p b) as Hsearch.
  { intros p. apply search_from_ieq; [exact H|reflexivity]. }
  rewrite (sum_ones_ext (fun p => Re.search p a) (fun p => Re.search p b))
    by exact Hsearch.
  rewrite (sum_ones_ext (fun p => negb (Re.search p a))
                        (fun p => negb (Re.search p b)))
    by (intros p; rewrite Hsearch; reflexivity).
  rewrite (ieq_strip_len a b H).
  unfold Str.len at 2 4. rewrite (ieq_length a b H). reflexivity.
Qed.

Lemma detect_ambiguity_ignores_case_witness :
  ieq "It SHOULD be Fast and EASY to use" "it should be fast and easy to use"
  = true
  /\ RequirementAnalysisAgent._detect_ambiguity
       "It SHOULD be Fast and EASY to use"
     = RequirementAnalysisAgent._detect_ambiguity
         "it should be fast and easy to use".
Proof.
  split; [reflexivity|].
  apply (detect_ambiguity_ignores_case
           "It SHOULD be Fast and EASY to use" "it should be fast and easy to use").
  reflexivity.
Defined.

(** ** The Deployment parser: shape of the result, plain text, round trip *)

Lemma append_length (a b : string) :
  String.length (a +:+ b) = (String.length a + String.length b)%nat.
Proof.
  induction a as [|c a IH]; [reflexivity|].
  rewrite append_cons. simpl. rewrite IH. reflexivity.
Qed.

Lemma substring_append_here (m b : string) :
  String.substring 0 (String.length m) (m +:+ b) = m.
Proof.
  induction m as [|c m IH].
  - simpl. destruct b; reflexivity.
  - rewrite append_cons. simpl. rewrite IH. reflexivity.
Qed.

Lemma substring_append_mid (a m b : string) :
  String.substring (String.length a) (String.length m) (a +:+ m +:+ b) = m.
Proof.
  induction a as [|c a IH].
  - rewrite append_nil_l. apply substring_append_here.
  - rewrite append_cons. simpl. exact IH.
Qed.

Lemma substring_append_tail (a b : string) :
  String.substring (String.length a) (String.length b) (a +:+ b) = b.
Proof.
  pose proof (substring_append_mid a b EmptyString) as H.
  rewrite append_nil_r in H. exact H.
Qed.

Lemma index_here (sub t : string) : String.index 0 sub (sub +:+ t) = Some 0%nat.
Proof.
  destruct (sub +:+ t) as [|c u] eqn:E.
  - apply append_empty in E as [-> _]. reflexivity.
  - cbn [String.index]. rewrite <- E.
    assert (String.prefix sub (sub +:+ t) = true) as ->; [|reflexivity].
    apply prefix_correct, substring_append_here.
Qed.

Lemma index_app_skip (sub a t : string) (n : nat) :
  String.index (String.length a + n) sub (a +:+ t)
  = (fun i => (String.length a + i)%nat) <$> String.index n sub t.
Proof.
  induction a as [|c a IH].
  - rewrite append_nil_l. simpl. destruct (String.index n sub t); reflexivity.
  - rewrite append_cons. cbn [String.length Nat.add String.index]. rewrite IH.
    destruct (String.index n sub t); reflexivity.
Qed.

Lemma index_cons_miss (sub t : string) (c : ascii) :
  String.prefix sub (String c t) = false ->
  String.index 0 sub (String c t) = S <$> String.index 0 sub t.
Proof.
  intros H. cbn [String.index]. rewrite H.
  destruct (String.index 0 sub t); reflexivity.
Qed.

Lemma prefix_first_char (c0 c : ascii) (sub t : string) :
  Ascii.eqb c c0 = false -> String.prefix (String c0 sub) (String c t) = false.
Proof.
  intros H. destruct (String.prefix (String c0 sub) (String c t)) eqn:E;
    [|reflexivity].
  apply prefix_correct in E. simpl in E. injection E as E _.
  subst c. rewrite Ascii.eqb_refl in H. discriminate.
Qed.

(** A stretch without the first character of [sub] holds no start of it. *)
Lemma index_after_free (c0 : ascii) (sub x t : string) :
  lacks c0 x = true ->
  String.index 0 (String c0 sub) (x +:+ t)
  = (fun i => (String.length x + i)%nat) <$> String.index 0 (String c0 sub) t.
Proof.
  induction x as [|c x IH]; intros H.
  - rewrite append_nil_l. destruct (String.index 0 _ t); reflexivity.
  - unfold lacks in H. simpl in H. apply andb_true_iff in H as [Hc Hx].
    apply negb_true_iff in Hc.
    rewrite append_cons, index_cons_miss by (apply prefix_first_char, Hc).
    rewrite (IH Hx). destruct (String.index 0 _ t); reflexivity.
Qed.

Lemma index_free_none (c0 : ascii) (sub x : string) :
  lacks c0 x = true -> String.index 0 (String c0 sub) x = None.
Proof.
  intros H. rewrite <- (append_nil_r x), (index_after_free c0 sub x _ H).
  reflexivity.
Qed.

Lemma contains_free (c0 : ascii) (sub x : string) :
  lacks c0 x = true -> Str.contains (String c0 sub) x = false.
Proof.
  intros H. unfold Str.contains. rewrite (index_free_none c0 sub x H).
  reflexivity.
Qed.

(** X4. A reply without any opening bracket, the empty reply included,
    is parsed into the record of the four canned defaults. *)
Theorem parse_plain_text_gives_defaults (content : string) :
  lacks "[" content = true ->
  DeploymentAgent._parse_deployment_output content = default_config.
Proof.
  intros H.
  unfold DeploymentAgent._parse_deployment_output,
    DeploymentAgent.extract_requirements,
    DeploymentAgent.extract_setup_instructions,
    DeploymentAgent.extract_github_push,
    DeploymentAgent.extract_hosting_platforms.
  unfold DeploymentAgent.REQUIREMENTS, DeploymentAgent.SETUP_INSTRUCTIONS,
    DeploymentAgent.GITHUB_PUSH, DeploymentAgent.HOSTING_PLATFORMS.
  rewrite !(contains_free "[" _ content H). reflexivity.
Qed.

Lemma parse_plain_text_gives_defaults_witness :
  lacks "[" "Sorry, I cannot help with that." = true
  /\ DeploymentAgent._parse_deployment_output "Sorry, I cannot help with that."
     = default_config.
Proof.
  split; [reflexivity|].
  apply (parse_plain_text_gives_defaults "Sorry, I cannot help with that.").
  reflexivity.
Defined.

Lemma index_past_marker (c0 : ascii) (sub M' t : string) :
  lacks c0 M' = true ->
  String.prefix (String c0 sub) (String c0 M' +:+ t) = false ->
  String.index 0 (String c0 sub) (String c0 M' +:+ t)
  = (fun i => (S (String.length M') + i)%nat) <$> String.index 0 (String c0 sub) t.
Proof.
  intros HM Hp. rewrite append_cons in *.
  rewrite (index_cons_miss _ _ _ Hp), (index_after_free c0 sub M' t HM).
  destruct (String.index 0 _ t); reflexivity.
Qed.

(** Where a marker is first found in a text built from pieces without
    brackets and from markers. *)
Ltac index_chain :=
  repeat first
    [ rewrite index_here
    | rewrite index_after_free by assumption
    | rewrite index_past_marker by reflexivity ];
  cbn [fmap option_fmap option_map].

Lemma section_text (A M body rest : string) :
  text_between (A +:+ M +:+ body +:+ rest)
    (String.length A + String.length M)
    (String.length A + String.length M + String.length body)
  = body.
Proof.
  unfold text_between.
  replace (String.length A + String.length M + String.length body
           - (String.length A + String.length M))%nat
    with (String.length body) by lia.
  rewrite <- append_length, <- (append_assoc A M).
  apply substring_append_mid.
Qed.

Lemma closer_index (c0 : ascii) (A M body C' rest : string) :
  lacks c0 body = true ->
  String.index (String.length A + String.length M) (String c0 C')
    (A +:+ M +:+ body +:+ String c0 C' +:+ rest)
  = Some (String.length A + String.length M + String.length body)%nat.
Proof.
  intros Hbody.
  rewrite <- (append_assoc A M), <- append_length.
  rewrite <- (Nat.add_0_r (String.length (A +:+ M))) at 1.
  rewrite index_app_skip, (index_after_free c0 C' body _ Hbody), index_here.
  cbn. f_equal. lia.
Qed.

(** X5. A reply laid out as the prompt asks, the four markers in order with
    no opening bracket before or between them, is parsed back into its four
    sections: each field is the stripped text of its section, or the canned
    default when that text is blank. *)
Theorem parse_well_formed_reply (pre r s g h : string) :
  lacks "[" pre = true -> lacks "[" r = true ->
  lacks "[" s = true -> lacks "[" g = true ->
  DeploymentAgent._parse_deployment_output
    (pre +:+ DeploymentAgent.REQUIREMENTS +:+ r
     +:+ DeploymentAgent.SETUP_INSTRUCTIONS +:+ s
     +:+ DeploymentAgent.GITHUB_PUSH +:+ g
     +:+ DeploymentAgent.HOSTING_PLATFORMS +:+ h)
  = <["requirements" :=
        DeploymentAgent.or_default (Str.strip r)
          DeploymentAgent._generate_default_requirements]>
    (<["setup_instructions" :=
         DeploymentAgent.or_default (Str.strip s)
           DeploymentAgent._generate_default_setup]>
    (<["github_push" :=
         DeploymentAgent.or_default (Str.strip g)
           DeploymentAgent._generate_default_github_push]>
    (<["hosting_platforms" :=
         DeploymentAgent.or_default (Str.strip h)
           DeploymentAgent._generate_default_hosting_platforms]> ∅))).
Proof.
  intros Hpre Hr Hs Hg.
  unfold DeploymentAgent.REQUIREMENTS, DeploymentAgent.SETUP_INSTRUCTIONS,
    DeploymentAgent.GITHUB_PUSH, DeploymentAgent.HOSTING_PLATFORMS.
  set (c4 := "[HOSTING_PLATFORMS]" +:+ h).
  set (c3 := "[GITHUB_PUSH]" +:+ g +:+ c4).
  set (c2 := "[SETUP_INSTRUCTIONS]" +:+ s +:+ c3).
  set (content := pre +:+ "[REQUIREMENTS]" +:+ r +:+ c2).
  assert (first_from DeploymentAgent.REQUIREMENTS content 0 (String.length pre))
    as F1.
  { apply index_first. unfold content, DeploymentAgent.REQUIREMENTS.
    index_chain. f_equal. lia. }
  assert (first_from DeploymentAgent.SETUP_INSTRUCTIONS content
            (String.length pre + String.length DeploymentAgent.REQUIREMENTS)
            (String.length pre + String.length DeploymentAgent.REQUIREMENTS
             + String.length r)) as F1'.
  { apply index_first. unfold content, c2, DeploymentAgent.SETUP_INSTRUCTIONS.
    apply (closer_index "[" pre "[REQUIREMENTS]" r). exact Hr. }
  assert (first_from DeploymentAgent.SETUP_INSTRUCTIONS content 0
            (String.length (pre +:+ "[REQUIREMENTS]" +:+ r))) as F2.
  { apply index_first.
    unfold content, c2, DeploymentAgent.SETUP_INSTRUCTIONS.
    index_chain. f_equal. rewrite !append_length. simpl. lia. }
  assert (content
          = (pre +:+ "[REQUIREMENTS]" +:+ r) +:+ "[SETUP_INSTRUCTIONS]"
            +:+ s +:+ c3) as E2.
  { unfold content, c2. rewrite !append_assoc. reflexivity. }
  assert (first_from DeploymentAgent.GITHUB_PUSH content
            (String.length (pre +:+ "[REQUIREMENTS]" +:+ r)
             + String.length DeploymentAgent.SETUP_INSTRUCTIONS)
            (String.length (pre +:+ "[REQUIREMENTS]" +:+ r)
             + String.length DeploymentAgent.SETUP_INSTRUCTIONS
             + String.length s)) as F2'.
  { apply index_first. rewrite E2. unfold c3, DeploymentAgent.GITHUB_PUSH.
    apply (closer_index "[" _ "[SETUP_INSTRUCTIONS]" s). exact Hs. }
  set (A3 := pre +:+ "[REQUIREMENTS]" +:+ r +:+ "[SETUP_INSTRUCTIONS]" +:+ s).
  assert (content = A3 +:+ "[GITHUB_PUSH]" +:+ g +:+ c4) as E3.
  { unfold content, c2, c3, A3. rewrite !append_assoc. reflexivity. }
  assert (first_from DeploymentAgent.GITHUB_PUSH content 0 (String.length A3))
    as F3.
  { apply index_first.
    unfold content, c2, c3, A3, DeploymentAgent.GITHUB_PUSH.
    index_chain. f_equal. rewrite !append_length. simpl. lia. }
  assert (first_from DeploymentAgent.HOSTING_PLATFORMS content
            (String.length A3 + String.length DeploymentAgent.GITHUB_PUSH)
            (String.length A3 + String.length DeploymentAgent.GITHUB_PUSH
             + String.length g)) as F3'.
  { apply index_first. rewrite E3. unfold c4, DeploymentAgent.HOSTING_PLATFORMS.
    apply (closer_index "[" _ "[GITHUB_PUSH]" g). exact Hg. }
  set (A4 := A3 +:+ "[GITHUB_PUSH]" +:+ g).
  assert (content = A4 +:+ "[HOSTING_PLATFORMS]" +:+ h) as E4.
  { rewrite E3. unfold c4, A4. rewrite !append_assoc. reflexivity. }
  assert (first_from DeploymentAgent.HOSTING_PLATFORMS content 0
            (String.length A4)) as F4.
  { apply index_first.
    unfold content, c2, c3, c4, A4, A3, DeploymentAgent.HOSTING_PLATFORMS.
    index_chain. f_equal. rewrite !append_length. simpl. lia. }
  unfold DeploymentAgent._parse_deployment_output.
  rewrite (extract_requirements_found content _ _ F1 (or_introl F1')).
  rewrite (extract_setup_found content _ _ F2 F2').
  rewrite (extract_github_found content _ _ F3 F3').
  rewrite (extract_hosting_found content _ F4).
  assert (text_between content
            (String.length pre + String.length DeploymentAgent.REQUIREMENTS)
            (String.length pre + String.length DeploymentAgent.REQUIREMENTS
             + String.length r) = r) as ->.
  { unfold content. apply (section_text pre "[REQUIREMENTS]" r). }
  assert (text_between content
            (String.length (pre +:+ "[REQUIREMENTS]" +:+ r)
             + String.length DeploymentAgent.SETUP_INSTRUCTIONS)
            (String.length (pre +:+ "[REQUIREMENTS]" +:+ r)
             + String.length DeploymentAgent.SETUP_INSTRUCTIONS
             + String.length s) = s) as ->.
  { rewrite E2. apply (section_text _ "[SETUP_INSTRUCTIONS]" s). }
  assert (text_between content
            (String.length A3 + String.length DeploymentAgent.GITHUB_PUSH)
            (String.length A3 + String.length DeploymentAgent.GITHUB_PUSH
             + String.length g) = g) as ->.
  { rewrite E3. apply (section_text _ "[GITHUB_PUSH]" g). }
  assert (text_after content
            (String.length A4 + String.length DeploymentAgent.HOSTING_PLATFORMS)
          = h) as ->.
  { unfold text_after, DeploymentAgent.HOSTING_PLATFORMS.
    rewrite E4, <- (append_assoc A4), <- append_length.
    rewrite (append_length (A4 +:+ "[HOSTING_PLATFORMS]") h).
    replace (String.length (A4 +:+ "[HOSTING_PLATFORMS]") + String.length h
             - String.length (A4 +:+ "[HOSTING_PLATFORMS]"))%nat
      with (String.length h) by lia.
    apply substring_append_tail. }
  reflexivity.
Qed.

Lemma parse_well_formed_reply_witness :
  lacks "[" "Here is the configuration. " = true
  /\ lacks "[" " flask>=2.0 " = true
  /\ lacks "[" " pip install -r requirements.txt " = true
  /\ lacks "[" "   " = true
  /\ DeploymentAgent._parse_deployment_output
       ("Here is the configuration. " +:+ DeploymentAgent.REQUIREMENTS
        +:+ " flask>=2.0 " +:+ DeploymentAgent.SETUP_INSTRUCTIONS
        +:+ " pip install -r requirements.txt "
        +:+ DeploymentAgent.GITHUB_PUSH +:+ "   "
        +:+ DeploymentAgent.HOSTING_PLATFORMS +:+ " Render [free tier]")
     = <["requirements" := "flask>=2.0"]>
       (<["setup_instructions" := "pip install -r requirements.txt"]>
       (<["github_push" := DeploymentAgent._generate_default_github_push]>
       (<["hosting_platforms" := "Render [free tier]"]> ∅))).
Proof.
  split; [reflexivity|]. split; [reflexivity|].
  split; [reflexivity|]. split; [reflexivity|].
  rewrite (parse_well_formed_reply "Here is the configuration. " " flask>=2.0 "
             " pip install -r requirements.txt " "   " " Render [free tier]");
    reflexivity.
Defined.

Lemma rstrip_idempotent (s : string) : Str.rstrip (Str.rstrip s) = Str.rstrip s.
Proof.
  induction s as [|c s IH]; [reflexivity|].
  cbn [Str.rstrip]. destruct (Str.rstrip s) as [|d r] eqn:E.
  - destruct (Str.is_space c) eqn:Ec; [reflexivity|].
    cbn [Str.rstrip]. rewrite Ec. reflexivity.
  - cbn [Str.rstrip]. cbn [Str.rstrip] in IH. rewrite IH. reflexivity.
Qed.

Lemma lstrip_head (s : string) :
  Str.lstrip s = EmptyString
  \/ exists c t, Str.lstrip s = String c t /\ Str.is_space c = false.
Proof.
  induction s as [|c s IH]; [left; reflexivity|].
  simpl. destruct (Str.is_space c) eqn:E; [exact IH|].
  right. exists c, s. auto.
Qed.

Lemma rstrip_keeps_head (c : ascii) (t : string) :
  Str.is_space c = false -> exists u, Str.rstrip (String c t) = String c u.
Proof.
  intros Hc. cbn [Str.rstrip]. destruct (Str.rstrip t); rewrite ?Hc; eauto.
Qed.

Lemma strip_idempotent (s : string) : Str.strip (Str.strip s) = Str.strip s.
Proof.
  unfold Str.strip.
  destruct (lstrip_head s) as [-> | (c & t & -> & Hc)]; [reflexivity|].
  destruct (rstrip_keeps_head c t Hc) as [u Hu].
  rewrite Hu. cbn [Str.lstrip]. rewrite Hc, <- Hu.
  apply rstrip_idempotent.
Qed.

Lemma or_default_stripped (x d : string) :
  Str.strip x = x -> Str.strip d = d ->
  Str.strip (DeploymentAgent.or_default x d) = DeploymentAgent.or_default x d.
Proof.
  intros Hx Hd. unfold DeploymentAgent.or_default.
  destruct (negb (Str.truthy x)); assumption.
Qed.

Lemma extract_requirements_stripped (content : string) :
  Str.strip (DeploymentAgent.extract_requirements content)
  = DeploymentAgent.extract_requirements content.
Proof.
  unfold DeploymentAgent.extract_requirements.
  repeat match goal with
         | |- context [if ?b then _ else _] => destruct b
         end; apply strip_idempotent || reflexivity.
Qed.

Lemma extract_setup_stripped (content : string) :
  Str.strip (DeploymentAgent.extract_setup_instructions content)
  = DeploymentAgent.extract_setup_instructions content.
Proof.
  unfold DeploymentAgent.extract_setup_instructions.
  repeat match goal with
         | |- context [if ?b then _ else _] => destruct b
         end; apply strip_idempotent || reflexivity.
Qed.

Lemma extract_github_stripped (content : string) :
  Str.strip (DeploymentAgent.extract_github_push content)
  = DeploymentAgent.extract_github_push content.
Proof.
  unfold DeploymentAgent.extract_github_push.
  repeat match goal with
         | |- context [if ?b then _ else _] => destruct b
         end; apply strip_idempotent || reflexivity.
Qed.

Lemma extract_hosting_stripped (content : string) :
  Str.strip (DeploymentAgent.extract_hosting_platforms content)
  = DeploymentAgent.extract_hosting_platforms content.
Proof.
  unfold DeploymentAgent.extract_hosting_platforms.
  repeat match goal with
         | |- context [if ?b then _ else _] => destruct b
         end; apply strip_idempotent || reflexivity.
Qed.

(** X6. Whatever the reply, the parsed record has exactly the four keys, and
    every value is non-empty and carries no whitespace at either end. *)
Theorem parse_deployment_output_shape (content : string) :
  dom (DeploymentAgent._parse_deployment_output content)
  = ({["requirements"; "setup_instructions"; "github_push";
       "hosting_platforms"]} : gset string)
  /\ forall (key value : string),
       DeploymentAgent._parse_deployment_output content !! key = Some value ->
       value <> EmptyString /\ Str.strip value = value.
Proof.
  unfold DeploymentAgent._parse_deployment_output. split.
  - rewrite !dom_insert_L, dom_empty_L. set_solver.
  - intros key value H.
    assert (forall x d, Str.strip x = x -> Str.strip d = d ->
                        Str.truthy d = true ->
                        value = DeploymentAgent.or_default x d ->
                        value <> EmptyString /\ Str.strip value = value) as Hfield.
    { intros x d Hx Hd Ht ->. split; [|apply or_default_stripped; assumption].
      pose proof (or_default_truthy x d Ht) as Hv.
      intros E. rewrite E in Hv. discriminate. }
    repeat (apply lookup_insert_Some in H as [[_ <-] | [_ H]];
            [eapply Hfield; [| | |reflexivity]; try reflexivity;
             auto using extract_requirements_stripped, extract_setup_stripped,
               extract_github_stripped, extract_hosting_stripped|]).
    rewrite lookup_empty in H. discriminate.
Qed.

(** ** The Deployment stage under any service *)

Lemma is_failure_false (o : outcome) :
  is_failure o = false ->
  exists c, o = Returned (Content c) /\ DeploymentAgent.blank c = false.
Proof.
  destruct o as [e|[|c]]; simpl; try discriminate. eauto.
Qed.

Lemma attempt_once_last_cause (svc : service) (prompt : string)
    (n attempt : nat) (vars : DeploymentAgent.loop_vars) (tr : list event) :
  is_failure (svc (calls tr) prompt) = true ->
  ~ (attempt < n - 1)%nat ->
  DeploymentAgent.attempt_once svc prompt n attempt vars tr
  = (DeploymentAgent.Fails
       (DeploymentAgent.failed_after n (failure_cause (svc (calls tr) prompt))),
     tr ++ [Called prompt]).
Proof.
  intros Hfail Hlt.
  unfold DeploymentAgent.attempt_once, DeploymentAgent.handler, generate_reply.
  apply Nat.ltb_nlt in Hlt.
  destruct (svc (calls tr) prompt) as [e|[|c]]; simpl in Hfail;
    rewrite ?Hfail, Hlt; reflexivity.
Qed.

Lemma non_first_attempt_calls (tr : list event) (prompt : string) (secs : Z) :
  calls (tr ++ [Called prompt; Slept secs]) = S (calls tr).
Proof.
  change [Called prompt; Slept secs] with ([Called prompt] ++ [Slept secs]).
  rewrite app_assoc, calls_slept, calls_called. reflexivity.
Qed.

Lemma retry_loop_exhausted_cause (svc : service) (prompt : string) (n : nat) :
  forall (d a : nat) (vars : DeploymentAgent.loop_vars) (tr : list event),
    (a + S d = n)%nat ->
    (forall j, (j <= d)%nat -> is_failure (svc (calls tr + j)%nat prompt) = true) ->
    DeploymentAgent.retry_loop svc prompt n (seq a (n - a)) vars tr
    = (Raise (DeploymentAgent.failed_after n
                (failure_cause (svc (calls tr + d)%nat prompt))),
       tr ++ backoff_events prompt a d ++ [Called prompt]).
Proof.
  induction d as [|d IH]; intros a vars tr Hn Hfail.
  - rewrite seq_remaining by lia. cbn [DeploymentAgent.retry_loop].
    rewrite attempt_once_last_cause.
    + rewrite Nat.add_0_r. reflexivity.
    + specialize (Hfail 0%nat). rewrite Nat.add_0_r in Hfail. apply Hfail. lia.
    + lia.
  - rewrite seq_remaining by lia. cbn [DeploymentAgent.retry_loop].
    destruct (attempt_once_retry svc prompt n a vars tr) as [vars1 ->].
    { specialize (Hfail 0%nat). rewrite Nat.add_0_r in Hfail. apply Hfail. lia. }
    { lia. }
    rewrite (IH (S a) vars1 (tr ++ [Called prompt; Slept (2 ^ Z.of_nat a)])).
    + rewrite non_first_attempt_calls, backoff_events_cons, <- !app_assoc.
      replace (S (calls tr) + d)%nat with (calls tr + S d)%nat by lia.
      reflexivity.
    + lia.
    + intros j Hj. rewrite non_first_attempt_calls.
      replace (S (calls tr) + j)%nat with (calls tr + S j)%nat by lia.
      apply Hfail. lia.
Qed.

(** X7. Whatever the service does, a run of the Deployment stage makes at
    most three calls and sleeps only between them, 1 and then 2 time units.
    Every attempt before the last call failed, so a result is the parse of
    the first usable reply; when the third attempt fails too the stage
    raises [ValueError], also when the service raised another kind of error,
    and the message names the cause of the last failure. *)
Theorem deployment_stage_is_bounded (svc : service) (prompt : string) :
  exists k,
    (k < 3)%nat
    /\ (forall j, (j < k)%nat -> is_failure (svc j prompt) = true)
    /\ snd (DeploymentAgent.generate_deployment_config svc prompt [])
       = backoff_events prompt 0 k ++ [Called prompt]
    /\ calls (snd (DeploymentAgent.generate_deployment_config svc prompt []))
       = S k
    /\ sleeps (snd (DeploymentAgent.generate_deployment_config svc prompt []))
       = take k [1; 2]
    /\ match fst (DeploymentAgent.generate_deployment_config svc prompt []) with
       | Ok config =>
           exists c, svc k prompt = Returned (Content c)
                     /\ DeploymentAgent.blank c = false
                     /\ config = DeploymentAgent._parse_deployment_output c
       | Raise e =>
           k = 2%nat
           /\ is_failure (svc 2%nat prompt) = true
           /\ e = DeploymentAgent.failed_after 3 (failure_cause (svc 2%nat prompt))
           /\ is_ValueError e = true
       end.
Proof.
  assert (forall k c,
            (k < 3)%nat ->
            (forall j, (j < k)%nat -> is_failure (svc j prompt) = true) ->
            svc k prompt = Returned (Content c) ->
            DeploymentAgent.blank c = false ->
            (k = 0 \/ k = 1 \/ k = 2)%nat ->
            exists k,
              (k < 3)%nat
              /\ (forall j, (j < k)%nat -> is_failure (svc j prompt) = true)
              /\ snd (DeploymentAgent.generate_deployment_config svc prompt [])
                 = backoff_events prompt 0 k ++ [Called prompt]
              /\ calls (snd (DeploymentAgent.generate_deployment_config
                               svc prompt [])) = S k
              /\ sleeps (snd (DeploymentAgent.generate_deployment_config
                                svc prompt [])) = take k [1; 2]
              /\ match fst (DeploymentAgent.generate_deployment_config
                              svc prompt []) with
                 | Ok config =>
                     exists c, svc k prompt = Returned (Content c)
                               /\ DeploymentAgent.blank c = false
                               /\ config
                                  = DeploymentAgent._parse_deployment_output c
                 | Raise e =>
                     k = 2%nat
                     /\ is_failure (svc 2%nat prompt) = true
                     /\ e = DeploymentAgent.failed_after 3
                              (failure_cause (svc 2%nat prompt))
                     /\ is_ValueError e = true
                 end) as Hsuccess.
  { intros k c Hk Hfail Hok Hc Hcases. exists k.
    rewrite (generate_deployment_config_success svc prompt c k Hk Hfail Hok Hc).
    cbn [fst snd]. split; [exact Hk|]. split; [exact Hfail|].
    split; [reflexivity|].
    split; [destruct Hcases as [-> | [-> | ->]]; reflexivity|].
    split; [destruct Hcases as [-> | [-> | ->]]; reflexivity|].
    exists c. auto. }
  destruct (is_failure (svc 0%nat prompt)) eqn:F0.
  2:{ destruct (is_failure_false _ F0) as (c & Hc & Hb).
      apply (Hsuccess 0%nat c); auto; intros j Hj; lia. }
  destruct (is_failure (svc 1%nat prompt)) eqn:F1.
  2:{ destruct (is_failure_false _ F1) as (c & Hc & Hb).
      apply (Hsuccess 1%nat c); auto.
      intros [|j] Hj; [exact F0|lia]. }
  destruct (is_failure (svc 2%nat prompt)) eqn:F2.
  2:{ destruct (is_failure_false _ F2) as (c & Hc & Hb).
      apply (Hsuccess 2%nat c); auto.
      intros [|[|j]] Hj; [exact F0|exact F1|lia]. }
  exists 2%nat.
  unfold DeploymentAgent.generate_deployment_config, DeploymentAgent.invoke,
    DeploymentAgent.max_retries.
  assert (forall j, (j <= 2)%nat ->
                    is_failure (svc (calls [] + j)%nat prompt) = true) as Hall.
  { intros [|[|[|j]]] Hj; [exact F0|exact F1|exact F2|lia]. }
  pose proof (retry_loop_exhausted_cause svc prompt 3 2 0
                {| DeploymentAgent.content := None;
                   DeploymentAgent.last_error := None |} [] eq_refl Hall)
    as Hloop.
  change (seq 0 (3 - 0)) with (seq 0 3) in Hloop. rewrite Hloop.
  cbn [fst snd]. split; [lia|].
  split; [intros [|[|j]] Hj; [exact F0|exact F1|lia]|].
  split; [reflexivity|].
  split; [reflexivity|]. split; [reflexivity|].
  split; [reflexivity|]. split; [reflexivity|]. split; reflexivity.
Qed.

(** ** The Test stage: [_extract_code_blocks] *)

Lemma substring_app_skip (a t : string) (k n : nat) :
  String.substring (String.length a + k) n (a +:+ t) = String.substring k n t.
Proof.
  induction a as [|c a IH]; [reflexivity|].
  rewrite append_cons. simpl. exact IH.
Qed.

Lemma slice_length (s : string) (lo hi : Z) :
  (String.length (Str.slice s lo hi) <= String.length s)%nat.
Proof.
  unfold Str.slice. rewrite substring_length. lia.
Qed.

(** X8. When the reply holds a [```python] fence that is closed, with no
    backtick before the fence or inside the block, the extracted test code
    is the stripped text of the block; what follows the closing fence is
    dropped. *)
Theorem extract_closed_python_block (pre body post : string) :
  lacks "`" pre = true -> lacks "`" body = true ->
  TestGenerationAgent._extract_code_blocks
    (pre +:+ TestGenerationAgent.python_fence +:+ body
     +:+ TestGenerationAgent.fence +:+ post)
  = Str.strip body.
Proof.
  intros Hpre Hbody.
  unfold TestGenerationAgent._extract_code_blocks,
    TestGenerationAgent.python_fence, TestGenerationAgent.fence.
  set (content := pre +:+ "```python" +:+ body +:+ "```" +:+ post).
  assert (String.index 0 "```python" content = Some (String.length pre)) as Hopen.
  { unfold content. index_chain. f_equal. lia. }
  assert (String.index (String.length pre + 9) "```" content
          = Some (String.length pre + 9 + String.length body)%nat) as Hclose.
  { unfold content. apply (closer_index "`" pre "```python" body "``" post Hbody). }
  unfold Str.contains, Str.find. change (Z.to_nat 0) with 0%nat.
  rewrite Hopen.
  replace (Z.to_nat (Z.of_nat (String.length pre) + 9))
    with (String.length pre + 9)%nat by lia.
  rewrite Hclose.
  replace (Z.of_nat (String.length pre) + 9)
    with (Z.of_nat (String.length pre + 9)) by lia.
  rewrite slice_nat.
  - f_equal. unfold content.
    apply (section_text pre "```python" body).
  - lia.
  - unfold content. rewrite !append_length. simpl. lia.
Qed.

Lemma extract_closed_python_block_witness :
  lacks "`" "Here are the tests: " = true
  /\ lacks "`" " import pytest  " = true
  /\ TestGenerationAgent._extract_code_blocks
       ("Here are the tests: " +:+ TestGenerationAgent.python_fence
        +:+ " import pytest  " +:+ TestGenerationAgent.fence +:+ " Enjoy!")
     = "import pytest".
Proof.
  split; [reflexivity|]. split; [reflexivity|].
  rewrite (extract_closed_python_block "Here are the tests: "
             " import pytest  " " Enjoy!"); reflexivity.
Defined.

(** X9. When the [```python] fence is never closed, the last character of
    the reply is lost: the extracted code is the stripped block without its
    final character. *)
Theorem extract_unclosed_python_block (pre body : string) :
  lacks "`" pre = true -> lacks "`" body = true ->
  TestGenerationAgent._extract_code_blocks
    (pre +:+ TestGenerationAgent.python_fence +:+ body)
  = Str.strip (Str.slice body 0 (-1)).
Proof.
  intros Hpre Hbody.
  unfold TestGenerationAgent._extract_code_blocks,
    TestGenerationAgent.python_fence, TestGenerationAgent.fence.
  set (content := pre +:+ "```python" +:+ body).
  assert (String.index 0 "```python" content = Some (String.length pre)) as Hopen.
  { unfold content. index_chain. f_equal. lia. }
  assert (String.index (String.length pre + 9) "```" content = None) as Hclose.
  { unfold content. rewrite <- (append_assoc pre).
    replace (String.length pre + 9)%nat
      with (String.length (pre +:+ "```python") + 0)%nat
      by (rewrite append_length; simpl; lia).
    rewrite index_app_skip, (index_free_none "`" "``" body Hbody). reflexivity. }
  unfold Str.contains, Str.find. change (Z.to_nat 0) with 0%nat.
  rewrite Hopen.
  replace (Z.to_nat (Z.of_nat (String.length pre) + 9))
    with (String.length pre + 9)%nat by lia.
  rewrite Hclose. f_equal.
  assert (String.length content = String.length pre + 9 + String.length body)%nat
    as Hlen.
  { unfold content. rewrite !append_length. simpl. lia. }
  unfold Str.slice, Str.clip, Str.len. rewrite Hlen.
  destruct (Z.ltb_spec (Z.of_nat (String.length pre) + 9) 0); [lia|].
  cbn [Z.ltb Z.compare].
  rewrite Z.min_l by lia.
  replace (Z.to_nat (Z.of_nat (String.length pre) + 9))
    with (String.length (pre +:+ "```python") + 0)%nat
    by (rewrite append_length; simpl; lia).
  unfold content. rewrite <- (append_assoc pre), substring_app_skip.
  rewrite Z.min_l by lia. f_equal. lia.
Qed.

Lemma extract_unclosed_python_block_witness :
  lacks "`" "Tests: " = true
  /\ lacks "`" " assert add(2, 3) == 5" = true
  /\ TestGenerationAgent._extract_code_blocks
       ("Tests: " +:+ TestGenerationAgent.python_fence
        +:+ " assert add(2, 3) == 5")
     = "assert add(2, 3) ==".
Proof.
  split; [reflexivity|]. split; [reflexivity|].
  rewrite (extract_unclosed_python_block "Tests: " " assert add(2, 3) == 5");
    reflexivity.
Defined.

(** X10. The extracted code never has whitespace at either end and is never
    longer than the reply; a reply without any backtick is only stripped. *)
Theorem extract_code_blocks_stripped (content : string) :
  Str.strip (TestGenerationAgent._extract_code_blocks content)
  = TestGenerationAgent._extract_code_blocks content
  /\ (String.length (TestGenerationAgent._extract_code_blocks content)
      <= String.length content)%nat
  /\ (lacks "`" content = true ->
      TestGenerationAgent._extract_code_blocks content = Str.strip content).
Proof.
  unfold TestGenerationAgent._extract_code_blocks,
    TestGenerationAgent.python_fence, TestGenerationAgent.fence.
  split; [|split].
  - repeat match goal with
           | |- context [if ?b then _ else _] => destruct b
           end; apply strip_idempotent.
  - assert (forall x, (String.length (Str.strip x) <= String.length x)%nat) as Hs.
    { intros x. pose proof (strip_len x). unfold Str.len in *. lia. }
    repeat match goal with
           | |- context [if ?b then _ else _] => destruct b
           end;
      try (etransitivity; [apply Hs|apply slice_length]); apply Hs.
  - intros H. rewrite !(contains_free "`" _ content H). reflexivity.
Qed.

(** ** The Requirement stage: a decoded reply, a follow-up on bad data *)

Lemma rindex_free_none (c0 : ascii) (x : string) :
  lacks c0 x = true -> Str.rindex (String c0 EmptyString) x = None.
Proof.
  induction x as [|c x IH]; intros H; [reflexivity|].
  unfold lacks in H. simpl in H. apply andb_true_iff in H as [Hc Hx].
  apply negb_true_iff in Hc.
  cbn [Str.rindex]. rewrite (IH Hx), (prefix_first_char c0 c _ _ Hc).
  reflexivity.
Qed.

Lemma rindex_before_free (c0 : ascii) (x t : string) :
  lacks c0 t = true ->
  Str.rindex (String c0 EmptyString) (x +:+ String c0 t)
  = Some (String.length x).
Proof.
  intros Ht. induction x as [|c x IH].
  - rewrite append_nil_l. cbn [Str.rindex].
    rewrite (rindex_free_none c0 t Ht).
    assert (String.prefix (String c0 EmptyString) (String c0 t) = true) as ->;
      [|reflexivity].
    apply prefix_correct. simpl. destruct t; reflexivity.
  - rewrite append_cons. cbn [Str.rindex]. rewrite IH. reflexivity.
Qed.

(** Around a JSON object, prose without braces leaves the span from the
    first opening brace to the last closing brace equal to the object. *)
Lemma brace_span (a body c : string) :
  lacks "{" a = true -> lacks "}" c = true ->
  Str.find (a +:+ "{" +:+ body +:+ "}" +:+ c) "{" 0
  = Z.of_nat (String.length a)
  /\ Str.rfind (a +:+ "{" +:+ body +:+ "}" +:+ c) "}" + 1
     = Z.of_nat (String.length a + String.length ("{" +:+ body +:+ "}"))
  /\ Str.slice (a +:+ "{" +:+ body +:+ "}" +:+ c)
       (Z.of_nat (String.length a))
       (Z.of_nat (String.length a + String.length ("{" +:+ body +:+ "}")))
     = "{" +:+ body +:+ "}".
Proof.
  intros Ha Hc. split; [|split].
  - unfold Str.find. change (Z.to_nat 0) with 0%nat. index_chain.
    f_equal. lia.
  - unfold Str.rfind.
    replace (a +:+ "{" +:+ body +:+ "}" +:+ c)
      with ((a +:+ "{" +:+ body) +:+ String "}" c)
      by (rewrite !append_assoc; reflexivity).
    rewrite (rindex_before_free "}" _ c Hc), !append_length. simpl. lia.
  - rewrite slice_nat.
    + replace (a +:+ "{" +:+ body +:+ "}" +:+ c)
        with (a +:+ EmptyString +:+ ("{" +:+ body +:+ "}") +:+ c)
        by (rewrite append_nil_l, !append_assoc; reflexivity).
      pose proof (section_text a EmptyString ("{" +:+ body +:+ "}") c) as H.
      simpl String.length in H. rewrite !Nat.add_0_r in H. exact H.
    + lia.
    + rewrite !append_length. simpl. lia.
Qed.

(** X11. When the reply is a JSON object with prose around it that holds no
    brace, exactly the object is decoded, and [analyze] returns the seven
    schema entries alone: entries of the object under other keys are
    dropped, absent ones get their default, present ones are passed on
    unchecked.  This needs the log line not to raise: the ambiguity flag is
    false or the clarifying questions have a length. *)
Theorem analyze_decoded_reply (json_loads : string -> result pyval)
    (a body c : string) (m : gmap string pyval) :
  lacks "{" a = true -> lacks "}" c = true ->
  json_loads ("{" +:+ body +:+ "}") = Ok (PyDict m) ->
  truthy (default (PyBool false) (m !! "ambiguity_detected")) = false
  \/ has_len (default (PyList []) (m !! "clarifying_questions")) = true ->
  RequirementAnalysisAgent.parse_reply json_loads
    (a +:+ "{" +:+ body +:+ "}" +:+ c)
  = Ok (schema_record m)
  /\ dom (schema_record m)
     = ({["functional_requirements"; "non_functional_requirements";
          "assumptions"; "constraints"; "clarifying_questions";
          "ambiguity_detected"; "ambiguity_notes"]} : gset string).
Proof.
  intros Ha Hc Hdec Hlog. split.
  - unfold RequirementAnalysisAgent.parse_reply,
      RequirementAnalysisAgent.extract_requirements.
    destruct (brace_span a body c Ha Hc) as (-> & -> & Hslice).
    replace (Z.of_nat (String.length a) >=? 0) with true
      by (symmetry; rewrite Z.geb_leb; apply Z.leb_le; lia).
    replace (Z.of_nat (String.length a + String.length ("{" +:+ body +:+ "}"))
             >? Z.of_nat (String.length a)) with true
      by (symmetry; rewrite Z.gtb_ltb; apply Z.ltb_lt;
          rewrite !append_length; simpl; lia).
    cbn [andb]. rewrite Hslice, Hdec. cbn [mbind result_bind].
    change (RequirementAnalysisAgent.ensure_fields (PyDict m))
      with (Ok (schema_record m) : result (gmap string pyval)).
    cbn [mbind result_bind].
    unfold RequirementAnalysisAgent.log_ambiguity.
    change (schema_record m !! "ambiguity_detected")
      with (Some (default (PyBool false) (m !! "ambiguity_detected"))).
    change (schema_record m !! "clarifying_questions")
      with (Some (default (PyList []) (m !! "clarifying_questions"))).
    cbn [default from_option id].
    destruct Hlog as [Hflag | Hlen].
    + rewrite Hflag. reflexivity.
    + destruct (truthy _); [|reflexivity].
      destruct (default (PyList []) (m !! "clarifying_questions"));
        try discriminate; reflexivity.
  - unfold schema_record. rewrite !dom_insert_L, dom_empty_L. set_solver.
Qed.

Lemma analyze_decoded_reply_witness :
  Json.loads ("{" +:+ object_body +:+ "}") = Ok (PyDict object_decoded)
  /\ RequirementAnalysisAgent.parse_reply Json.loads
       ("Here is the analysis: " +:+ "{" +:+ object_body +:+ "}"
        +:+ " Let me know.")
     = Ok (schema_record object_decoded)
  /\ schema_record object_decoded !! "functional_requirements"
     = Some (PyList [PyStr "Add two integers"])
  /\ schema_record object_decoded !! "assumptions" = Some (PyList [])
  /\ schema_record object_decoded !! "priority" = None.
Proof.
  assert (Json.loads ("{" +:+ object_body +:+ "}") = Ok (PyDict object_decoded))
    as Hdec by (vm_compute; reflexivity).
  split; [exact Hdec|].
  split; [|repeat split; reflexivity].
  apply (analyze_decoded_reply Json.loads "Here is the analysis: " object_body
           " Let me know." object_decoded).
  - reflexivity.
  - reflexivity.
  - exact Hdec.
  - left. reflexivity.
Defined.

(** X12. A follow-up run whose context carries functional requirements that
    cannot be summarised, [None], a boolean, a number, or a list with a
    non-string among its first three items, raises [TypeError] while the
    prompt is composed: the completion service is not called. *)
Theorem follow_up_fails_on_bad_requirements
    (json_loads : string -> result pyval) (svc : service) (user_input : string)
    (ctx : RequirementAnalysisAgent.context_t)
    (pr : RequirementAnalysisAgent.previous_results_t) (v : pyval)
    (tr : list event) :
  RequirementAnalysisAgent.is_active ctx = true ->
  RequirementAnalysisAgent.previous_results ctx = Some pr ->
  RequirementAnalysisAgent.requirements pr !! "functional_requirements"
  = Some v ->
  summary_unusable v = true ->
  exists msg,
    RequirementAnalysisAgent.analyze json_loads svc user_input (Some ctx) tr
    = (Raise (TypeError msg), tr).
Proof.
  intros Hact Hres Hreq Hbad.
  assert (exists msg, RequirementAnalysisAgent.join_first3 v
                      = Raise (TypeError msg)) as [msg Hjoin].
  { unfold RequirementAnalysisAgent.join_first3.
    destruct v as [| | | | |l|]; try discriminate; simpl in Hbad;
      try (eexists; reflexivity).
    destruct (RequirementAnalysisAgent.all_str (take 3 l));
      [discriminate|eexists; reflexivity]. }
  exists msg.
  unfold RequirementAnalysisAgent.analyze,
    RequirementAnalysisAgent.compose_prompt,
    RequirementAnalysisAgent.context_section.
  rewrite Hact, Hres.
  assert (bool_decide (RequirementAnalysisAgent.previous_prompts ctx <> [])
          || bool_decide (is_Some (Some pr)) = true) as ->.
  { apply orb_true_iff. right. apply bool_decide_eq_true. eauto. }
  assert (truthy (PyDict (RequirementAnalysisAgent.requirements pr)) = true) as ->.
  { cbn [truthy]. apply negb_true_iff, bool_decide_eq_false.
    intros Hempty. rewrite Hempty, lookup_empty in Hreq. discriminate. }
  unfold dict_get. rewrite Hreq. cbn [default from_option id mbind result_bind].
  rewrite Hjoin. reflexivity.
Qed.

Lemma follow_up_fails_on_bad_requirements_witness :
  RequirementAnalysisAgent.parse_reply Json.loads
    ("{" +:+ null_requirements_body +:+ "}")
  = Ok (schema_record (<["functional_requirements" := PyNone]> ∅))
  /\ exists msg,
       RequirementAnalysisAgent.analyze Json.loads answers_empty
         "Add a square root" (Some null_requirements_context) []
       = (Raise (TypeError msg), []).
Proof.
  split; [vm_compute; reflexivity|].
  apply (follow_up_fails_on_bad_requirements Json.loads answers_empty
           "Add a square root" null_requirements_context
           {| RequirementAnalysisAgent.requirements :=
                schema_record (<["functional_requirements" := PyNone]> ∅);
              RequirementAnalysisAgent.code := EmptyString |}
           PyNone []); reflexivity.
Defined.

(** ** Formatting the requirements for the later stages *)

Lemma add_bullets_strings (py_str : pyval -> string) (rs : list string) :
  forall text, add_bullets py_str text (PyStr <$> rs) = text +:+ bullets rs.
Proof.
  unfold add_bullets. induction rs as [|r rs IH]; intros text.
  - simpl. rewrite append_nil_r. reflexivity.
  - cbn [fmap list_fmap fold_left]. rewrite IH. cbn [py_format bullets].
    rewrite !append_assoc. reflexivity.
Qed.

(** X13. The Deployment stage renders the functional requirements, a list
    of strings or nothing at all, as a header and one bullet line each, in
    order; whatever else the record holds, the non-functional requirements
    included, has no influence. *)
Theorem deployment_format_requirements (py_str : pyval -> string)
    (dict_order : gmap string pyval -> list string)
    (requirements : gmap string pyval) (fs : list string) :
  default (PyList []) (requirements !! "functional_requirements")
  = PyList (PyStr <$> fs) ->
  DeploymentAgent._format_requirements py_str dict_order requirements
  = Ok ("FUNCTIONAL REQUIREMENTS:" +:+ Str.nl +:+ bullets fs).
Proof.
  intros H. unfold DeploymentAgent._format_requirements. rewrite H.
  cbn [py_iter mbind result_bind]. rewrite add_bullets_strings.
  rewrite !append_assoc. reflexivity.
Qed.

Lemma deployment_format_requirements_witness :
  default (PyList []) (null_nfr_record !! "functional_requirements")
  = PyList (PyStr <$> ["Add two integers"])
  /\ DeploymentAgent._format_requirements no_str no_order null_nfr_record
     = Ok ("FUNCTIONAL REQUIREMENTS:" +:+ Str.nl
           +:+ "- Add two integers" +:+ Str.nl).
Proof.
  split; [reflexivity|].
  rewrite (deployment_format_requirements no_str no_order null_nfr_record
             ["Add two integers"]); reflexivity.
Defined.

(** X14. The Documentation and Test stages render both lists, each under
    its header, functional requirements first; an absent list gives a
    header with no line under it. *)
Theorem documentation_format_requirements (py_str : pyval -> string)
    (dict_order : gmap string pyval -> list string)
    (requirements : gmap string pyval) (fs nfs : list string) :
  default (PyList []) (requirements !! "functional_requirements")
  = PyList (PyStr <$> fs) ->
  default (PyList []) (requirements !! "non_functional_requirements")
  = PyList (PyStr <$> nfs) ->
  DocumentationAgent._format_requirements py_str dict_order requirements
  = Ok ("FUNCTIONAL REQUIREMENTS:" +:+ Str.nl +:+ bullets fs
        +:+ Str.nl +:+ "NON-FUNCTIONAL REQUIREMENTS:" +:+ Str.nl +:+ bullets nfs)
  /\ TestGenerationAgent._format_requirements py_str dict_order requirements
     = DocumentationAgent._format_requirements py_str dict_order requirements.
Proof.
  intros Hf Hn. split; [|reflexivity].
  unfold DocumentationAgent._format_requirements. rewrite Hf, Hn.
  cbn [py_iter mbind result_bind]. rewrite !add_bullets_strings.
  rewrite !append_assoc. reflexivity.
Qed.

Lemma documentation_format_requirements_witness :
  default (PyList []) (first_run_requirements !! "functional_requirements")
  = PyList (PyStr <$> ["Add two integers"; "Subtract two integers";
                       "Multiply two integers"; "Divide two integers"])
  /\ default (PyList []) (first_run_requirements !! "non_functional_requirements")
     = PyList (PyStr <$> ["Answer within a second"])
  /\ DocumentationAgent._format_requirements no_str no_order
       first_run_requirements
     = Ok (Str.lines
             [ "FUNCTIONAL REQUIREMENTS:"
             ; "- Add two integers"
             ; "- Subtract two integers"
             ; "- Multiply two integers"
             ; "- Divide two integers"
             ; EmptyString
             ; "NON-FUNCTIONAL REQUIREMENTS:"
             ; "- Answer within a second"
             ; EmptyString ]).
Proof.
  split; [reflexivity|]. split; [reflexivity|].
  destruct (documentation_format_requirements no_str no_order
              first_run_requirements
              ["Add two integers"; "Subtract two integers";
               "Multiply two integers"; "Divide two integers"]
              ["Answer within a second"]) as [-> _]; reflexivity.
Defined.

Lemma py_iter_scalar (dict_order : gmap string pyval -> list string) (v : pyval) :
  is_scalar v = true -> exists msg, py_iter dict_order v = Raise (TypeError msg).
Proof.
  destruct v; try discriminate; intros _; eexists; reflexivity.
Qed.

(** X15. Requirement entries are not checked before they are iterated.
    When the functional requirements are [None], a boolean or a number, the
    Deployment and Documentation stages raise [TypeError] before any call
    to the service, and so does the formatting of the Test stage.  When
    only the non-functional requirements are such a value, Documentation
    and Test still fail that way, while Deployment, which does not read
    them, formats its text. *)
Theorem ill_typed_requirements_fail (py_str : pyval -> string)
    (dict_order : gmap string pyval -> list string) (svc : service)
    (code : string) (requirements : gmap string pyval) (tr : list event) :
  (forall v,
     requirements !! "functional_requirements" = Some v ->
     is_scalar v = true ->
     exists msg,
       DeploymentAgent.generate_deployment_config_for py_str dict_order svc
         code requirements tr = (Raise (TypeError msg), tr)
       /\ DocumentationAgent.generate_documentation_for py_str dict_order svc
            code requirements tr = (Raise (TypeError msg), tr)
       /\ TestGenerationAgent._format_requirements py_str dict_order
            requirements = Raise (TypeError msg))
  /\ (forall fs v,
        default (PyList []) (requirements !! "functional_requirements")
        = PyList (PyStr <$> fs) ->
        requirements !! "non_functional_requirements" = Some v ->
        is_scalar v = true ->
        (exists msg,
           DocumentationAgent.generate_documentation_for py_str dict_order svc
             code requirements tr = (Raise (TypeError msg), tr)
           /\ TestGenerationAgent._format_requirements py_str dict_order
                requirements = Raise (TypeError msg))
        /\ DeploymentAgent._format_requirements py_str dict_order requirements
           = Ok ("FUNCTIONAL REQUIREMENTS:" +:+ Str.nl +:+ bullets fs)).
Proof.
  split.
  - intros v Hv Hs.
    destruct (py_iter_scalar dict_order v Hs) as [msg Hmsg]. exists msg.
    unfold DeploymentAgent.generate_deployment_config_for,
      DocumentationAgent.generate_documentation_for,
      DeploymentAgent._format_requirements,
      DocumentationAgent._format_requirements,
      TestGenerationAgent._format_requirements.
    rewrite Hv. cbn [default from_option id]. rewrite Hmsg.
    repeat split; reflexivity.
  - intros fs v Hf Hv Hs. split.
    + destruct (py_iter_scalar dict_order v Hs) as [msg Hmsg]. exists msg.
      unfold DocumentationAgent.generate_documentation_for,
        DocumentationAgent._format_requirements,
        TestGenerationAgent._format_requirements.
      rewrite Hf, Hv. cbn [default from_option id py_iter mbind result_bind].
      rewrite Hmsg. split; reflexivity.
    + unfold DeploymentAgent._format_requirements. rewrite Hf.
      cbn [py_iter mbind result_bind]. rewrite add_bullets_strings.
      rewrite !append_assoc. reflexivity.
Qed.

Lemma ill_typed_requirements_fail_witness :
  (exists msg,
     DeploymentAgent.generate_deployment_config_for no_str no_order
       (fails_once complete_reply) "def add(a, b): return a + b"
       (schema_record (<["functional_requirements" := PyNone]> ∅)) []
     = (Raise (TypeError msg), [])
     /\ DocumentationAgent.generate_documentation_for no_str no_order
          (fails_once complete_reply) "def add(a, b): return a + b"
          (schema_record (<["functional_requirements" := PyNone]> ∅)) []
        = (Raise (TypeError msg), [])
     /\ TestGenerationAgent._format_requirements no_str no_order
          (schema_record (<["functional_requirements" := PyNone]> ∅))
        = Raise (TypeError msg))
  /\ (exists msg,
        DocumentationAgent.generate_documentation_for no_str no_order
          (fails_once complete_reply) "def add(a, b): return a + b"
          null_nfr_record []
        = (Raise (TypeError msg), [])
        /\ TestGenerationAgent._format_requirements no_str no_order
             null_nfr_record = Raise (TypeError msg))
  /\ DeploymentAgent._format_requirements no_str no_order null_nfr_record
     = Ok ("FUNCTIONAL REQUIREMENTS:" +:+ Str.nl
           +:+ bullets ["Add two integers"]).
Proof.
  split.
  - destruct (ill_typed_requirements_fail no_str no_order
                (fails_once complete_reply) "def add(a, b): return a + b"
                (schema_record (<["functional_requirements" := PyNone]> ∅)) [])
      as [Ha _].
    apply (Ha PyNone); reflexivity.
  - destruct (ill_typed_requirements_fail no_str no_order
                (fails_once complete_reply) "def add(a, b): return a + b"
                null_nfr_record [])
      as [_ Hb].
    apply (Hb ["Add two integers"] PyNone); reflexivity.
Defined.

(** ** What the prompts of the later stages carry *)

Lemma bullet_in_bullets (r : string) (rs : list string) :
  r ∈ rs -> part_of ("- " +:+ r +:+ Str.nl) (bullets rs).
Proof.
  induction rs as [|x rs IH]; intros Hin.
  - apply elem_of_nil in Hin. destruct Hin.
  - apply elem_of_cons in Hin as [-> | Hin]; cbn [bullets].
    + exists EmptyString, (bullets rs).
      rewrite append_nil_l, !append_assoc. reflexivity.
    + do 3 apply part_of_left. apply IH, Hin.
Qed.

Lemma fenced_code_in_prompt (head req mid0 opening code closing tail0 : string) :
  part_of (opening +:+ code +:+ closing)
    (head +:+ req +:+ (mid0 +:+ opening) +:+ code +:+ (closing +:+ tail0)).
Proof.
  exists (head +:+ req +:+ mid0), tail0. rewrite !append_assoc. reflexivity.
Qed.

Lemma deployment_prompt_parts (req_text code : string) :
  part_of ("```python" +:+ Str.nl +:+ code +:+ Str.nl +:+ "```")
    (DeploymentAgent.compose_prompt req_text code)
  /\ forall x, part_of x req_text ->
               part_of x (DeploymentAgent.compose_prompt req_text code).
Proof.
  unfold DeploymentAgent.compose_prompt. split.
  - assert (DeploymentAgent.prompt_middle
            = (Str.nl +:+ Str.nl +:+ "GENERATED CODE:" +:+ Str.nl)
              +:+ ("```python" +:+ Str.nl)) as -> by reflexivity.
    assert (DeploymentAgent.prompt_tail
            = (Str.nl +:+ "```")
              +:+ String.substring 4 (String.length DeploymentAgent.prompt_tail)
                    DeploymentAgent.prompt_tail) as -> by (vm_compute; reflexivity).
    pose proof (fenced_code_in_prompt DeploymentAgent.prompt_head req_text
                  (Str.nl +:+ Str.nl +:+ "GENERATED CODE:" +:+ Str.nl)
                  ("```python" +:+ Str.nl) code (Str.nl +:+ "```")
                  (String.substring 4 (String.length DeploymentAgent.prompt_tail)
                     DeploymentAgent.prompt_tail)) as H.
    rewrite !append_assoc in H. rewrite !append_assoc. exact H.
  - intros x Hx. apply part_of_left, part_of_right, Hx.
Qed.

Lemma documentation_prompt_parts (req_text code : string) :
  part_of ("```python" +:+ Str.nl +:+ code +:+ Str.nl +:+ "```")
    (DocumentationAgent.compose_prompt req_text code)
  /\ forall x, part_of x req_text ->
               part_of x (DocumentationAgent.compose_prompt req_text code).
Proof.
  unfold DocumentationAgent.compose_prompt. split.
  - assert (DocumentationAgent.prompt_middle
            = (Str.nl +:+ Str.nl +:+ "GENERATED CODE:" +:+ Str.nl)
              +:+ ("```python" +:+ Str.nl)) as -> by reflexivity.
    assert (DocumentationAgent.prompt_tail
            = (Str.nl +:+ "```")
              +:+ String.substring 4 (String.length DocumentationAgent.prompt_tail)
                    DocumentationAgent.prompt_tail) as -> by (vm_compute; reflexivity).
    pose proof (fenced_code_in_prompt DocumentationAgent.prompt_head req_text
                  (Str.nl +:+ Str.nl +:+ "GENERATED CODE:" +:+ Str.nl)
                  ("```python" +:+ Str.nl) code (Str.nl +:+ "```")
                  (String.substring 4 (String.length DocumentationAgent.prompt_tail)
                     DocumentationAgent.prompt_tail)) as H.
    rewrite !append_assoc in H. rewrite !append_assoc. exact H.
  - intros x Hx. apply part_of_left, part_of_right, Hx.
Qed.

Lemma attempt_once_events (svc : service) (prompt : string) (n attempt : nat)
    (vars : DeploymentAgent.loop_vars) (tr : list event) :
  exists evs,
    snd (DeploymentAgent.attempt_once svc prompt n attempt vars tr)
    = tr ++ Called prompt :: evs
    /\ Forall (fun ev => ev = Called prompt \/ exists secs, ev = Slept secs) evs.
Proof.
  unfold DeploymentAgent.attempt_once, DeploymentAgent.handler, generate_reply,
    sleep.
  destruct (svc (calls tr) prompt) as [e|[|c]];
    repeat match goal with
           | |- context [if ?b then _ else _] => destruct b
           end; cbn [snd]; rewrite <- ?app_assoc;
    eexists; (split; [reflexivity|]);
    repeat (constructor; [right; eexists; reflexivity|]); constructor.
Qed.

Lemma retry_loop_events (svc : service) (prompt : string) (n : nat) :
  forall (attempts : list nat) (vars : DeploymentAgent.loop_vars)
         (tr : list event),
  exists evs,
    snd (DeploymentAgent.retry_loop svc prompt n attempts vars tr) = tr ++ evs
    /\ Forall (fun ev => ev = Called prompt \/ exists secs, ev = Slept secs) evs
    /\ (attempts <> [] -> exists evs', evs = Called prompt :: evs').
Proof.
  induction attempts as [|a attempts IH]; intros vars tr.
  - exists []. cbn. rewrite app_nil_r. repeat split; [constructor|congruence].
  - cbn [DeploymentAgent.retry_loop].
    destruct (attempt_once_events svc prompt n a vars tr) as (evs1 & H1 & F1).
    destruct (DeploymentAgent.attempt_once svc prompt n a vars tr) as [it tr1].
    cbn [snd] in H1. subst tr1.
    destruct it as [vars1|vars1|e].
    + destruct (IH vars1 (tr ++ Called prompt :: evs1)) as (evs2 & H2 & F2 & _).
      exists (Called prompt :: evs1 ++ evs2). rewrite H2.
      split; [rewrite <- app_assoc; reflexivity|].
      split; [|eauto].
      constructor; [auto|]. apply Forall_app. auto.
    + exists (Called prompt :: evs1). cbn [snd].
      split; [reflexivity|]. split; [constructor; auto|eauto].
    + exists (Called prompt :: evs1). cbn [snd].
      split; [reflexivity|]. split; [constructor; auto|eauto].
Qed.

(** X16. In a run of the Deployment stage on a record whose functional
    requirements are strings, every call to the service, the first and each
    retry, sends one and the same prompt; that prompt holds the code inside
    a [```python] fence and one bullet line for each functional
    requirement. *)
Theorem deployment_prompt_carries_inputs (py_str : pyval -> string)
    (dict_order : gmap string pyval -> list string) (svc : service)
    (code : string) (requirements : gmap string pyval) (fs : list string) :
  default (PyList []) (requirements !! "functional_requirements")
  = PyList (PyStr <$> fs) ->
  exists prompt evs,
    snd (DeploymentAgent.generate_deployment_config_for py_str dict_order svc
           code requirements [])
    = Called prompt :: evs
    /\ Forall (fun ev => ev = Called prompt \/ exists secs, ev = Slept secs) evs
    /\ part_of ("```python" +:+ Str.nl +:+ code +:+ Str.nl +:+ "```") prompt
    /\ forall r, r ∈ fs -> part_of ("- " +:+ r +:+ Str.nl) prompt.
Proof.
  intros Hf.
  set (req_text := "FUNCTIONAL REQUIREMENTS:" +:+ Str.nl +:+ bullets fs).
  assert (DeploymentAgent._format_requirements py_str dict_order requirements
          = Ok req_text) as Hreq.
  { unfold DeploymentAgent._format_requirements. rewrite Hf.
    cbn [py_iter mbind result_bind]. rewrite add_bullets_strings.
    unfold req_text. rewrite !append_assoc. reflexivity. }
  set (prompt := DeploymentAgent.compose_prompt req_text code).
  destruct (retry_loop_events svc prompt DeploymentAgent.max_retries
              (seq 0 DeploymentAgent.max_retries)
              {| DeploymentAgent.content := None;
                 DeploymentAgent.last_error := None |} [])
    as (evs & Hevs & Fevs & Hfirst).
  destruct Hfirst as [evs' ->]; [discriminate|].
  exists prompt, evs'.
  split.
  - unfold DeploymentAgent.generate_deployment_config_for. rewrite Hreq.
    fold prompt.
    unfold DeploymentAgent.generate_deployment_config, DeploymentAgent.invoke.
    destruct (DeploymentAgent.retry_loop svc prompt DeploymentAgent.max_retries
                (seq 0 DeploymentAgent.max_retries) _ [])
      as [[vars|e] tr1]; cbn [snd] in Hevs; subst tr1.
    + destruct (DeploymentAgent.check_content _ vars); reflexivity.
    + reflexivity.
  - split; [inversion Fevs; assumption|].
    destruct (deployment_prompt_parts req_text code) as [Hcode Hpart].
    split; [exact Hcode|].
    intros r Hr. apply Hpart. unfold req_text.
    do 2 apply part_of_left. apply bullet_in_bullets, Hr.
Qed.

Lemma deployment_prompt_carries_inputs_witness :
  exists prompt evs,
    snd (DeploymentAgent.generate_deployment_config_for no_str no_order
           (fails_twice complete_reply) "def add(a, b): return a + b"
           first_run_requirements [])
    = Called prompt :: evs
    /\ Forall (fun ev => ev = Called prompt \/ exists secs, ev = Slept secs) evs
    /\ part_of ("```python" +:+ Str.nl +:+ "def add(a, b): return a + b"
                +:+ Str.nl +:+ "```") prompt
    /\ forall r, r ∈ ["Add two integers"; "Subtract two integers";
                      "Multiply two integers"; "Divide two integers"] ->
                 part_of ("- " +:+ r +:+ Str.nl) prompt.
Proof.
  apply (deployment_prompt_carries_inputs no_str no_order
           (fails_twice complete_reply) "def add(a, b): return a + b"
           first_run_requirements
           ["Add two integers"; "Subtract two integers";
            "Multiply two integers"; "Divide two integers"]).
  reflexivity.
Defined.

(** X17. On a record whose two requirement lists hold strings, the
    Documentation stage calls the service exactly once, and the prompt it
    sends holds the code inside a [```python] fence and one bullet line for
    each functional and each non-functional requirement. *)
Theorem documentation_prompt_carries_inputs (py_str : pyval -> string)
    (dict_order : gmap string pyval -> list string) (svc : service)
    (code : string) (requirements : gmap string pyval) (fs nfs : list string)
    (tr : list event) :
  default (PyList []) (requirements !! "functional_requirements")
  = PyList (PyStr <$> fs) ->
  default (PyList []) (requirements !! "non_functional_requirements")
  = PyList (PyStr <$> nfs) ->
  exists prompt,
    snd (DocumentationAgent.generate_documentation_for py_str dict_order svc
           code requirements tr)
    = tr ++ [Called prompt]
    /\ part_of ("```python" +:+ Str.nl +:+ code +:+ Str.nl +:+ "```") prompt
    /\ forall r, r ∈ fs ++ nfs -> part_of ("- " +:+ r +:+ Str.nl) prompt.
Proof.
  intros Hf Hn.
  set (req_text := "FUNCTIONAL REQUIREMENTS:" +:+ Str.nl +:+ bullets fs
                   +:+ Str.nl +:+ "NON-FUNCTIONAL REQUIREMENTS:" +:+ Str.nl
                   +:+ bullets nfs).
  assert (DocumentationAgent._format_requirements py_str dict_order requirements
          = Ok req_text) as Hreq.
  { unfold DocumentationAgent._format_requirements. rewrite Hf, Hn.
    cbn [py_iter mbind result_bind]. rewrite !add_bullets_strings.
    unfold req_text. rewrite !append_assoc. reflexivity. }
  exists (DocumentationAgent.compose_prompt req_text code).
  split.
  - unfold DocumentationAgent.generate_documentation_for. rewrite Hreq.
    unfold DocumentationAgent.generate_documentation, generate_reply.
    destruct (svc (calls tr) _) as [e|[|c]]; reflexivity.
  - destruct (documentation_prompt_parts req_text code) as [Hcode Hpart].
    split; [exact Hcode|].
    intros r Hr. apply Hpart. unfold req_text.
    apply elem_of_app in Hr as [Hr | Hr].
    + do 2 apply part_of_left. apply part_of_right.
      apply bullet_in_bullets, Hr.
    + do 6 apply part_of_left. apply bullet_in_bullets, Hr.
Qed.

Lemma documentation_prompt_carries_inputs_witness :
  exists prompt,
    snd (DocumentationAgent.generate_documentation_for no_str no_order
           answers_empty "def add(a, b): return a + b"
           first_run_requirements [])
    = [] ++ [Called prompt]
    /\ part_of ("```python" +:+ Str.nl +:+ "def add(a, b): return a + b"
                +:+ Str.nl +:+ "```") prompt
    /\ forall r, r ∈ ["Add two integers"; "Subtract two integers";
                      "Multiply two integers"; "Divide two integers"]
                     ++ ["Answer within a second"] ->
                 part_of ("- " +:+ r +:+ Str.nl) prompt.
Proof.
  apply (documentation_prompt_carries_inputs no_str no_order answers_empty
           "def add(a, b): return a + b" first_run_requirements
           ["Add two integers"; "Subtract two integers";
            "Multiply two integers"; "Divide two integers"]
           ["Answer within a second"] []); reflexivity.
Defined.

(** ** The Deployment parser: a reply without the setup section *)

(** X18. When the reply leaves out the [SETUP_INSTRUCTIONS] marker, the
    requirements section ends at [GITHUB_PUSH] instead: the requirements,
    the push instructions and the hosting text are still taken from the
    reply, and only the setup instructions are the canned default. *)
Theorem parse_reply_without_setup (pre r g h : string) :
  lacks "[" pre = true -> lacks "[" r = true -> lacks "[" g = true ->
  Str.contains DeploymentAgent.SETUP_INSTRUCTIONS h = false ->
  DeploymentAgent._parse_deployment_output
    (pre +:+ DeploymentAgent.REQUIREMENTS +:+ r
     +:+ DeploymentAgent.GITHUB_PUSH +:+ g
     +:+ DeploymentAgent.HOSTING_PLATFORMS +:+ h)
  = <["requirements" :=
        DeploymentAgent.or_default (Str.strip r)
          DeploymentAgent._generate_default_requirements]>
    (<["setup_instructions" := DeploymentAgent._generate_default_setup]>
    (<["github_push" :=
         DeploymentAgent.or_default (Str.strip g)
           DeploymentAgent._generate_default_github_push]>
    (<["hosting_platforms" :=
         DeploymentAgent.or_default (Str.strip h)
           DeploymentAgent._generate_default_hosting_platforms]> ∅))).
Proof.
  intros Hpre Hr Hg Hh.
  unfold DeploymentAgent.REQUIREMENTS, DeploymentAgent.SETUP_INSTRUCTIONS,
    DeploymentAgent.GITHUB_PUSH, DeploymentAgent.HOSTING_PLATFORMS in *.
  set (c4 := "[HOSTING_PLATFORMS]" +:+ h).
  set (c3 := "[GITHUB_PUSH]" +:+ g +:+ c4).
  set (content := pre +:+ "[REQUIREMENTS]" +:+ r +:+ c3).
  assert (String.index 0 "[SETUP_INSTRUCTIONS]" h = None) as Hh'.
  { unfold Str.contains in Hh.
    destruct (String.index 0 "[SETUP_INSTRUCTIONS]" h); [discriminate|reflexivity]. }
  assert (Str.contains "[SETUP_INSTRUCTIONS]" content = false) as Hsetup.
  { unfold Str.contains, content, c3, c4. index_chain. rewrite Hh'. reflexivity. }
  assert (first_from DeploymentAgent.REQUIREMENTS content 0 (String.length pre))
    as F1.
  { apply index_first. unfold content, DeploymentAgent.REQUIREMENTS.
    index_chain. f_equal. lia. }
  assert (first_from DeploymentAgent.GITHUB_PUSH content
            (String.length pre + String.length DeploymentAgent.REQUIREMENTS)
            (String.length pre + String.length DeploymentAgent.REQUIREMENTS
             + String.length r)) as F1'.
  { apply index_first. unfold content, c3, DeploymentAgent.GITHUB_PUSH.
    apply (closer_index "[" pre "[REQUIREMENTS]" r). exact Hr. }
  set (A3 := pre +:+ "[REQUIREMENTS]" +:+ r).
  assert (content = A3 +:+ "[GITHUB_PUSH]" +:+ g +:+ c4) as E3.
  { unfold content, c3, A3. rewrite !append_assoc. reflexivity. }
  assert (first_from DeploymentAgent.GITHUB_PUSH content 0 (String.length A3))
    as F3.
  { apply index_first. unfold content, c3, A3, DeploymentAgent.GITHUB_PUSH.
    index_chain. f_equal. rewrite !append_length. simpl. lia. }
  assert (first_from DeploymentAgent.HOSTING_PLATFORMS content
            (String.length A3 + String.length DeploymentAgent.GITHUB_PUSH)
            (String.length A3 + String.length DeploymentAgent.GITHUB_PUSH
             + String.length g)) as F3'.
  { apply index_first. rewrite E3. unfold c4, DeploymentAgent.HOSTING_PLATFORMS.
    apply (closer_index "[" _ "[GITHUB_PUSH]" g). exact Hg. }
  set (A4 := A3 +:+ "[GITHUB_PUSH]" +:+ g).
  assert (content = A4 +:+ "[HOSTING_PLATFORMS]" +:+ h) as E4.
  { rewrite E3. unfold c4, A4. rewrite !append_assoc. reflexivity. }
  assert (first_from DeploymentAgent.HOSTING_PLATFORMS content 0
            (String.length A4)) as F4.
  { apply index_first.
    unfold content, c3, c4, A4, A3, DeploymentAgent.HOSTING_PLATFORMS.
    index_chain. f_equal. rewrite !append_length. simpl. lia. }
  assert (absent_from DeploymentAgent.SETUP_INSTRUCTIONS content
            (String.length pre + String.length DeploymentAgent.REQUIREMENTS))
    as Habs.
  { apply contains_false_absent; [done|exact Hsetup]. }
  unfold DeploymentAgent._parse_deployment_output.
  rewrite (extract_requirements_found content _ _ F1 (or_intror (conj Habs F1'))).
  rewrite (extract_github_found content _ _ F3 F3').
  rewrite (extract_hosting_found content _ F4).
  assert (DeploymentAgent.extract_setup_instructions content = EmptyString) as ->.
  { unfold DeploymentAgent.extract_setup_instructions,
      DeploymentAgent.SETUP_INSTRUCTIONS. rewrite Hsetup. reflexivity. }
  assert (text_between content
            (String.length pre + String.length DeploymentAgent.REQUIREMENTS)
            (String.length pre + String.length DeploymentAgent.REQUIREMENTS
             + String.length r) = r) as ->.
  { unfold content. apply (section_text pre "[REQUIREMENTS]" r). }
  assert (text_between content
            (String.length A3 + String.length DeploymentAgent.GITHUB_PUSH)
            (String.length A3 + String.length DeploymentAgent.GITHUB_PUSH
             + String.length g) = g) as ->.
  { rewrite E3. apply (section_text _ "[GITHUB_PUSH]" g). }
  assert (text_after content
            (String.length A4 + String.length DeploymentAgent.HOSTING_PLATFORMS)
          = h) as ->.
  { unfold text_after, DeploymentAgent.HOSTING_PLATFORMS.
    rewrite E4, <- (append_assoc A4), <- append_length.
    rewrite (append_length (A4 +:+ "[HOSTING_PLATFORMS]") h).
    replace (String.length (A4 +:+ "[HOSTING_PLATFORMS]") + String.length h
             - String.length (A4 +:+ "[HOSTING_PLATFORMS]"))%nat
      with (String.length h) by lia.
    apply substring_append_tail. }
  reflexivity.
Qed.

Lemma parse_reply_without_setup_witness :
  lacks "[" EmptyString = true
  /\ lacks "[" " flask>=2.0 " = true
  /\ lacks "[" " git push origin main " = true
  /\ Str.contains DeploymentAgent.SETUP_INSTRUCTIONS " Render" = false
  /\ DeploymentAgent._parse_deployment_output
       (EmptyString +:+ DeploymentAgent.REQUIREMENTS +:+ " flask>=2.0 "
        +:+ DeploymentAgent.GITHUB_PUSH +:+ " git push origin main "
        +:+ DeploymentAgent.HOSTING_PLATFORMS +:+ " Render")
     = <["requirements" := "flask>=2.0"]>
       (<["setup_instructions" := DeploymentAgent._generate_default_setup]>
       (<["github_push" := "git push origin main"]>
       (<["hosting_platforms" := "Render"]> ∅))).
Proof.
  split; [reflexivity|]. split; [reflexivity|].
  split; [reflexivity|]. split; [reflexivity|].
  rewrite (parse_reply_without_setup EmptyString " flask>=2.0 "
             " git push origin main " " Render"); reflexivity.
Defined.

(** ** The Requirement prompt: the summary of the previous code *)

Lemma slice_to_200 (s : string) :
  (200 < String.length s)%nat ->
  Str.slice_to s 200 = String.substring 0 200 s.
Proof.
  intros Hlen. unfold Str.slice_to, Str.slice, Str.clip, Str.len.
  cbn [Z.ltb Z.compare]. rewrite !Z.min_l by lia. reflexivity.
Qed.

(** X19. In a follow-up run whose context carries previous code, a prompt
    that is composed holds one line for that code: the code itself when it
    has at most 200 characters, and its first 200 characters followed by
    three dots otherwise, so at most 203 characters of it. *)
Theorem follow_up_code_summary (user_input : string)
    (ctx : RequirementAnalysisAgent.context_t)
    (pr : RequirementAnalysisAgent.previous_results_t) (prompt : string) :
  RequirementAnalysisAgent.is_active ctx = true ->
  RequirementAnalysisAgent.previous_results ctx = Some pr ->
  RequirementAnalysisAgent.code pr <> EmptyString ->
  RequirementAnalysisAgent.compose_prompt user_input (Some ctx) = Ok prompt ->
  exists summary,
    part_of ("Previous code summary: " +:+ summary +:+ Str.nl) prompt
    /\ (String.length summary <= 203)%nat
    /\ ((String.length (RequirementAnalysisAgent.code pr) <= 200)%nat ->
        summary = RequirementAnalysisAgent.code pr)
    /\ ((200 < String.length (RequirementAnalysisAgent.code pr))%nat ->
        summary
        = String.substring 0 200 (RequirementAnalysisAgent.code pr) +:+ "...").
Proof.
  intros Hact Hres Hcode Hprompt.
  set (c := RequirementAnalysisAgent.code pr) in *.
  exists (if Str.len c >? 200 then Str.slice_to c 200 +:+ "..." else c).
  split.
  - unfold RequirementAnalysisAgent.compose_prompt,
      RequirementAnalysisAgent.context_section in Hprompt.
    rewrite Hact, Hres in Hprompt.
    assert (bool_decide (is_Some (Some pr)) = true) as Hsome
      by (apply bool_decide_eq_true; eexists; reflexivity).
    rewrite Hsome, orb_true_r in Hprompt.
    assert (Str.truthy c = true) as Htruthy.
    { unfold Str.truthy. destruct c; [congruence|reflexivity]. }
    fold c in Hprompt. rewrite Htruthy in Hprompt.
    destruct (truthy (PyDict (RequirementAnalysisAgent.requirements pr))).
    + destruct (dict_get _ _ _) as [fr|e]; [|discriminate Hprompt].
      cbn [mbind result_bind] in Hprompt.
      destruct (RequirementAnalysisAgent.join_first3 fr) as [joined|e];
        [|discriminate Hprompt].
      cbn [mbind result_bind] in Hprompt.
      injection Hprompt as <-.
      apply part_of_left, part_of_right, part_of_right, part_of_left.
      apply part_of_refl.
    + cbn [mbind result_bind] in Hprompt.
      injection Hprompt as <-.
      apply part_of_left, part_of_right, part_of_right, part_of_left.
      apply part_of_refl.
  - unfold Str.len.
    destruct (Z.gtb_spec (Z.of_nat (String.length c)) 200) as [Hlong|Hshort].
    + rewrite slice_to_200 by lia.
      split; [|split; [intros; exfalso; lia|reflexivity]].
      rewrite append_length, substring_length.
      change (String.length "...") with 3%nat. lia.
    + split; [lia|]. split; [reflexivity|intros; exfalso; lia].
Qed.

Lemma follow_up_code_summary_witness :
  let pr :=
    {| RequirementAnalysisAgent.requirements := first_run_requirements;
       RequirementAnalysisAgent.code := "def add(a, b): return a + b" |} in
  let prompt :=
    RequirementAnalysisAgent.prompt_head
    +:+ (Str.nl +:+ Str.nl +:+ "PREVIOUS CONTEXT:" +:+ Str.nl
         +:+ "Previous prompt(s): Build a calculator" +:+ Str.nl
         +:+ "Previous functional requirements: Add two integers, Subtract two integers, Multiply two integers"
         +:+ Str.nl
         +:+ "Previous code summary: def add(a, b): return a + b" +:+ Str.nl
         +:+ RequirementAnalysisAgent.follow_up_note)
    +:+ RequirementAnalysisAgent.prompt_middle
    +:+ "Also support division by zero checks"
    +:+ RequirementAnalysisAgent.prompt_tail in
  RequirementAnalysisAgent.compose_prompt "Also support division by zero checks"
    (Some follow_up_context) = Ok prompt
  /\ exists summary,
       part_of ("Previous code summary: " +:+ summary +:+ Str.nl) prompt
       /\ (String.length summary <= 203)%nat
       /\ ((String.length (RequirementAnalysisAgent.code pr) <= 200)%nat ->
           summary = RequirementAnalysisAgent.code pr)
       /\ ((200 < String.length (RequirementAnalysisAgent.code pr))%nat ->
           summary
           = String.substring 0 200 (RequirementAnalysisAgent.code pr)
             +:+ "...").
Proof.
  intros pr prompt.
  assert (RequirementAnalysisAgent.compose_prompt
            "Also support division by zero checks" (Some follow_up_context)
          = Ok prompt) as Hprompt by (vm_compute; reflexivity).
  split; [exact Hprompt|].
  apply (follow_up_code_summary "Also support division by zero checks"
           follow_up_context pr prompt);
    [reflexivity|reflexivity|discriminate|exact Hprompt].
Defined.
